(** * FluentFuse: matchmaking and session models

    A shallow embedding of the behaviour-bearing SQLAlchemy models of
    [app/db/models/match.py] ([MatchCandidate], [Match]) and
    [app/db/models/session.py] ([Session]), and the properties of the
    proposal protocol, the candidate registry, the compatibility scorer
    and the session lifecycle that hold of them.

    Conventions of the embedding.
    - A Python object mutated in place is a record; a method is a function
      from the record before the call to the record after it.  A method
      that can raise returns an [outcome]: the object as the call left it,
      and the exception when there is one.
    - [datetime.utcnow()] is an input: every call of it inside a method is
      one argument of the model ([now], and [now2] for the second reading
      taken by a nested call).
    - A [datetime] is the number of microseconds since the epoch, a
      [timedelta] a number of microseconds; [int(d.total_seconds())] is the
      quotient by 10^6 truncated towards zero.
    - A nullable column is an [option]; [None] is Python's [None].
    - A [Float] column is an exact rational ([Q]).  The scorer is written
      once over an arithmetic interface; the method is its instance at IEEE
      binary64 ([PrimFloat]), and the instance at [Q] is the same loop in
      idealised arithmetic.
    - A timestamp column read back from the database can be offset-aware,
      and subtracting it from [datetime.utcnow()] raises [TypeError].
      [Session] covers rows whose timestamps are naive; [TzSession] embeds
      the methods that subtract a timestamp over rows of either kind.
    - Every column of the three models is a field of its record.  The
      methods embedded are the state-changing ones of the proposal protocol,
      the candidate registry and the session lifecycle, with the properties
      they read, the blocklist, the daily rejection counter, the message
      counters, prompts and moderation flags; serialisation ([to_dict],
      [get_session_stats], [__repr__]) and [get_language_for_user] are left
      out. *)

From Stdlib Require Import ZArith QArith String List Bool Lia Lqa Floats Uint63.
From stdpp Require Import base decidable option gmap strings.
Import ListNotations.

Local Open Scope string_scope.
Local Open Scope Z_scope.

(** ** Values shared by the models *)

(** [uuid.UUID]: a 128-bit identifier; only equality is used. *)
Definition UUID : Type := N.

(** Naive UTC instants and durations, in microseconds. *)
Definition datetime : Type := Z.
Definition timedelta : Type := Z.

Definition microseconds_per_second : Z := 1000000.

(** [timedelta(minutes=m)] *)
Definition timedelta_minutes (m : Z) : timedelta := m * 60 * microseconds_per_second.

(** [int(d.total_seconds())]: [total_seconds] is the quotient by 10^6 as a
    float and [int] truncates towards zero; for a duration below 2^32
    seconds the rounding of the float never reaches the next integer, and
    the result is the truncated quotient. *)
Definition int_total_seconds (d : timedelta) : Z := Z.quot d microseconds_per_second.

(** The exceptions the modelled methods can raise. *)
Inductive exn : Type :=
| ValueError (msg : string)
| ZeroDivisionError.

(** The result of a method that mutates [self] and may raise: the object as
    the call left it, and the exception when the call did not return. *)
Inductive outcome (A : Type) : Type :=
| Returned (self : A)
| Raised (e : exn) (self : A).
Arguments Returned {A} self.
Arguments Raised {A} e self.

Definition final_state {A : Type} (o : outcome A) : A :=
  match o with Returned s => s | Raised _ s => s end.

(** Sequencing of two calls on the same object: the second call runs only
    when the first one returned. *)
Definition and_then {A : Type} (o : outcome A) (k : A -> outcome A) : outcome A :=
  match o with Returned s => k s | Raised e s => Raised e s end.

(** [o == "literal"] for a nullable string column. *)
Definition str_eq (o : option string) (s : string) : bool :=
  match o with Some r => String.eqb r s | None => false end.

(** [d.date()]: the calendar day of a naive instant, as a day number. *)
Definition date_of (d : datetime) : Z := d / (86400 * microseconds_per_second).

(** [l.remove(x)] on a list that holds [x]: the first occurrence goes. *)
Fixpoint list_remove (x : UUID) (l : list UUID) : list UUID :=
  match l with
  | [] => []
  | y :: l' => if decide (x = y) then l' else y :: list_remove x l'
  end.

(** [l[i]] for a list and an integer index: a negative index counts from
    the end; [None] stands for the [IndexError] of an index out of range. *)
Definition py_index {A : Type} (l : list A) (i : Z) : option A :=
  let n := Z.of_nat (length l) in
  if 0 <=? i then nth_error l (Z.to_nat i)
  else if - n <=? i then nth_error l (Z.to_nat (n + i))
  else None.

(** The exception of a list index out of range. *)
Inductive index_exn : Type := IndexError.

(** ** Float arithmetic as an interface

    [calculate_match_quality_score] uses float literals, [+], [*], and the
    comparisons behind the builtins [min] and [max].  The interface has two
    instances: exact rationals, and IEEE binary64, where [flt] is false as
    soon as an operand is a NaN. *)

Class FloatOps (F : Type) : Type := {
  of_decimal : Q -> F;      (* the value of a decimal literal such as 0.25 *)
  fadd : F -> F -> F;
  fmul : F -> F -> F;
  flt : F -> F -> bool      (* Python's [<] *)
}.

(** The builtin [max(a, b)]: the first argument is kept unless a later one
    compares greater ([b > a]); [min(a, b)] keeps it unless [b < a]. *)
Definition py_max {F : Type} `{FloatOps F} (a b : F) : F := if flt a b then b else a.
Definition py_min {F : Type} `{FloatOps F} (a b : F) : F := if flt b a then b else a.

#[global] Instance Q_ops : FloatOps Q := {|
  of_decimal q := q;
  fadd := Qplus;
  fmul := Qmult;
  flt x y := negb (Qle_bool y x)
|}.

(** A small integer as a binary64 value (exact below 2^53). *)
Definition float_of_Z (z : Z) : float :=
  match z with
  | Z0 => PrimFloat.of_uint63 0%uint63
  | Zpos _ => PrimFloat.of_uint63 (Uint63.of_Z z)
  | Zneg p => PrimFloat.opp (PrimFloat.of_uint63 (Uint63.of_Z (Zpos p)))
  end.

(** A decimal literal is read as the binary64 value nearest to it: the
    correctly rounded quotient of its numerator and denominator. *)
#[global] Instance binary64_ops : FloatOps float := {|
  of_decimal q := PrimFloat.div (float_of_Z (Qnum q)) (float_of_Z (Zpos (Qden q)));
  fadd := PrimFloat.add;
  fmul := PrimFloat.mul;
  flt := PrimFloat.ltb
|}.

(** ** Enumerations of [match.py] *)

Module MatchCandidateStatus.
Inductive t : Type := IDLE | QUEUED | PROPOSED | MATCHED | COOLDOWN.
#[global] Instance eq_dec : EqDecision t.
Proof. solve_decision. Defined.
End MatchCandidateStatus.

Module MatchState.
Inductive t : Type := PROPOSED | ACCEPTED | REJECTED | EXPIRED | SESSION_CREATED.
#[global] Instance eq_dec : EqDecision t.
Proof. solve_decision. Defined.
End MatchState.

(** ** [class MatchCandidate] *)

Module MatchCandidate.

Record t : Type := mk {
  id : UUID;
  user_id : UUID;
  status : MatchCandidateStatus.t;
  queued_at : option datetime;
  last_match_at : option datetime;
  queue_priority : Q;
  average_rating : Q;
  total_ratings : Z;
  strike_count : Z;
  successful_matches : Z;
  blocked_user_ids : list UUID;
  cooldown_until : option datetime;
  cooldown_reason : option string;
  rejection_count_today : Z;
  last_rejection_reset : option datetime;
  preferred_session_length : option Z;
  max_level_difference : Z;
  same_timezone_only : bool;
  current_match_id : option UUID;
  created_at : datetime;
  updated_at : datetime
}.

Definition set_status (v : MatchCandidateStatus.t) (o : t) : t :=
  {| id := id o; user_id := user_id o; status := v; queued_at := queued_at o;
     last_match_at := last_match_at o; queue_priority := queue_priority o;
     average_rating := average_rating o; total_ratings := total_ratings o;
     strike_count := strike_count o; successful_matches := successful_matches o;
     blocked_user_ids := blocked_user_ids o; cooldown_until := cooldown_until o;
     cooldown_reason := cooldown_reason o; rejection_count_today := rejection_count_today o;
     last_rejection_reset := last_rejection_reset o;
     preferred_session_length := preferred_session_length o;
     max_level_difference := max_level_difference o;
     same_timezone_only := same_timezone_only o; current_match_id := current_match_id o;
     created_at := created_at o; updated_at := updated_at o |}.

Definition set_queued_at (v : option datetime) (o : t) : t :=
  {| id := id o; user_id := user_id o; status := status o; queued_at := v;
     last_match_at := last_match_at o; queue_priority := queue_priority o;
     average_rating := average_rating o; total_ratings := total_ratings o;
     strike_count := strike_count o; successful_matches := successful_matches o;
     blocked_user_ids := blocked_user_ids o; cooldown_until := cooldown_until o;
     cooldown_reason := cooldown_reason o; rejection_count_today := rejection_count_today o;
     last_rejection_reset := last_rejection_reset o;
     preferred_session_length := preferred_session_length o;
     max_level_difference := max_level_difference o;
     same_timezone_only := same_timezone_only o; current_match_id := current_match_id o;
     created_at := created_at o; updated_at := updated_at o |}.

Definition set_queue_priority (v : Q) (o : t) : t :=
  {| id := id o; user_id := user_id o; status := status o; queued_at := queued_at o;
     last_match_at := last_match_at o; queue_priority := v;
     average_rating := average_rating o; total_ratings := total_ratings o;
     strike_count := strike_count o; successful_matches := successful_matches o;
     blocked_user_ids := blocked_user_ids o; cooldown_until := cooldown_until o;
     cooldown_reason := cooldown_reason o; rejection_count_today := rejection_count_today o;
     last_rejection_reset := last_rejection_reset o;
     preferred_session_length := preferred_session_length o;
     max_level_difference := max_level_difference o;
     same_timezone_only := same_timezone_only o; current_match_id := current_match_id o;
     created_at := created_at o; updated_at := updated_at o |}.

Definition set_average_rating (v : Q) (o : t) : t :=
  {| id := id o; user_id := user_id o; status := status o; queued_at := queued_at o;
     last_match_at := last_match_at o; queue_priority := queue_priority o;
     average_rating := v; total_ratings := total_ratings o; strike_count := strike_count o;
     successful_matches := successful_matches o; blocked_user_ids := blocked_user_ids o;
     cooldown_until := cooldown_until o; cooldown_reason := cooldown_reason o;
     rejection_count_today := rejection_count_today o;
     last_rejection_reset := last_rejection_reset o;
     preferred_session_length := preferred_session_length o;
     max_level_difference := max_level_difference o;
     same_timezone_only := same_timezone_only o; current_match_id := current_match_id o;
     created_at := created_at o; updated_at := updated_at o |}.

Definition set_total_ratings (v : Z) (o : t) : t :=
  {| id := id o; user_id := user_id o; status := status o; queued_at := queued_at o;
     last_match_at := last_match_at o; queue_priority := queue_priority o;
     average_rating := average_rating o; total_ratings := v; strike_count := strike_count o;
     successful_matches := successful_matches o; blocked_user_ids := blocked_user_ids o;
     cooldown_until := cooldown_until o; cooldown_reason := cooldown_reason o;
     rejection_count_today := rejection_count_today o;
     last_rejection_reset := last_rejection_reset o;
     preferred_session_length := preferred_session_length o;
     max_level_difference := max_level_difference o;
     same_timezone_only := same_timezone_only o; current_match_id := current_match_id o;
     created_at := created_at o; updated_at := updated_at o |}.

Definition set_strike_count (v : Z) (o : t) : t :=
  {| id := id o; user_id := user_id o; status := status o; queued_at := queued_at o;
     last_match_at := last_match_at o; queue_priority := queue_priority o;
     average_rating := average_rating o; total_ratings := total_ratings o; strike_count := v;
     successful_matches := successful_matches o; blocked_user_ids := blocked_user_ids o;
     cooldown_until := cooldown_until o; cooldown_reason := cooldown_reason o;
     rejection_count_today := rejection_count_today o;
     last_rejection_reset := last_rejection_reset o;
     preferred_session_length := preferred_session_length o;
     max_level_difference := max_level_difference o;
     same_timezone_only := same_timezone_only o; current_match_id := current_match_id o;
     created_at := created_at o; updated_at := updated_at o |}.

Definition set_cooldown_until (v : option datetime) (o : t) : t :=
  {| id := id o; user_id := user_id o; status := status o; queued_at := queued_at o;
     last_match_at := last_match_at o; queue_priority := queue_priority o;
     average_rating := average_rating o; total_ratings := total_ratings o;
     strike_count := strike_count o; successful_matches := successful_matches o;
     blocked_user_ids := blocked_user_ids o; cooldown_until := v;
     cooldown_reason := cooldown_reason o; rejection_count_today := rejection_count_today o;
     last_rejection_reset := last_rejection_reset o;
     preferred_session_length := preferred_session_length o;
     max_level_difference := max_level_difference o;
     same_timezone_only := same_timezone_only o; current_match_id := current_match_id o;
     created_at := created_at o; updated_at := updated_at o |}.

Definition set_cooldown_reason (v : option string) (o : t) : t :=
  {| id := id o; user_id := user_id o; status := status o; queued_at := queued_at o;
     last_match_at := last_match_at o; queue_priority := queue_priority o;
     average_rating := average_rating o; total_ratings := total_ratings o;
     strike_count := strike_count o; successful_matches := successful_matches o;
     blocked_user_ids := blocked_user_ids o; cooldown_until := cooldown_until o;
     cooldown_reason := v; rejection_count_today := rejection_count_today o;
     last_rejection_reset := last_rejection_reset o;
     preferred_session_length := preferred_session_length o;
     max_level_difference := max_level_difference o;
     same_timezone_only := same_timezone_only o; current_match_id := current_match_id o;
     created_at := created_at o; updated_at := updated_at o |}.

(** [@property is_available] *)
Definition is_available (now : datetime) (self : t) : bool :=
  bool_decide (status self = MatchCandidateStatus.IDLE)
  && match cooldown_until self with None => true | Some u => u <=? now end
  && (strike_count self <? 3).

(** [@property is_in_cooldown] *)
Definition is_in_cooldown (now : datetime) (self : t) : bool :=
  match cooldown_until self with
  | None => false
  | Some u => now <? u
  end.

(** [add_to_queue] *)
Definition add_to_queue (now : datetime) (priority : Q) (self : t) : t :=
  let self := set_status MatchCandidateStatus.QUEUED self in
  let self := set_queued_at (Some now) self in
  set_queue_priority priority self.

(** [remove_from_queue] *)
Definition remove_from_queue (self : t) : t :=
  let self := set_status MatchCandidateStatus.IDLE self in
  let self := set_queued_at None self in
  set_queue_priority 0%Q self.

(** [add_cooldown] *)
Definition add_cooldown (now : datetime) (duration_minutes : Z) (reason : string)
    (self : t) : t :=
  let self := set_status MatchCandidateStatus.COOLDOWN self in
  let self := set_cooldown_until (Some (now + timedelta_minutes duration_minutes)) self in
  set_cooldown_reason (Some reason) self.

(** [add_rating]: [total_ratings] is incremented before the division, so a
    division by zero leaves the incremented count behind. *)
Definition add_rating (rating : Q) (self : t) : outcome t :=
  let total_score := (average_rating self * inject_Z (total_ratings self))%Q in
  let self := set_total_ratings (total_ratings self + 1) self in
  if decide (total_ratings self = 0) then Raised ZeroDivisionError self
  else
    Returned
      (set_average_rating ((total_score + rating) / inject_Z (total_ratings self))%Q self).

(** [add_strike]; the clock is read by the nested [add_cooldown]. *)
Definition add_strike (now : datetime) (self : t) : t :=
  let self := set_strike_count (strike_count self + 1) self in
  if 3 <=? strike_count self
  then add_cooldown now (60 * 24) "excessive_strikes" self
  else self.


(** *** The daily rejection counter and the blocklist *)

Definition set_blocked_user_ids (v : list UUID) (o : t) : t :=
  {| id := id o; user_id := user_id o; status := status o; queued_at := queued_at o;
     last_match_at := last_match_at o; queue_priority := queue_priority o;
     average_rating := average_rating o; total_ratings := total_ratings o;
     strike_count := strike_count o; successful_matches := successful_matches o;
     blocked_user_ids := v; cooldown_until := cooldown_until o;
     cooldown_reason := cooldown_reason o; rejection_count_today := rejection_count_today o;
     last_rejection_reset := last_rejection_reset o;
     preferred_session_length := preferred_session_length o;
     max_level_difference := max_level_difference o;
     same_timezone_only := same_timezone_only o; current_match_id := current_match_id o;
     created_at := created_at o; updated_at := updated_at o |}.

Definition set_rejection_count_today (v : Z) (o : t) : t :=
  {| id := id o; user_id := user_id o; status := status o; queued_at := queued_at o;
     last_match_at := last_match_at o; queue_priority := queue_priority o;
     average_rating := average_rating o; total_ratings := total_ratings o;
     strike_count := strike_count o; successful_matches := successful_matches o;
     blocked_user_ids := blocked_user_ids o; cooldown_until := cooldown_until o;
     cooldown_reason := cooldown_reason o; rejection_count_today := v;
     last_rejection_reset := last_rejection_reset o;
     preferred_session_length := preferred_session_length o;
     max_level_difference := max_level_difference o;
     same_timezone_only := same_timezone_only o; current_match_id := current_match_id o;
     created_at := created_at o; updated_at := updated_at o |}.

Definition set_last_rejection_reset (v : option datetime) (o : t) : t :=
  {| id := id o; user_id := user_id o; status := status o; queued_at := queued_at o;
     last_match_at := last_match_at o; queue_priority := queue_priority o;
     average_rating := average_rating o; total_ratings := total_ratings o;
     strike_count := strike_count o; successful_matches := successful_matches o;
     blocked_user_ids := blocked_user_ids o; cooldown_until := cooldown_until o;
     cooldown_reason := cooldown_reason o; rejection_count_today := rejection_count_today o;
     last_rejection_reset := v; preferred_session_length := preferred_session_length o;
     max_level_difference := max_level_difference o;
     same_timezone_only := same_timezone_only o; current_match_id := current_match_id o;
     created_at := created_at o; updated_at := updated_at o |}.

(** [reset_daily_rejections]: [now] is the reading that gives [today],
    [now2] the one stored in [last_rejection_reset]. *)
Definition reset_daily_rejections (now now2 : datetime) (self : t) : t :=
  let today := date_of now in
  if match last_rejection_reset self with
     | None => true
     | Some last => date_of last <? today
     end
  then
    let self := set_rejection_count_today 0 self in
    set_last_rejection_reset (Some now2) self
  else self.

(** [can_reject_more_today]: the returned value and the object after the
    call. *)
Definition can_reject_more_today (now now2 : datetime) (max_rejections : Z)
    (self : t) : bool * t :=
  let self := reset_daily_rejections now now2 self in
  (rejection_count_today self <? max_rejections, self).

(** [is_blocked_user]; the column is not nullable, so [blocked_user_ids or []]
    is the list itself. *)
Definition is_blocked_user (user_id : UUID) (self : t) : bool :=
  bool_decide (user_id ∈ blocked_user_ids self).

(** [block_user]: [list.append] *)
Definition block_user (user_id : UUID) (self : t) : t :=
  if bool_decide (user_id ∈ blocked_user_ids self) then self
  else set_blocked_user_ids (blocked_user_ids self ++ [user_id]) self.

(** [unblock_user]: [list.remove] takes out the first occurrence; it is
    called only when there is one. *)
Definition unblock_user (user_id : UUID) (self : t) : t :=
  if bool_decide (user_id ∈ blocked_user_ids self)
  then set_blocked_user_ids (list_remove user_id (blocked_user_ids self)) self
  else self.

End MatchCandidate.

(** ** [class Match] *)

Module Match.

Record t : Type := mk {
  id : UUID;
  user1_id : UUID;
  user2_id : UUID;
  languages : gmap string string;
  match_score : Q;
  matching_factors : gmap string Q;
  state : MatchState.t;
  proposed_at : datetime;
  expires_at : datetime;
  user1_response : option string;
  user2_response : option string;
  user1_responded_at : option datetime;
  user2_responded_at : option datetime;
  session_id : option UUID;
  rejection_reason : option string;
  failure_reason : option string;
  accepted_at : option datetime;
  completed_at : option datetime
}.

Definition set_state (v : MatchState.t) (o : t) : t :=
  {| id := id o; user1_id := user1_id o; user2_id := user2_id o; languages := languages o;
     match_score := match_score o; matching_factors := matching_factors o; state := v;
     proposed_at := proposed_at o; expires_at := expires_at o;
     user1_response := user1_response o; user2_response := user2_response o;
     user1_responded_at := user1_responded_at o; user2_responded_at := user2_responded_at o;
     session_id := session_id o; rejection_reason := rejection_reason o;
     failure_reason := failure_reason o; accepted_at := accepted_at o;
     completed_at := completed_at o |}.

Definition set_user1_response (v : option string) (o : t) : t :=
  {| id := id o; user1_id := user1_id o; user2_id := user2_id o; languages := languages o;
     match_score := match_score o; matching_factors := matching_factors o; state := state o;
     proposed_at := proposed_at o; expires_at := expires_at o; user1_response := v;
     user2_response := user2_response o; user1_responded_at := user1_responded_at o;
     user2_responded_at := user2_responded_at o; session_id := session_id o;
     rejection_reason := rejection_reason o; failure_reason := failure_reason o;
     accepted_at := accepted_at o; completed_at := completed_at o |}.

Definition set_user2_response (v : option string) (o : t) : t :=
  {| id := id o; user1_id := user1_id o; user2_id := user2_id o; languages := languages o;
     match_score := match_score o; matching_factors := matching_factors o; state := state o;
     proposed_at := proposed_at o; expires_at := expires_at o;
     user1_response := user1_response o; user2_response := v;
     user1_responded_at := user1_responded_at o; user2_responded_at := user2_responded_at o;
     session_id := session_id o; rejection_reason := rejection_reason o;
     failure_reason := failure_reason o; accepted_at := accepted_at o;
     completed_at := completed_at o |}.

Definition set_user1_responded_at (v : option datetime) (o : t) : t :=
  {| id := id o; user1_id := user1_id o; user2_id := user2_id o; languages := languages o;
     match_score := match_score o; matching_factors := matching_factors o; state := state o;
     proposed_at := proposed_at o; expires_at := expires_at o;
     user1_response := user1_response o; user2_response := user2_response o;
     user1_responded_at := v; user2_responded_at := user2_responded_at o;
     session_id := session_id o; rejection_reason := rejection_reason o;
     failure_reason := failure_reason o; accepted_at := accepted_at o;
     completed_at := completed_at o |}.

Definition set_user2_responded_at (v : option datetime) (o : t) : t :=
  {| id := id o; user1_id := user1_id o; user2_id := user2_id o; languages := languages o;
     match_score := match_score o; matching_factors := matching_factors o; state := state o;
     proposed_at := proposed_at o; expires_at := expires_at o;
     user1_response := user1_response o; user2_response := user2_response o;
     user1_responded_at := user1_responded_at o; user2_responded_at := v;
     session_id := session_id o; rejection_reason := rejection_reason o;
     failure_reason := failure_reason o; accepted_at := accepted_at o;
     completed_at := completed_at o |}.

Definition set_session_id (v : option UUID) (o : t) : t :=
  {| id := id o; user1_id := user1_id o; user2_id := user2_id o; languages := languages o;
     match_score := match_score o; matching_factors := matching_factors o; state := state o;
     proposed_at := proposed_at o; expires_at := expires_at o;
     user1_response := user1_response o; user2_response := user2_response o;
     user1_responded_at := user1_responded_at o; user2_responded_at := user2_responded_at o;
     session_id := v; rejection_reason := rejection_reason o;
     failure_reason := failure_reason o; accepted_at := accepted_at o;
     completed_at := completed_at o |}.

Definition set_rejection_reason (v : option string) (o : t) : t :=
  {| id := id o; user1_id := user1_id o; user2_id := user2_id o; languages := languages o;
     match_score := match_score o; matching_factors := matching_factors o; state := state o;
     proposed_at := proposed_at o; expires_at := expires_at o;
     user1_response := user1_response o; user2_response := user2_response o;
     user1_responded_at := user1_responded_at o; user2_responded_at := user2_responded_at o;
     session_id := session_id o; rejection_reason := v; failure_reason := failure_reason o;
     accepted_at := accepted_at o; completed_at := completed_at o |}.

Definition set_accepted_at (v : option datetime) (o : t) : t :=
  {| id := id o; user1_id := user1_id o; user2_id := user2_id o; languages := languages o;
     match_score := match_score o; matching_factors := matching_factors o; state := state o;
     proposed_at := proposed_at o; expires_at := expires_at o;
     user1_response := user1_response o; user2_response := user2_response o;
     user1_responded_at := user1_responded_at o; user2_responded_at := user2_responded_at o;
     session_id := session_id o; rejection_reason := rejection_reason o;
     failure_reason := failure_reason o; accepted_at := v; completed_at := completed_at o |}.

Definition set_completed_at (v : option datetime) (o : t) : t :=
  {| id := id o; user1_id := user1_id o; user2_id := user2_id o; languages := languages o;
     match_score := match_score o; matching_factors := matching_factors o; state := state o;
     proposed_at := proposed_at o; expires_at := expires_at o;
     user1_response := user1_response o; user2_response := user2_response o;
     user1_responded_at := user1_responded_at o; user2_responded_at := user2_responded_at o;
     session_id := session_id o; rejection_reason := rejection_reason o;
     failure_reason := failure_reason o; accepted_at := accepted_at o; completed_at := v |}.

(** [@property is_expired]: [datetime.utcnow() > self.expires_at] *)
Definition is_expired (now : datetime) (self : t) : bool :=
  expires_at self <? now.

(** [@property is_pending] *)
Definition is_pending (now : datetime) (self : t) : bool :=
  bool_decide (state self = MatchState.PROPOSED) && negb (is_expired now self).

(** [@property is_fully_responded] *)
Definition is_fully_responded (self : t) : bool :=
  match user1_response self, user2_response self with
  | Some _, Some _ => true
  | _, _ => false
  end.

(** [@property is_accepted_by_both] *)
Definition is_accepted_by_both (self : t) : bool :=
  str_eq (user1_response self) "accepted" && str_eq (user2_response self) "accepted".

(** [get_partner_id]: the object is not mutated, so the result is the
    identifier or the exception. *)
Definition get_partner_id (user_id : UUID) (self : t) : exn + UUID :=
  if decide (user_id = user1_id self) then inr (user2_id self)
  else if decide (user_id = user2_id self) then inr (user1_id self)
  else inl (ValueError "User ID not found in this match").

(** [get_user_response] *)
Definition get_user_response (user_id : UUID) (self : t) : option string :=
  if decide (user_id = user1_id self) then user1_response self
  else if decide (user_id = user2_id self) then user2_response self
  else None.

(** [_update_state_after_response]; [now] is its own clock reading. *)
Definition _update_state_after_response (now : datetime) (self : t) : t :=
  if negb (is_fully_responded self) then self
  else if is_accepted_by_both self then
    let self := set_state MatchState.ACCEPTED self in
    set_accepted_at (Some now) self
  else
    let self := set_state MatchState.REJECTED self in
    let self := set_completed_at (Some now) self in
    if str_eq (user1_response self) "rejected" && str_eq (user2_response self) "rejected"
    then set_rejection_reason (Some "both_rejected") self
    else if str_eq (user1_response self) "rejected"
    then set_rejection_reason (Some "user1_rejected") self
    else set_rejection_reason (Some "user2_rejected") self.

(** [set_user_response]; [now] is read on entry, [now2] by the nested
    [_update_state_after_response]. *)
Definition set_user_response (now now2 : datetime) (user_id : UUID) (response : string)
    (self : t) : outcome t :=
  if decide (user_id = user1_id self) then
    let self := set_user1_response (Some response) self in
    let self := set_user1_responded_at (Some now) self in
    Returned (_update_state_after_response now2 self)
  else if decide (user_id = user2_id self) then
    let self := set_user2_response (Some response) self in
    let self := set_user2_responded_at (Some now) self in
    Returned (_update_state_after_response now2 self)
  else Raised (ValueError "User ID not found in this match") self.

(** [expire_match] *)
Definition expire_match (now : datetime) (self : t) : t :=
  let self := set_state MatchState.EXPIRED self in
  let self := set_completed_at (Some now) self in
  let self :=
    match user1_response self with
    | None => set_user1_response (Some "timeout") self
    | Some _ => self
    end in
  match user2_response self with
  | None => set_user2_response (Some "timeout") self
  | Some _ => self
  end.

(** [create_session] *)
Definition create_session (sid : UUID) (self : t) : t :=
  let self := set_session_id (Some sid) self in
  set_state MatchState.SESSION_CREATED self.

(** [calculate_match_quality_score]: the method does not read [self].  The
    [weights] dictionary is iterated in insertion order. *)
Section Scorer.
Context {F : Type} `{FloatOps F}.

Definition weights : list (string * F) :=
  [ ("level_affinity", of_decimal 0.25%Q);
    ("native_target_match", of_decimal 0.30%Q);
    ("interest_overlap", of_decimal 0.20%Q);
    ("timezone_overlap", of_decimal 0.15%Q);
    ("quality_score", of_decimal 0.10%Q) ].

(** One turn of the loop body: [if factor in factors: score += factors[factor] * weight] *)
Definition add_factor (factors : gmap string F) (score : F) (entry : string * F) : F :=
  match factors !! fst entry with
  | Some value => fadd score (fmul value (snd entry))
  | None => score
  end.

Definition calculate_match_quality_score (factors : gmap string F) : F :=
  let score := fold_left (add_factor factors) weights (of_decimal 0%Q) in
  py_min (of_decimal 1%Q) (py_max (of_decimal 0%Q) score).

End Scorer.

End Match.

(** ** Enumerations of [session.py] *)

Module SessionState.
Inductive t : Type := ACTIVE | PAUSED | ENDED | DROPPED | EXPIRED.
#[global] Instance eq_dec : EqDecision t.
Proof. solve_decision. Defined.
End SessionState.

Module TurnLanguage.
Inductive t : Type := USER1_NATIVE | USER2_NATIVE | MIXED.
#[global] Instance eq_dec : EqDecision t.
Proof. solve_decision. Defined.
End TurnLanguage.

Module SessionEndReason.
Inductive t : Type :=
  COMPLETED | USER_LEFT | INACTIVITY | TECHNICAL_ERROR | MODERATION | MAXIMUM_DURATION.
#[global] Instance eq_dec : EqDecision t.
Proof. solve_decision. Defined.
End SessionEndReason.

(** One entry of the [moderation_flags] JSON column. *)
Record ModerationFlag : Type := mkModerationFlag {
  flag_type : string;
  flag_timestamp : datetime;
  flag_details : gmap string string
}.

(** ** [class Session] *)

Module Session.

Record t : Type := mk {
  id : UUID;
  match_id : UUID;
  user1_id : UUID;
  user2_id : UUID;
  room_id : string;
  languages : gmap string string;
  planned_duration_minutes : Z;
  state : SessionState.t;
  current_turn_language : TurnLanguage.t;
  turn_switched_at : option datetime;
  turn_switch_count : Z;
  auto_turn_switch_enabled : bool;
  prompt_pack_id : option UUID;
  current_prompt_index : Z;
  prompts_used : list string;
  started_at : datetime;
  ended_at : option datetime;
  last_activity_at : datetime;
  paused_at : option datetime;
  total_messages : Z;
  user1_message_count : Z;
  user2_message_count : Z;
  active_duration_seconds : Z;
  paused_duration_seconds : Z;
  user1_last_seen : option datetime;
  user2_last_seen : option datetime;
  user1_typing : bool;
  user2_typing : bool;
  toxicity_warnings : Z;
  moderation_flags : list ModerationFlag;
  end_reason : option SessionEndReason.t;
  ended_by_user_id : option UUID;
  summary_generated : bool;
  feedback_collected : bool
}.

Definition set_state (v : SessionState.t) (o : t) : t :=
  {| id := id o; match_id := match_id o; user1_id := user1_id o; user2_id := user2_id o;
     room_id := room_id o; languages := languages o;
     planned_duration_minutes := planned_duration_minutes o; state := v;
     current_turn_language := current_turn_language o;
     turn_switched_at := turn_switched_at o; turn_switch_count := turn_switch_count o;
     auto_turn_switch_enabled := auto_turn_switch_enabled o;
     prompt_pack_id := prompt_pack_id o; current_prompt_index := current_prompt_index o;
     prompts_used := prompts_used o; started_at := started_at o; ended_at := ended_at o;
     last_activity_at := last_activity_at o; paused_at := paused_at o;
     total_messages := total_messages o; user1_message_count := user1_message_count o;
     user2_message_count := user2_message_count o;
     active_duration_seconds := active_duration_seconds o;
     paused_duration_seconds := paused_duration_seconds o;
     user1_last_seen := user1_last_seen o; user2_last_seen := user2_last_seen o;
     user1_typing := user1_typing o; user2_typing := user2_typing o;
     toxicity_warnings := toxicity_warnings o; moderation_flags := moderation_flags o;
     end_reason := end_reason o; ended_by_user_id := ended_by_user_id o;
     summary_generated := summary_generated o; feedback_collected := feedback_collected o |}.

Definition set_current_turn_language (v : TurnLanguage.t) (o : t) : t :=
  {| id := id o; match_id := match_id o; user1_id := user1_id o; user2_id := user2_id o;
     room_id := room_id o; languages := languages o;
     planned_duration_minutes := planned_duration_minutes o; state := state o;
     current_turn_language := v; turn_switched_at := turn_switched_at o;
     turn_switch_count := turn_switch_count o;
     auto_turn_switch_enabled := auto_turn_switch_enabled o;
     prompt_pack_id := prompt_pack_id o; current_prompt_index := current_prompt_index o;
     prompts_used := prompts_used o; started_at := started_at o; ended_at := ended_at o;
     last_activity_at := last_activity_at o; paused_at := paused_at o;
     total_messages := total_messages o; user1_message_count := user1_message_count o;
     user2_message_count := user2_message_count o;
     active_duration_seconds := active_duration_seconds o;
     paused_duration_seconds := paused_duration_seconds o;
     user1_last_seen := user1_last_seen o; user2_last_seen := user2_last_seen o;
     user1_typing := user1_typing o; user2_typing := user2_typing o;
     toxicity_warnings := toxicity_warnings o; moderation_flags := moderation_flags o;
     end_reason := end_reason o; ended_by_user_id := ended_by_user_id o;
     summary_generated := summary_generated o; feedback_collected := feedback_collected o |}.

Definition set_turn_switched_at (v : option datetime) (o : t) : t :=
  {| id := id o; match_id := match_id o; user1_id := user1_id o; user2_id := user2_id o;
     room_id := room_id o; languages := languages o;
     planned_duration_minutes := planned_duration_minutes o; state := state o;
     current_turn_language := current_turn_language o; turn_switched_at := v;
     turn_switch_count := turn_switch_count o;
     auto_turn_switch_enabled := auto_turn_switch_enabled o;
     prompt_pack_id := prompt_pack_id o; current_prompt_index := current_prompt_index o;
     prompts_used := prompts_used o; started_at := started_at o; ended_at := ended_at o;
     last_activity_at := last_activity_at o; paused_at := paused_at o;
     total_messages := total_messages o; user1_message_count := user1_message_count o;
     user2_message_count := user2_message_count o;
     active_duration_seconds := active_duration_seconds o;
     paused_duration_seconds := paused_duration_seconds o;
     user1_last_seen := user1_last_seen o; user2_last_seen := user2_last_seen o;
     user1_typing := user1_typing o; user2_typing := user2_typing o;
     toxicity_warnings := toxicity_warnings o; moderation_flags := moderation_flags o;
     end_reason := end_reason o; ended_by_user_id := ended_by_user_id o;
     summary_generated := summary_generated o; feedback_collected := feedback_collected o |}.

Definition set_turn_switch_count (v : Z) (o : t) : t :=
  {| id := id o; match_id := match_id o; user1_id := user1_id o; user2_id := user2_id o;
     room_id := room_id o; languages := languages o;
     planned_duration_minutes := planned_duration_minutes o; state := state o;
     current_turn_language := current_turn_language o;
     turn_switched_at := turn_switched_at o; turn_switch_count := v;
     auto_turn_switch_enabled := auto_turn_switch_enabled o;
     prompt_pack_id := prompt_pack_id o; current_prompt_index := current_prompt_index o;
     prompts_used := prompts_used o; started_at := started_at o; ended_at := ended_at o;
     last_activity_at := last_activity_at o; paused_at := paused_at o;
     total_messages := total_messages o; user1_message_count := user1_message_count o;
     user2_message_count := user2_message_count o;
     active_duration_seconds := active_duration_seconds o;
     paused_duration_seconds := paused_duration_seconds o;
     user1_last_seen := user1_last_seen o; user2_last_seen := user2_last_seen o;
     user1_typing := user1_typing o; user2_typing := user2_typing o;
     toxicity_warnings := toxicity_warnings o; moderation_flags := moderation_flags o;
     end_reason := end_reason o; ended_by_user_id := ended_by_user_id o;
     summary_generated := summary_generated o; feedback_collected := feedback_collected o |}.

Definition set_ended_at (v : option datetime) (o : t) : t :=
  {| id := id o; match_id := match_id o; user1_id := user1_id o; user2_id := user2_id o;
     room_id := room_id o; languages := languages o;
     planned_duration_minutes := planned_duration_minutes o; state := state o;
     current_turn_language := current_turn_language o;
     turn_switched_at := turn_switched_at o; turn_switch_count := turn_switch_count o;
     auto_turn_switch_enabled := auto_turn_switch_enabled o;
     prompt_pack_id := prompt_pack_id o; current_prompt_index := current_prompt_index o;
     prompts_used := prompts_used o; started_at := started_at o; ended_at := v;
     last_activity_at := last_activity_at o; paused_at := paused_at o;
     total_messages := total_messages o; user1_message_count := user1_message_count o;
     user2_message_count := user2_message_count o;
     active_duration_seconds := active_duration_seconds o;
     paused_duration_seconds := paused_duration_seconds o;
     user1_last_seen := user1_last_seen o; user2_last_seen := user2_last_seen o;
     user1_typing := user1_typing o; user2_typing := user2_typing o;
     toxicity_warnings := toxicity_warnings o; moderation_flags := moderation_flags o;
     end_reason := end_reason o; ended_by_user_id := ended_by_user_id o;
     summary_generated := summary_generated o; feedback_collected := feedback_collected o |}.

Definition set_last_activity_at (v : datetime) (o : t) : t :=
  {| id := id o; match_id := match_id o; user1_id := user1_id o; user2_id := user2_id o;
     room_id := room_id o; languages := languages o;
     planned_duration_minutes := planned_duration_minutes o; state := state o;
     current_turn_language := current_turn_language o;
     turn_switched_at := turn_switched_at o; turn_switch_count := turn_switch_count o;
     auto_turn_switch_enabled := auto_turn_switch_enabled o;
     prompt_pack_id := prompt_pack_id o; current_prompt_index := current_prompt_index o;
     prompts_used := prompts_used o; started_at := started_at o; ended_at := ended_at o;
     last_activity_at := v; paused_at := paused_at o; total_messages := total_messages o;
     user1_message_count := user1_message_count o;
     user2_message_count := user2_message_count o;
     active_duration_seconds := active_duration_seconds o;
     paused_duration_seconds := paused_duration_seconds o;
     user1_last_seen := user1_last_seen o; user2_last_seen := user2_last_seen o;
     user1_typing := user1_typing o; user2_typing := user2_typing o;
     toxicity_warnings := toxicity_warnings o; moderation_flags := moderation_flags o;
     end_reason := end_reason o; ended_by_user_id := ended_by_user_id o;
     summary_generated := summary_generated o; feedback_collected := feedback_collected o |}.

Definition set_paused_at (v : option datetime) (o : t) : t :=
  {| id := id o; match_id := match_id o; user1_id := user1_id o; user2_id := user2_id o;
     room_id := room_id o; languages := languages o;
     planned_duration_minutes := planned_duration_minutes o; state := state o;
     current_turn_language := current_turn_language o;
     turn_switched_at := turn_switched_at o; turn_switch_count := turn_switch_count o;
     auto_turn_switch_enabled := auto_turn_switch_enabled o;
     prompt_pack_id := prompt_pack_id o; current_prompt_index := current_prompt_index o;
     prompts_used := prompts_used o; started_at := started_at o; ended_at := ended_at o;
     last_activity_at := last_activity_at o; paused_at := v;
     total_messages := total_messages o; user1_message_count := user1_message_count o;
     user2_message_count := user2_message_count o;
     active_duration_seconds := active_duration_seconds o;
     paused_duration_seconds := paused_duration_seconds o;
     user1_last_seen := user1_last_seen o; user2_last_seen := user2_last_seen o;
     user1_typing := user1_typing o; user2_typing := user2_typing o;
     toxicity_warnings := toxicity_warnings o; moderation_flags := moderation_flags o;
     end_reason := end_reason o; ended_by_user_id := ended_by_user_id o;
     summary_generated := summary_generated o; feedback_collected := feedback_collected o |}.

Definition set_active_duration_seconds (v : Z) (o : t) : t :=
  {| id := id o; match_id := match_id o; user1_id := user1_id o; user2_id := user2_id o;
     room_id := room_id o; languages := languages o;
     planned_duration_minutes := planned_duration_minutes o; state := state o;
     current_turn_language := current_turn_language o;
     turn_switched_at := turn_switched_at o; turn_switch_count := turn_switch_count o;
     auto_turn_switch_enabled := auto_turn_switch_enabled o;
     prompt_pack_id := prompt_pack_id o; current_prompt_index := current_prompt_index o;
     prompts_used := prompts_used o; started_at := started_at o; ended_at := ended_at o;
     last_activity_at := last_activity_at o; paused_at := paused_at o;
     total_messages := total_messages o; user1_message_count := user1_message_count o;
     user2_message_count := user2_message_count o; active_duration_seconds := v;
     paused_duration_seconds := paused_duration_seconds o;
     user1_last_seen := user1_last_seen o; user2_last_seen := user2_last_seen o;
     user1_typing := user1_typing o; user2_typing := user2_typing o;
     toxicity_warnings := toxicity_warnings o; moderation_flags := moderation_flags o;
     end_reason := end_reason o; ended_by_user_id := ended_by_user_id o;
     summary_generated := summary_generated o; feedback_collected := feedback_collected o |}.

Definition set_paused_duration_seconds (v : Z) (o : t) : t :=
  {| id := id o; match_id := match_id o; user1_id := user1_id o; user2_id := user2_id o;
     room_id := room_id o; languages := languages o;
     planned_duration_minutes := planned_duration_minutes o; state := state o;
     current_turn_language := current_turn_language o;
     turn_switched_at := turn_switched_at o; turn_switch_count := turn_switch_count o;
     auto_turn_switch_enabled := auto_turn_switch_enabled o;
     prompt_pack_id := prompt_pack_id o; current_prompt_index := current_prompt_index o;
     prompts_used := prompts_used o; started_at := started_at o; ended_at := ended_at o;
     last_activity_at := last_activity_at o; paused_at := paused_at o;
     total_messages := total_messages o; user1_message_count := user1_message_count o;
     user2_message_count := user2_message_count o;
     active_duration_seconds := active_duration_seconds o; paused_duration_seconds := v;
     user1_last_seen := user1_last_seen o; user2_last_seen := user2_last_seen o;
     user1_typing := user1_typing o; user2_typing := user2_typing o;
     toxicity_warnings := toxicity_warnings o; moderation_flags := moderation_flags o;
     end_reason := end_reason o; ended_by_user_id := ended_by_user_id o;
     summary_generated := summary_generated o; feedback_collected := feedback_collected o |}.

Definition set_user1_last_seen (v : option datetime) (o : t) : t :=
  {| id := id o; match_id := match_id o; user1_id := user1_id o; user2_id := user2_id o;
     room_id := room_id o; languages := languages o;
     planned_duration_minutes := planned_duration_minutes o; state := state o;
     current_turn_language := current_turn_language o;
     turn_switched_at := turn_switched_at o; turn_switch_count := turn_switch_count o;
     auto_turn_switch_enabled := auto_turn_switch_enabled o;
     prompt_pack_id := prompt_pack_id o; current_prompt_index := current_prompt_index o;
     prompts_used := prompts_used o; started_at := started_at o; ended_at := ended_at o;
     last_activity_at := last_activity_at o; paused_at := paused_at o;
     total_messages := total_messages o; user1_message_count := user1_message_count o;
     user2_message_count := user2_message_count o;
     active_duration_seconds := active_duration_seconds o;
     paused_duration_seconds := paused_duration_seconds o; user1_last_seen := v;
     user2_last_seen := user2_last_seen o; user1_typing := user1_typing o;
     user2_typing := user2_typing o; toxicity_warnings := toxicity_warnings o;
     moderation_flags := moderation_flags o; end_reason := end_reason o;
     ended_by_user_id := ended_by_user_id o; summary_generated := summary_generated o;
     feedback_collected := feedback_collected o |}.

Definition set_user2_last_seen (v : option datetime) (o : t) : t :=
  {| id := id o; match_id := match_id o; user1_id := user1_id o; user2_id := user2_id o;
     room_id := room_id o; languages := languages o;
     planned_duration_minutes := planned_duration_minutes o; state := state o;
     current_turn_language := current_turn_language o;
     turn_switched_at := turn_switched_at o; turn_switch_count := turn_switch_count o;
     auto_turn_switch_enabled := auto_turn_switch_enabled o;
     prompt_pack_id := prompt_pack_id o; current_prompt_index := current_prompt_index o;
     prompts_used := prompts_used o; started_at := started_at o; ended_at := ended_at o;
     last_activity_at := last_activity_at o; paused_at := paused_at o;
     total_messages := total_messages o; user1_message_count := user1_message_count o;
     user2_message_count := user2_message_count o;
     active_duration_seconds := active_duration_seconds o;
     paused_duration_seconds := paused_duration_seconds o;
     user1_last_seen := user1_last_seen o; user2_last_seen := v;
     user1_typing := user1_typing o; user2_typing := user2_typing o;
     toxicity_warnings := toxicity_warnings o; moderation_flags := moderation_flags o;
     end_reason := end_reason o; ended_by_user_id := ended_by_user_id o;
     summary_generated := summary_generated o; feedback_collected := feedback_collected o |}.

Definition set_user1_typing (v : bool) (o : t) : t :=
  {| id := id o; match_id := match_id o; user1_id := user1_id o; user2_id := user2_id o;
     room_id := room_id o; languages := languages o;
     planned_duration_minutes := planned_duration_minutes o; state := state o;
     current_turn_language := current_turn_language o;
     turn_switched_at := turn_switched_at o; turn_switch_count := turn_switch_count o;
     auto_turn_switch_enabled := auto_turn_switch_enabled o;
     prompt_pack_id := prompt_pack_id o; current_prompt_index := current_prompt_index o;
     prompts_used := prompts_used o; started_at := started_at o; ended_at := ended_at o;
     last_activity_at := last_activity_at o; paused_at := paused_at o;
     total_messages := total_messages o; user1_message_count := user1_message_count o;
     user2_message_count := user2_message_count o;
     active_duration_seconds := active_duration_seconds o;
     paused_duration_seconds := paused_duration_seconds o;
     user1_last_seen := user1_last_seen o; user2_last_seen := user2_last_seen o;
     user1_typing := v; user2_typing := user2_typing o;
     toxicity_warnings := toxicity_warnings o; moderation_flags := moderation_flags o;
     end_reason := end_reason o; ended_by_user_id := ended_by_user_id o;
     summary_generated := summary_generated o; feedback_collected := feedback_collected o |}.

Definition set_user2_typing (v : bool) (o : t) : t :=
  {| id := id o; match_id := match_id o; user1_id := user1_id o; user2_id := user2_id o;
     room_id := room_id o; languages := languages o;
     planned_duration_minutes := planned_duration_minutes o; state := state o;
     current_turn_language := current_turn_language o;
     turn_switched_at := turn_switched_at o; turn_switch_count := turn_switch_count o;
     auto_turn_switch_enabled := auto_turn_switch_enabled o;
     prompt_pack_id := prompt_pack_id o; current_prompt_index := current_prompt_index o;
     prompts_used := prompts_used o; started_at := started_at o; ended_at := ended_at o;
     last_activity_at := last_activity_at o; paused_at := paused_at o;
     total_messages := total_messages o; user1_message_count := user1_message_count o;
     user2_message_count := user2_message_count o;
     active_duration_seconds := active_duration_seconds o;
     paused_duration_seconds := paused_duration_seconds o;
     user1_last_seen := user1_last_seen o; user2_last_seen := user2_last_seen o;
     user1_typing := user1_typing o; user2_typing := v;
     toxicity_warnings := toxicity_warnings o; moderation_flags := moderation_flags o;
     end_reason := end_reason o; ended_by_user_id := ended_by_user_id o;
     summary_generated := summary_generated o; feedback_collected := feedback_collected o |}.

Definition set_end_reason (v : option SessionEndReason.t) (o : t) : t :=
  {| id := id o; match_id := match_id o; user1_id := user1_id o; user2_id := user2_id o;
     room_id := room_id o; languages := languages o;
     planned_duration_minutes := planned_duration_minutes o; state := state o;
     current_turn_language := current_turn_language o;
     turn_switched_at := turn_switched_at o; turn_switch_count := turn_switch_count o;
     auto_turn_switch_enabled := auto_turn_switch_enabled o;
     prompt_pack_id := prompt_pack_id o; current_prompt_index := current_prompt_index o;
     prompts_used := prompts_used o; started_at := started_at o; ended_at := ended_at o;
     last_activity_at := last_activity_at o; paused_at := paused_at o;
     total_messages := total_messages o; user1_message_count := user1_message_count o;
     user2_message_count := user2_message_count o;
     active_duration_seconds := active_duration_seconds o;
     paused_duration_seconds := paused_duration_seconds o;
     user1_last_seen := user1_last_seen o; user2_last_seen := user2_last_seen o;
     user1_typing := user1_typing o; user2_typing := user2_typing o;
     toxicity_warnings := toxicity_warnings o; moderation_flags := moderation_flags o;
     end_reason := v; ended_by_user_id := ended_by_user_id o;
     summary_generated := summary_generated o; feedback_collected := feedback_collected o |}.

Definition set_ended_by_user_id (v : option UUID) (o : t) : t :=
  {| id := id o; match_id := match_id o; user1_id := user1_id o; user2_id := user2_id o;
     room_id := room_id o; languages := languages o;
     planned_duration_minutes := planned_duration_minutes o; state := state o;
     current_turn_language := current_turn_language o;
     turn_switched_at := turn_switched_at o; turn_switch_count := turn_switch_count o;
     auto_turn_switch_enabled := auto_turn_switch_enabled o;
     prompt_pack_id := prompt_pack_id o; current_prompt_index := current_prompt_index o;
     prompts_used := prompts_used o; started_at := started_at o; ended_at := ended_at o;
     last_activity_at := last_activity_at o; paused_at := paused_at o;
     total_messages := total_messages o; user1_message_count := user1_message_count o;
     user2_message_count := user2_message_count o;
     active_duration_seconds := active_duration_seconds o;
     paused_duration_seconds := paused_duration_seconds o;
     user1_last_seen := user1_last_seen o; user2_last_seen := user2_last_seen o;
     user1_typing := user1_typing o; user2_typing := user2_typing o;
     toxicity_warnings := toxicity_warnings o; moderation_flags := moderation_flags o;
     end_reason := end_reason o; ended_by_user_id := v;
     summary_generated := summary_generated o; feedback_collected := feedback_collected o |}.

(** [@property is_active] *)
Definition is_active (self : t) : bool :=
  bool_decide (state self = SessionState.ACTIVE).

(** [@property is_ended] *)
Definition is_ended (self : t) : bool :=
  bool_decide (state self ∈ [SessionState.ENDED; SessionState.DROPPED; SessionState.EXPIRED]).

(** [update_activity]; a [UUID] object is always truthy, so [if user_id:]
    tests for [None]. *)
Definition update_activity (now : datetime) (user_id : option UUID) (self : t) : t :=
  let self := set_last_activity_at now self in
  match user_id with
  | Some uid =>
      if decide (uid = user1_id self) then set_user1_last_seen (Some now) self
      else if decide (uid = user2_id self) then set_user2_last_seen (Some now) self
      else self
  | None => self
  end.

(** [switch_turn_language]: the returned value and the object after the call. *)
Definition switch_turn_language (now : datetime) (self : t) : TurnLanguage.t * t :=
  let self :=
    if decide (current_turn_language self = TurnLanguage.USER1_NATIVE)
    then set_current_turn_language TurnLanguage.USER2_NATIVE self
    else if decide (current_turn_language self = TurnLanguage.USER2_NATIVE)
    then set_current_turn_language TurnLanguage.USER1_NATIVE self
    else set_current_turn_language TurnLanguage.USER1_NATIVE self in
  let self := set_turn_switched_at (Some now) self in
  let self := set_turn_switch_count (turn_switch_count self + 1) self in
  (current_turn_language self, self).

(** [pause_session]; [reason] is not used by the body. *)
Definition pause_session (now : datetime) (reason : string) (self : t) : t :=
  if decide (state self = SessionState.ACTIVE) then
    let self :=
      match paused_at self with
      | None =>
          let active_time := now - started_at self in
          set_active_duration_seconds
            (active_duration_seconds self + int_total_seconds active_time) self
      | Some _ => self
      end in
    let self := set_state SessionState.PAUSED self in
    set_paused_at (Some now) self
  else self.

(** [resume_session]; a [datetime] is always truthy, so [and self.paused_at]
    tests for [None].  [now2] is the reading of the nested [update_activity]. *)
Definition resume_session (now now2 : datetime) (self : t) : t :=
  if decide (state self = SessionState.PAUSED) then
    match paused_at self with
    | Some paused =>
        let paused_time := now - paused in
        let self :=
          set_paused_duration_seconds
            (paused_duration_seconds self + int_total_seconds paused_time) self in
        let self := set_state SessionState.ACTIVE self in
        let self := set_paused_at None self in
        update_activity now2 None self
    | None => self
    end
  else self.

(** [end_session]; [self.paused_at or self.started_at] is [paused_at] unless
    it is [None]. *)
Definition end_session (now : datetime) (reason : SessionEndReason.t)
    (ended_by : option UUID) (self : t) : t :=
  if is_ended self then self
  else
    let self :=
      if decide (state self = SessionState.ACTIVE) then
        let active_time := now - default (started_at self) (paused_at self) in
        set_active_duration_seconds
          (active_duration_seconds self + int_total_seconds active_time) self
      else if decide (state self = SessionState.PAUSED) then
        match paused_at self with
        | Some paused =>
            let paused_time := now - paused in
            set_paused_duration_seconds
              (paused_duration_seconds self + int_total_seconds paused_time) self
        | None => self
        end
      else self in
    let self :=
      if decide (reason = SessionEndReason.COMPLETED)
      then set_state SessionState.ENDED self
      else if decide (reason = SessionEndReason.MAXIMUM_DURATION)
      then set_state SessionState.EXPIRED self
      else set_state SessionState.DROPPED self in
    let self := set_ended_at (Some now) self in
    let self := set_end_reason (Some reason) self in
    let self := set_ended_by_user_id ended_by self in
    let self := set_user1_typing false self in
    set_user2_typing false self.


(** *** Clock predicates, counters, moderation and prompts *)

Definition set_current_prompt_index (v : Z) (o : t) : t :=
  {| id := id o; match_id := match_id o; user1_id := user1_id o; user2_id := user2_id o;
     room_id := room_id o; languages := languages o;
     planned_duration_minutes := planned_duration_minutes o; state := state o;
     current_turn_language := current_turn_language o;
     turn_switched_at := turn_switched_at o; turn_switch_count := turn_switch_count o;
     auto_turn_switch_enabled := auto_turn_switch_enabled o;
     prompt_pack_id := prompt_pack_id o; current_prompt_index := v;
     prompts_used := prompts_used o; started_at := started_at o; ended_at := ended_at o;
     last_activity_at := last_activity_at o; paused_at := paused_at o;
     total_messages := total_messages o; user1_message_count := user1_message_count o;
     user2_message_count := user2_message_count o;
     active_duration_seconds := active_duration_seconds o;
     paused_duration_seconds := paused_duration_seconds o;
     user1_last_seen := user1_last_seen o; user2_last_seen := user2_last_seen o;
     user1_typing := user1_typing o; user2_typing := user2_typing o;
     toxicity_warnings := toxicity_warnings o; moderation_flags := moderation_flags o;
     end_reason := end_reason o; ended_by_user_id := ended_by_user_id o;
     summary_generated := summary_generated o; feedback_collected := feedback_collected o |}.

Definition set_total_messages (v : Z) (o : t) : t :=
  {| id := id o; match_id := match_id o; user1_id := user1_id o; user2_id := user2_id o;
     room_id := room_id o; languages := languages o;
     planned_duration_minutes := planned_duration_minutes o; state := state o;
     current_turn_language := current_turn_language o;
     turn_switched_at := turn_switched_at o; turn_switch_count := turn_switch_count o;
     auto_turn_switch_enabled := auto_turn_switch_enabled o;
     prompt_pack_id := prompt_pack_id o; current_prompt_index := current_prompt_index o;
     prompts_used := prompts_used o; started_at := started_at o; ended_at := ended_at o;
     last_activity_at := last_activity_at o; paused_at := paused_at o; total_messages := v;
     user1_message_count := user1_message_count o;
     user2_message_count := user2_message_count o;
     active_duration_seconds := active_duration_seconds o;
     paused_duration_seconds := paused_duration_seconds o;
     user1_last_seen := user1_last_seen o; user2_last_seen := user2_last_seen o;
     user1_typing := user1_typing o; user2_typing := user2_typing o;
     toxicity_warnings := toxicity_warnings o; moderation_flags := moderation_flags o;
     end_reason := end_reason o; ended_by_user_id := ended_by_user_id o;
     summary_generated := summary_generated o; feedback_collected := feedback_collected o |}.

Definition set_user1_message_count (v : Z) (o : t) : t :=
  {| id := id o; match_id := match_id o; user1_id := user1_id o; user2_id := user2_id o;
     room_id := room_id o; languages := languages o;
     planned_duration_minutes := planned_duration_minutes o; state := state o;
     current_turn_language := current_turn_language o;
     turn_switched_at := turn_switched_at o; turn_switch_count := turn_switch_count o;
     auto_turn_switch_enabled := auto_turn_switch_enabled o;
     prompt_pack_id := prompt_pack_id o; current_prompt_index := current_prompt_index o;
     prompts_used := prompts_used o; started_at := started_at o; ended_at := ended_at o;
     last_activity_at := last_activity_at o; paused_at := paused_at o;
     total_messages := total_messages o; user1_message_count := v;
     user2_message_count := user2_message_count o;
     active_duration_seconds := active_duration_seconds o;
     paused_duration_seconds := paused_duration_seconds o;
     user1_last_seen := user1_last_seen o; user2_last_seen := user2_last_seen o;
     user1_typing := user1_typing o; user2_typing := user2_typing o;
     toxicity_warnings := toxicity_warnings o; moderation_flags := moderation_flags o;
     end_reason := end_reason o; ended_by_user_id := ended_by_user_id o;
     summary_generated := summary_generated o; feedback_collected := feedback_collected o |}.

Definition set_user2_message_count (v : Z) (o : t) : t :=
  {| id := id o; match_id := match_id o; user1_id := user1_id o; user2_id := user2_id o;
     room_id := room_id o; languages := languages o;
     planned_duration_minutes := planned_duration_minutes o; state := state o;
     current_turn_language := current_turn_language o;
     turn_switched_at := turn_switched_at o; turn_switch_count := turn_switch_count o;
     auto_turn_switch_enabled := auto_turn_switch_enabled o;
     prompt_pack_id := prompt_pack_id o; current_prompt_index := current_prompt_index o;
     prompts_used := prompts_used o; started_at := started_at o; ended_at := ended_at o;
     last_activity_at := last_activity_at o; paused_at := paused_at o;
     total_messages := total_messages o; user1_message_count := user1_message_count o;
     user2_message_count := v; active_duration_seconds := active_duration_seconds o;
     paused_duration_seconds := paused_duration_seconds o;
     user1_last_seen := user1_last_seen o; user2_last_seen := user2_last_seen o;
     user1_typing := user1_typing o; user2_typing := user2_typing o;
     toxicity_warnings := toxicity_warnings o; moderation_flags := moderation_flags o;
     end_reason := end_reason o; ended_by_user_id := ended_by_user_id o;
     summary_generated := summary_generated o; feedback_collected := feedback_collected o |}.

Definition set_toxicity_warnings (v : Z) (o : t) : t :=
  {| id := id o; match_id := match_id o; user1_id := user1_id o; user2_id := user2_id o;
     room_id := room_id o; languages := languages o;
     planned_duration_minutes := planned_duration_minutes o; state := state o;
     current_turn_language := current_turn_language o;
     turn_switched_at := turn_switched_at o; turn_switch_count := turn_switch_count o;
     auto_turn_switch_enabled := auto_turn_switch_enabled o;
     prompt_pack_id := prompt_pack_id o; current_prompt_index := current_prompt_index o;
     prompts_used := prompts_used o; started_at := started_at o; ended_at := ended_at o;
     last_activity_at := last_activity_at o; paused_at := paused_at o;
     total_messages := total_messages o; user1_message_count := user1_message_count o;
     user2_message_count := user2_message_count o;
     active_duration_seconds := active_duration_seconds o;
     paused_duration_seconds := paused_duration_seconds o;
     user1_last_seen := user1_last_seen o; user2_last_seen := user2_last_seen o;
     user1_typing := user1_typing o; user2_typing := user2_typing o; toxicity_warnings := v;
     moderation_flags := moderation_flags o; end_reason := end_reason o;
     ended_by_user_id := ended_by_user_id o; summary_generated := summary_generated o;
     feedback_collected := feedback_collected o |}.

Definition set_moderation_flags (v : list ModerationFlag) (o : t) : t :=
  {| id := id o; match_id := match_id o; user1_id := user1_id o; user2_id := user2_id o;
     room_id := room_id o; languages := languages o;
     planned_duration_minutes := planned_duration_minutes o; state := state o;
     current_turn_language := current_turn_language o;
     turn_switched_at := turn_switched_at o; turn_switch_count := turn_switch_count o;
     auto_turn_switch_enabled := auto_turn_switch_enabled o;
     prompt_pack_id := prompt_pack_id o; current_prompt_index := current_prompt_index o;
     prompts_used := prompts_used o; started_at := started_at o; ended_at := ended_at o;
     last_activity_at := last_activity_at o; paused_at := paused_at o;
     total_messages := total_messages o; user1_message_count := user1_message_count o;
     user2_message_count := user2_message_count o;
     active_duration_seconds := active_duration_seconds o;
     paused_duration_seconds := paused_duration_seconds o;
     user1_last_seen := user1_last_seen o; user2_last_seen := user2_last_seen o;
     user1_typing := user1_typing o; user2_typing := user2_typing o;
     toxicity_warnings := toxicity_warnings o; moderation_flags := v;
     end_reason := end_reason o; ended_by_user_id := ended_by_user_id o;
     summary_generated := summary_generated o; feedback_collected := feedback_collected o |}.

(** [@property is_overdue]: [elapsed.total_seconds() > planned * 60],
    compared here in whole microseconds (the float quotient is above the
    integer bound exactly when the microsecond count is, for spans below
    2^32 seconds). *)
Definition is_overdue (now : datetime) (self : t) : bool :=
  if is_ended self then false
  else
    let elapsed := now - started_at self in
    planned_duration_minutes self * 60 * microseconds_per_second <? elapsed.

(** [@property time_remaining_minutes], in exact arithmetic. *)
Definition time_remaining_minutes (now : datetime) (self : t) : Q :=
  if is_ended self then 0%Q
  else
    let elapsed := now - started_at self in
    let elapsed_minutes := (inject_Z elapsed / inject_Z microseconds_per_second / 60)%Q in
    py_max 0%Q (inject_Z (planned_duration_minutes self) - elapsed_minutes)%Q.

(** [@property is_idle]; [last_activity_at] is not nullable and a [datetime]
    is always truthy. *)
Definition is_idle (now : datetime) (self : t) : bool :=
  if is_ended self then false
  else
    let idle_threshold := timedelta_minutes 15 in
    idle_threshold <? now - last_activity_at self.

(** [get_partner_id] *)
Definition get_partner_id (user_id : UUID) (self : t) : exn + UUID :=
  if decide (user_id = user1_id self) then inr (user2_id self)
  else if decide (user_id = user2_id self) then inr (user1_id self)
  else inl (ValueError "User ID not found in this session").

(** [is_participant] *)
Definition is_participant (user_id : UUID) (self : t) : bool :=
  bool_decide (user_id ∈ [user1_id self; user2_id self]).

(** [increment_message_count] *)
Definition increment_message_count (user_id : UUID) (self : t) : t :=
  let self := set_total_messages (total_messages self + 1) self in
  if decide (user_id = user1_id self)
  then set_user1_message_count (user1_message_count self + 1) self
  else if decide (user_id = user2_id self)
  then set_user2_message_count (user2_message_count self + 1) self
  else self.

(** [set_typing_status]; the clock is read by the nested [update_activity]. *)
Definition set_typing_status (now : datetime) (user_id : UUID) (is_typing : bool)
    (self : t) : t :=
  let self :=
    if decide (user_id = user1_id self) then set_user1_typing is_typing self
    else if decide (user_id = user2_id self) then set_user2_typing is_typing self
    else self in
  if is_typing then update_activity now (Some user_id) self else self.

(** [should_suggest_turn_switch] *)
Definition should_suggest_turn_switch (now : datetime) (self : t) : bool :=
  match auto_turn_switch_enabled self, turn_switched_at self with
  | true, Some switched =>
      let switch_interval := timedelta_minutes 10 in
      switch_interval <? now - switched
  | _, _ => false
  end.

(** [add_moderation_flag]; the timestamp of the flag is the clock reading
    (the source stores its ISO rendering). *)
Definition add_moderation_flag (now : datetime) (type : string)
    (details : gmap string string) (self : t) : t :=
  let flag := {| flag_type := type; flag_timestamp := now; flag_details := details |} in
  let self := set_moderation_flags (moderation_flags self ++ [flag]) self in
  if bool_decide (type ∈ ["toxicity"; "inappropriate_content"])
  then set_toxicity_warnings (toxicity_warnings self + 1) self
  else self.

(** [get_current_prompt]: [None], the prompt, or the [IndexError] of an
    index below [-len]. *)
Definition get_current_prompt (self : t) : index_exn + option string :=
  let n := Z.of_nat (length (prompts_used self)) in
  if bool_decide (prompts_used self = []) || (n <=? current_prompt_index self)
  then inr None
  else
    match py_index (prompts_used self) (current_prompt_index self) with
    | Some prompt => inr (Some prompt)
    | None => inl IndexError
    end.

(** [advance_prompt] *)
Definition advance_prompt (self : t) : t :=
  let n := Z.of_nat (length (prompts_used self)) in
  if negb (bool_decide (prompts_used self = [])) && (current_prompt_index self <? n - 1)
  then set_current_prompt_index (current_prompt_index self + 1) self
  else self.

End Session.

(** ** Sessions with offset-aware timestamps

    Every timestamp column of [sessions] is a [DateTime(timezone=True)].
    What a method assigns is a naive [datetime.utcnow()].  What the database
    hands back is aware on PostgreSQL, the server default of [started_at]
    and of [last_activity_at] included, and Python refuses to subtract an
    aware datetime from a naive one: [datetime.utcnow() - x] raises
    [TypeError].  In each method the subtraction comes before every
    assignment, so the object is as it was when the exception leaves.

    [TzSession] embeds the same methods of [Session] over a row that also
    says, for each timestamp the methods subtract from the clock, whether
    it is naive or aware.  [int_total_seconds] and the comparison of
    [is_overdue] are the ones of [Session]: they are the values of the
    source for spans below 2^32 seconds. *)

Inductive tzinfo : Type := NAIVE | AWARE.

(** "can't subtract offset-naive and offset-aware datetimes" *)
Inductive type_error : Type := TypeError.

Module TzSession.

Record t : Type := mk {
  columns : Session.t;
  started_at_tz : tzinfo;
  paused_at_tz : tzinfo;            (* read only while [paused_at] is set *)
  last_activity_at_tz : tzinfo
}.

(** The result of a method that mutates [self] and may raise. *)
Inductive outcome : Type :=
| Returned (self : t)
| Raised (e : type_error) (self : t).

(** [datetime.utcnow() - x] *)
Definition utcnow_minus (now x : datetime) (x_tz : tzinfo) : type_error + timedelta :=
  match x_tz with
  | NAIVE => inr (now - x)
  | AWARE => inl TypeError
  end.

(** [pause_session] *)
Definition pause_session (now : datetime) (reason : string) (self : t) : outcome :=
  let c := columns self in
  if decide (Session.state c = SessionState.ACTIVE) then
    let counted : type_error + Session.t :=
      match Session.paused_at c with
      | None =>
          match utcnow_minus now (Session.started_at c) (started_at_tz self) with
          | inl e => inl e
          | inr active_time =>
              inr (Session.set_active_duration_seconds
                     (Session.active_duration_seconds c + int_total_seconds active_time) c)
          end
      | Some _ => inr c
      end in
    match counted with
    | inl e => Raised e self
    | inr c =>
        let c := Session.set_state SessionState.PAUSED c in
        let c := Session.set_paused_at (Some now) c in
        Returned {| columns := c; started_at_tz := started_at_tz self;
                    paused_at_tz := NAIVE;
                    last_activity_at_tz := last_activity_at_tz self |}
    end
  else Returned self.

(** [resume_session] *)
Definition resume_session (now now2 : datetime) (self : t) : outcome :=
  let c := columns self in
  if decide (Session.state c = SessionState.PAUSED) then
    match Session.paused_at c with
    | Some paused =>
        match utcnow_minus now paused (paused_at_tz self) with
        | inl e => Raised e self
        | inr paused_time =>
            let c :=
              Session.set_paused_duration_seconds
                (Session.paused_duration_seconds c + int_total_seconds paused_time) c in
            let c := Session.set_state SessionState.ACTIVE c in
            let c := Session.set_paused_at None c in
            let c := Session.update_activity now2 None c in
            Returned {| columns := c; started_at_tz := started_at_tz self;
                        paused_at_tz := paused_at_tz self;
                        last_activity_at_tz := NAIVE |}
        end
    | None => Returned self
    end
  else Returned self.

(** [end_session] *)
Definition end_session (now : datetime) (reason : SessionEndReason.t)
    (ended_by : option UUID) (self : t) : outcome :=
  let c := columns self in
  if Session.is_ended c then Returned self
  else
    let counted : type_error + Session.t :=
      if decide (Session.state c = SessionState.ACTIVE) then
        let subtracted :=
          match Session.paused_at c with
          | Some paused => utcnow_minus now paused (paused_at_tz self)
          | None => utcnow_minus now (Session.started_at c) (started_at_tz self)
          end in
        match subtracted with
        | inl e => inl e
        | inr active_time =>
            inr (Session.set_active_duration_seconds
                   (Session.active_duration_seconds c + int_total_seconds active_time) c)
        end
      else if decide (Session.state c = SessionState.PAUSED) then
        match Session.paused_at c with
        | Some paused =>
            match utcnow_minus now paused (paused_at_tz self) with
            | inl e => inl e
            | inr paused_time =>
                inr (Session.set_paused_duration_seconds
                       (Session.paused_duration_seconds c + int_total_seconds paused_time) c)
            end
        | None => inr c
        end
      else inr c in
    match counted with
    | inl e => Raised e self
    | inr c =>
        let c :=
          if decide (reason = SessionEndReason.COMPLETED)
          then Session.set_state SessionState.ENDED c
          else if decide (reason = SessionEndReason.MAXIMUM_DURATION)
          then Session.set_state SessionState.EXPIRED c
          else Session.set_state SessionState.DROPPED c in
        let c := Session.set_ended_at (Some now) c in
        let c := Session.set_end_reason (Some reason) c in
        let c := Session.set_ended_by_user_id ended_by c in
        let c := Session.set_user1_typing false c in
        let c := Session.set_user2_typing false c in
        Returned {| columns := c; started_at_tz := started_at_tz self;
                    paused_at_tz := paused_at_tz self;
                    last_activity_at_tz := last_activity_at_tz self |}
    end.

(** [@property is_overdue] *)
Definition is_overdue (now : datetime) (self : t) : type_error + bool :=
  let c := columns self in
  if Session.is_ended c then inr false
  else
    match utcnow_minus now (Session.started_at c) (started_at_tz self) with
    | inl e => inl e
    | inr elapsed =>
        inr (Session.planned_duration_minutes c * 60 * microseconds_per_second <? elapsed)
    end.

(** [@property time_remaining_minutes], in exact arithmetic. *)
Definition time_remaining_minutes (now : datetime) (self : t) : type_error + Q :=
  let c := columns self in
  if Session.is_ended c then inr 0%Q
  else
    match utcnow_minus now (Session.started_at c) (started_at_tz self) with
    | inl e => inl e
    | inr elapsed =>
        let elapsed_minutes :=
          (inject_Z elapsed / inject_Z microseconds_per_second / 60)%Q in
        inr (py_max 0%Q (inject_Z (Session.planned_duration_minutes c) - elapsed_minutes)%Q)
    end.

(** [@property is_idle] *)
Definition is_idle (now : datetime) (self : t) : type_error + bool :=
  let c := columns self in
  if Session.is_ended c then inr false
  else
    match utcnow_minus now (Session.last_activity_at c) (last_activity_at_tz self) with
    | inl e => inl e
    | inr idle_time =>
        let idle_threshold := timedelta_minutes 15 in
        inr (idle_threshold <? idle_time)
    end.

End TzSession.

(** * Properties *)

(** ** Notions of the specification and sample objects *)

(** The terminal states of the proposal protocol as the specification lists
    them (Rejected, Expired, SessionCreated); the source has no such
    predicate. *)
Definition terminal (s : MatchState.t) : bool :=
  match s with
  | MatchState.REJECTED | MatchState.EXPIRED | MatchState.SESSION_CREATED => true
  | MatchState.PROPOSED | MatchState.ACCEPTED => false
  end.

Definition seconds (n : Z) : Z := n * microseconds_per_second.

(** A fresh proposal between users 1 and 2, proposed at t = 0 with the
    default proposal lifetime of 90 seconds. *)
Definition sample_match : Match.t :=
  {| Match.id := 7%N; Match.user1_id := 1%N; Match.user2_id := 2%N;
     Match.languages := {[ "primary" := "ja"; "secondary" := "en" ]};
     Match.match_score := 0.8%Q; Match.matching_factors := ∅;
     Match.state := MatchState.PROPOSED;
     Match.proposed_at := 0; Match.expires_at := seconds 90;
     Match.user1_response := None; Match.user2_response := None;
     Match.user1_responded_at := None; Match.user2_responded_at := None;
     Match.session_id := None; Match.rejection_reason := None;
     Match.failure_reason := None; Match.accepted_at := None;
     Match.completed_at := None |}.

(** The same proposal after the sweep expired it at t = 91 s. *)
Definition expired_match : Match.t := Match.expire_match (seconds 91) sample_match.

(** The same proposal after user 2 alone answered, at t = 10 s. *)
Definition half_answered_match : Match.t :=
  final_state (Match.set_user_response (seconds 10) (seconds 10) 2%N "rejected" sample_match).




(** A candidate as the column defaults create it. *)
Definition sample_candidate : MatchCandidate.t :=
  {| MatchCandidate.id := 11%N; MatchCandidate.user_id := 1%N;
     MatchCandidate.status := MatchCandidateStatus.IDLE;
     MatchCandidate.queued_at := None; MatchCandidate.last_match_at := None;
     MatchCandidate.queue_priority := 0%Q;
     MatchCandidate.average_rating := 5%Q; MatchCandidate.total_ratings := 0;
     MatchCandidate.strike_count := 0; MatchCandidate.successful_matches := 0;
     MatchCandidate.blocked_user_ids := [];
     MatchCandidate.cooldown_until := None; MatchCandidate.cooldown_reason := None;
     MatchCandidate.rejection_count_today := 0;
     MatchCandidate.last_rejection_reset := None;
     MatchCandidate.preferred_session_length := None;
     MatchCandidate.max_level_difference := 2;
     MatchCandidate.same_timezone_only := false;
     MatchCandidate.current_match_id := None;
     MatchCandidate.created_at := 0; MatchCandidate.updated_at := 0 |}.

(** The same candidate, still Idle, with two strikes on record. *)
Definition two_strike_candidate : MatchCandidate.t :=
  MatchCandidate.add_strike (seconds 20) (MatchCandidate.add_strike (seconds 10) sample_candidate).

(** [add_rating] called once per rating of a list, in order. *)
Definition add_ratings (ratings : list Q) (c : MatchCandidate.t) : outcome MatchCandidate.t :=
  fold_left (fun o r => and_then o (MatchCandidate.add_rating r)) ratings (Returned c).

Definition Qsum (l : list Q) : Q := fold_right Qplus 0%Q l.

(** The scorer in the words of the specification, over exact rationals:
    the sum over the five fixed weights of weight(f) * factors[f], a missing
    factor counting as 0, clamped to [0, 1]. *)
Definition factor_or_zero (factors : gmap string Q) (f : string) : Q :=
  default 0%Q (factors !! f).

Definition weighted_sum (factors : gmap string Q) : Q :=
  (0.25 * factor_or_zero factors "level_affinity"
   + 0.30 * factor_or_zero factors "native_target_match"
   + 0.20 * factor_or_zero factors "interest_overlap"
   + 0.15 * factor_or_zero factors "timezone_overlap"
   + 0.10 * factor_or_zero factors "quality_score")%Q.

Definition clamp (x lo hi : Q) : Q :=
  if Qlt_le_dec x lo then lo else if Qlt_le_dec hi x then hi else x.

(** Factors outside [0, 1], and one factor the weights do not know. *)
Definition wild_factors : gmap string Q :=
  {[ "level_affinity" := 3%Q; "native_target_match" := (-1)%Q; "shoe_size" := 44%Q ]}.

(** The scorer in the words of the specification, in the arithmetic of the
    code: every product and every partial sum is a binary64 value, the sum
    runs over the five weights in their order, a missing factor counts as
    0.0, and the clamp keeps a value between its bounds and replaces one at
    or beyond a bound by the bound. *)
Definition binary64_factor_or_zero (factors : gmap string float) (f : string) : float :=
  default 0%float (factors !! f).

Definition binary64_weighted_sum (factors : gmap string float) : float :=
  (binary64_factor_or_zero factors "level_affinity" * of_decimal 0.25%Q
   + binary64_factor_or_zero factors "native_target_match" * of_decimal 0.30%Q
   + binary64_factor_or_zero factors "interest_overlap" * of_decimal 0.20%Q
   + binary64_factor_or_zero factors "timezone_overlap" * of_decimal 0.15%Q
   + binary64_factor_or_zero factors "quality_score" * of_decimal 0.10%Q)%float.

Definition binary64_clamp (x lo hi : float) : float :=
  if PrimFloat.leb x lo then lo else if PrimFloat.leb hi x then hi else x.

(** Two binary64 values that are equal, or are both a zero (0.0 and -0.0). *)
Definition same_up_to_zero_sign (a b : float) : Prop :=
  a = b \/ exists sa sb : bool, Prim2SF a = S754_zero sa /\ Prim2SF b = S754_zero sb.

(** Factors whose weighted terms cancel: 0.25 * 2^54 is 2^52, and
    0.20 * (-5 * 2^52) is -2^52; the three values are integers that
    binary64 holds exactly. *)
Definition cancelling_factors : gmap string Q :=
  {[ "level_affinity" := 18014398509481984%Q; "native_target_match" := 1%Q;
     "interest_overlap" := (-22517998136852480)%Q ]}.

(** Factors inside [0, 1] whose weighted terms are 0.1 and 0.2. *)
Definition rounding_factors : gmap string Q :=
  {[ "level_affinity" := 0.4%Q; "interest_overlap" := 1%Q ]}.

(** A session as the column defaults create it, started at t = 0. *)
Definition sample_session : Session.t :=
  {| Session.id := 21%N; Session.match_id := 7%N;
     Session.user1_id := 1%N; Session.user2_id := 2%N; Session.room_id := "room-21";
     Session.languages := {[ "primary" := "ja"; "secondary" := "en" ]};
     Session.planned_duration_minutes := 25;
     Session.state := SessionState.ACTIVE;
     Session.current_turn_language := TurnLanguage.USER1_NATIVE;
     Session.turn_switched_at := None; Session.turn_switch_count := 0;
     Session.auto_turn_switch_enabled := true;
     Session.prompt_pack_id := None; Session.current_prompt_index := 0;
     Session.prompts_used := [];
     Session.started_at := 0; Session.ended_at := None;
     Session.last_activity_at := 0; Session.paused_at := None;
     Session.total_messages := 0; Session.user1_message_count := 0;
     Session.user2_message_count := 0;
     Session.active_duration_seconds := 0; Session.paused_duration_seconds := 0;
     Session.user1_last_seen := None; Session.user2_last_seen := None;
     Session.user1_typing := false; Session.user2_typing := false;
     Session.toxicity_warnings := 0; Session.moderation_flags := [];
     Session.end_reason := None; Session.ended_by_user_id := None;
     Session.summary_generated := false; Session.feedback_collected := false |}.

(** The scenario of the specification: start at t = 0, pause at 60 s,
    resume at 120 s, end (Completed) at 180 s. *)
Definition paused_session : Session.t :=
  Session.pause_session (seconds 60) "disconnection" sample_session.

Definition resumed_session : Session.t :=
  Session.resume_session (seconds 120) (seconds 120) paused_session.

Definition ended_session : Session.t :=
  Session.end_session (seconds 180) SessionEndReason.COMPLETED None resumed_session.

(** A row whose timestamps were all assigned in the process, and the same
    row as PostgreSQL hands it back. *)
Definition naive_session (c : Session.t) : TzSession.t :=
  {| TzSession.columns := c; TzSession.started_at_tz := NAIVE;
     TzSession.paused_at_tz := NAIVE; TzSession.last_activity_at_tz := NAIVE |}.

Definition loaded_session (c : Session.t) : TzSession.t :=
  {| TzSession.columns := c; TzSession.started_at_tz := AWARE;
     TzSession.paused_at_tz := AWARE; TzSession.last_activity_at_tz := AWARE |}.

(** 2^32 seconds, in microseconds: below it the binary64 quotient of
    [total_seconds()] truncates to, and compares with an integer as, the
    exact quotient. *)
Definition span_limit : Z := 2 ^ 32 * microseconds_per_second.

(** A session in free conversation. *)
Definition mixed_session : Session.t :=
  Session.set_current_turn_language TurnLanguage.MIXED sample_session.

(** [switch_turn_language] called once per clock reading of a list. *)
Definition switch_turns (nows : list datetime) (s : Session.t) : Session.t :=
  fold_left (fun s now => snd (Session.switch_turn_language now s)) nows s.

(** A candidate with two users on its blocklist. *)
Definition blocking_candidate : MatchCandidate.t :=
  MatchCandidate.block_user 5%N (MatchCandidate.block_user 4%N sample_candidate).

(** One day, in microseconds. *)
Definition day : Z := seconds 86400.

(** A candidate whose rejections were last reset at noon of day 3, with
    four rejections counted since. *)
Definition rejecting_candidate : MatchCandidate.t :=
  MatchCandidate.set_rejection_count_today 4
    (MatchCandidate.set_last_rejection_reset (Some (3 * day + seconds 43200)) sample_candidate).

(** A session given a list of prompts and a prompt index (the source fills
    both columns when the session is created). *)
Definition with_prompts (prompts : list string) (index : Z) (s : Session.t) : Session.t :=
  {| Session.id := Session.id s; Session.match_id := Session.match_id s;
     Session.user1_id := Session.user1_id s; Session.user2_id := Session.user2_id s;
     Session.room_id := Session.room_id s; Session.languages := Session.languages s;
     Session.planned_duration_minutes := Session.planned_duration_minutes s;
     Session.state := Session.state s;
     Session.current_turn_language := Session.current_turn_language s;
     Session.turn_switched_at := Session.turn_switched_at s;
     Session.turn_switch_count := Session.turn_switch_count s;
     Session.auto_turn_switch_enabled := Session.auto_turn_switch_enabled s;
     Session.prompt_pack_id := Session.prompt_pack_id s;
     Session.current_prompt_index := index; Session.prompts_used := prompts;
     Session.started_at := Session.started_at s; Session.ended_at := Session.ended_at s;
     Session.last_activity_at := Session.last_activity_at s;
     Session.paused_at := Session.paused_at s;
     Session.total_messages := Session.total_messages s;
     Session.user1_message_count := Session.user1_message_count s;
     Session.user2_message_count := Session.user2_message_count s;
     Session.active_duration_seconds := Session.active_duration_seconds s;
     Session.paused_duration_seconds := Session.paused_duration_seconds s;
     Session.user1_last_seen := Session.user1_last_seen s;
     Session.user2_last_seen := Session.user2_last_seen s;
     Session.user1_typing := Session.user1_typing s;
     Session.user2_typing := Session.user2_typing s;
     Session.toxicity_warnings := Session.toxicity_warnings s;
     Session.moderation_flags := Session.moderation_flags s;
     Session.end_reason := Session.end_reason s;
     Session.ended_by_user_id := Session.ended_by_user_id s;
     Session.summary_generated := Session.summary_generated s;
     Session.feedback_collected := Session.feedback_collected s |}.

Definition prompted_session : Session.t :=
  with_prompts ["hobbies"; "travel"; "food"] 0 sample_session.

(** [increment_message_count] called once per sender of a list. *)
Definition send_messages (senders : list UUID) (s : Session.t) : Session.t :=
  fold_left (fun s uid => Session.increment_message_count uid s) senders s.

(** The senders of a list that are not participants of the session. *)
Definition strangers (senders : list UUID) (s : Session.t) : Z :=
  Z.of_nat (length (List.filter (fun uid => negb (Session.is_participant uid s)) senders)).

(** The flags of a log that count as toxicity warnings. *)
Definition toxic_count (log : list ModerationFlag) : Z :=
  Z.of_nat
    (length
       (List.filter
          (fun f => bool_decide (flag_type f ∈ ["toxicity"; "inappropriate_content"]))
          log)).

(** One call of [add_moderation_flag]: the clock reading, the type and the
    details. *)
Definition flag_event : Type := datetime * string * gmap string string.

Definition flag_of_event (e : flag_event) : ModerationFlag :=
  {| flag_type := snd (fst e); flag_timestamp := fst (fst e); flag_details := snd e |}.

(** [add_moderation_flag] called once per event of a list. *)
Definition add_moderation_flags (events : list flag_event) (s : Session.t) : Session.t :=
  fold_left
    (fun s e => Session.add_moderation_flag (fst (fst e)) (snd (fst e)) (snd e) s)
    events s.

(** [advance_prompt] called [n] times. *)
Definition advance_prompts (n : nat) (s : Session.t) : Session.t :=
  Nat.iter n Session.advance_prompt s.

Module MatchFacts.
Import Match.

Example expired_match_fields :
  state expired_match = MatchState.EXPIRED
  /\ user1_response expired_match = Some "timeout"
  /\ user2_response expired_match = Some "timeout"
  /\ completed_at expired_match = Some (seconds 91).
Proof. repeat split; reflexivity. Qed.

(** *** What [_update_state_after_response] leaves alone *)

Lemma update_state_keeps_responses (t : datetime) (m : Match.t) :
  user1_response (_update_state_after_response t m) = user1_response m
  /\ user2_response (_update_state_after_response t m) = user2_response m
  /\ user1_responded_at (_update_state_after_response t m) = user1_responded_at m
  /\ user2_responded_at (_update_state_after_response t m) = user2_responded_at m.
Proof.
  unfold _update_state_after_response.
  destruct (is_fully_responded m); cbn [negb]; [| repeat split; reflexivity].
  destruct (is_accepted_by_both m); [repeat split; reflexivity |].
  cbn -[str_eq].
  destruct (str_eq (user1_response m) "rejected");
    destruct (str_eq (user2_response m) "rejected"); repeat split; reflexivity.
Qed.

Lemma update_state_pending (t : datetime) (m : Match.t) :
  is_fully_responded m = false -> _update_state_after_response t m = m.
Proof. intros Hf. unfold _update_state_after_response. now rewrite Hf. Qed.

Lemma str_eq_Some (o : option string) (s : string) :
  str_eq o s = true <-> o = Some s.
Proof.
  destruct o as [r |]; cbn; [| split; discriminate].
  rewrite String.eqb_eq. split; congruence.
Qed.

Lemma str_eq_not_Some (o : option string) (s : string) :
  str_eq o s = false <-> o <> Some s.
Proof.
  rewrite <- str_eq_Some. destruct (str_eq o s); split; congruence.
Qed.

(** The rejected branch: the state, the timestamp and the reason. *)
Lemma update_state_rejected (t : datetime) (m : Match.t) :
  is_fully_responded m = true ->
  is_accepted_by_both m = false ->
  let m' := _update_state_after_response t m in
  state m' = MatchState.REJECTED /\ completed_at m' = Some t
  /\ accepted_at m' = accepted_at m
  /\ (user1_response m = Some "rejected" -> user2_response m = Some "rejected" ->
      rejection_reason m' = Some "both_rejected")
  /\ (user1_response m = Some "rejected" -> user2_response m <> Some "rejected" ->
      rejection_reason m' = Some "user1_rejected")
  /\ (user1_response m <> Some "rejected" ->
      rejection_reason m' = Some "user2_rejected").
Proof.
  intros Hf Ha m'. subst m'. unfold _update_state_after_response.
  rewrite Hf, Ha. cbn -[str_eq].
  destruct (str_eq (user1_response m) "rejected") eqn:R1;
    destruct (str_eq (user2_response m) "rejected") eqn:R2;
    first [apply str_eq_Some in R1 | apply str_eq_not_Some in R1];
    first [apply str_eq_Some in R2 | apply str_eq_not_Some in R2];
    cbn; repeat split; auto; intros; congruence.
Qed.

(** The accepted branch. *)
Lemma update_state_accepted (t : datetime) (m : Match.t) :
  is_fully_responded m = true ->
  is_accepted_by_both m = true ->
  let m' := _update_state_after_response t m in
  state m' = MatchState.ACCEPTED /\ accepted_at m' = Some t
  /\ rejection_reason m' = rejection_reason m /\ completed_at m' = completed_at m.
Proof.
  intros Hf Ha m'. subst m'. unfold _update_state_after_response.
  rewrite Hf, Ha. cbn. repeat split; reflexivity.
Qed.

Lemma accepted_by_both_iff (m : Match.t) :
  is_accepted_by_both m = true <->
  user1_response m = Some "accepted" /\ user2_response m = Some "accepted".
Proof.
  unfold is_accepted_by_both. rewrite andb_true_iff, !str_eq_Some. tauto.
Qed.

(** The resolution rule, on the object that [_update_state_after_response]
    is called on. *)
Lemma update_state_resolves (t : datetime) (m : Match.t) :
  is_fully_responded m = true ->
  let m' := _update_state_after_response t m in
  (state m' = MatchState.ACCEPTED <->
     user1_response m = Some "accepted" /\ user2_response m = Some "accepted")
  /\ (user1_response m = Some "accepted" -> user2_response m = Some "accepted" ->
      accepted_at m' = Some t)
  /\ (~ (user1_response m = Some "accepted" /\ user2_response m = Some "accepted") ->
      state m' = MatchState.REJECTED /\ completed_at m' = Some t
      /\ (user1_response m = Some "rejected" -> user2_response m = Some "rejected" ->
          rejection_reason m' = Some "both_rejected")
      /\ (user1_response m = Some "rejected" -> user2_response m <> Some "rejected" ->
          rejection_reason m' = Some "user1_rejected")
      /\ (user1_response m <> Some "rejected" ->
          rejection_reason m' = Some "user2_rejected")).
Proof.
  intros Hf m'. subst m'.
  destruct (is_accepted_by_both m) eqn:Ha.
  - destruct (update_state_accepted t m Hf Ha) as (Hs & Hat & _).
    apply accepted_by_both_iff in Ha.
    split; [tauto |]. split; [auto | tauto].
  - destruct (update_state_rejected t m Hf Ha) as (Hs & Hc & _ & Hr).
    assert (Hn : ~ (user1_response m = Some "accepted" /\ user2_response m = Some "accepted")).
    { rewrite <- accepted_by_both_iff. congruence. }
    split; [| split].
    + rewrite Hs. split; [discriminate | tauto].
    + tauto.
    + intros _. auto.
Qed.

(** The state and the reason computed by [_update_state_after_response]
    are read off the two responses (and off the state and reason the object
    already has, which the untaken branches leave in place). *)
Lemma update_state_by_responses (t t' : datetime) (a b : Match.t) :
  user1_response a = user1_response b ->
  user2_response a = user2_response b ->
  state a = state b ->
  rejection_reason a = rejection_reason b ->
  state (_update_state_after_response t a) = state (_update_state_after_response t' b)
  /\ rejection_reason (_update_state_after_response t a)
     = rejection_reason (_update_state_after_response t' b).
Proof.
  intros H1 H2 Hs Hr. unfold _update_state_after_response.
  unfold is_fully_responded, is_accepted_by_both. cbn -[str_eq]. rewrite H1, H2.
  destruct (user1_response b) as [r1 |], (user2_response b) as [r2 |];
    cbn [negb]; auto.
  destruct (str_eq (Some r1) "accepted" && str_eq (Some r2) "accepted"); [auto |].
  destruct (str_eq (Some r1) "rejected"), (str_eq (Some r2) "rejected"); cbn; auto.
Qed.

(** The two branches of [set_user_response] that return. *)
Lemma set_user_response_as_user1 (now now2 : datetime) (uid : UUID) (resp : string)
    (m : Match.t) :
  uid = user1_id m ->
  set_user_response now now2 uid resp m
  = Returned (_update_state_after_response now2
                (set_user1_responded_at (Some now) (set_user1_response (Some resp) m))).
Proof. intros E. unfold set_user_response. now rewrite decide_True by exact E. Qed.

Lemma set_user_response_as_user2 (now now2 : datetime) (uid : UUID) (resp : string)
    (m : Match.t) :
  uid <> user1_id m -> uid = user2_id m ->
  set_user_response now now2 uid resp m
  = Returned (_update_state_after_response now2
                (set_user2_responded_at (Some now) (set_user2_response (Some resp) m))).
Proof.
  intros N E. unfold set_user_response.
  rewrite decide_False by exact N. now rewrite decide_True by exact E.
Qed.

(** The branch that raises: nothing was assigned before the [raise]. *)
Lemma set_user_response_as_stranger (now now2 : datetime) (uid : UUID) (resp : string)
    (m : Match.t) :
  uid <> user1_id m -> uid <> user2_id m ->
  set_user_response now now2 uid resp m
  = Raised (ValueError "User ID not found in this match") m.
Proof.
  intros N1 N2. unfold set_user_response.
  rewrite decide_False by exact N1. now rewrite decide_False by exact N2.
Qed.

(** A call that returns has recorded the response and the timestamp on the
    caller's side, and then run [_update_state_after_response]. *)
Lemma set_user_response_returned (now now2 : datetime) (uid : UUID) (resp : string)
    (m m' : Match.t) :
  set_user_response now now2 uid resp m = Returned m' ->
  (uid = user1_id m
   /\ m' = _update_state_after_response now2
             (set_user1_responded_at (Some now) (set_user1_response (Some resp) m)))
  \/ (uid <> user1_id m /\ uid = user2_id m
      /\ m' = _update_state_after_response now2
                (set_user2_responded_at (Some now) (set_user2_response (Some resp) m))).
Proof.
  unfold set_user_response. cbn.
  destruct (decide (uid = user1_id m)) as [E1 | N1].
  - intros [= <-]. left. auto.
  - destruct (decide (uid = user2_id m)) as [E2 | N2]; [| discriminate].
    intros [= <-]. right. auto.
Qed.

Lemma fully_responded_after_update (t : datetime) (m : Match.t) :
  is_fully_responded (_update_state_after_response t m) = is_fully_responded m.
Proof.
  destruct (update_state_keeps_responses t m) as (H1 & H2 & _).
  unfold is_fully_responded at 1. now rewrite H1, H2.
Qed.








Example resolution_of_sample_match :
  let both (r1 r2 : string) :=
    final_state (and_then (set_user_response 1 2 1%N r1 sample_match)
                          (set_user_response 3 4 2%N r2)) in
  (state (both "accepted" "accepted"), rejection_reason (both "accepted" "accepted"))
    = (MatchState.ACCEPTED, None)
  /\ (state (both "rejected" "rejected"), rejection_reason (both "rejected" "rejected"))
    = (MatchState.REJECTED, Some "both_rejected")
  /\ (state (both "rejected" "accepted"), rejection_reason (both "rejected" "accepted"))
    = (MatchState.REJECTED, Some "user1_rejected")
  /\ (state (both "accepted" "rejected"), rejection_reason (both "accepted" "rejected"))
    = (MatchState.REJECTED, Some "user2_rejected").
Proof. repeat split; reflexivity. Qed.

(** The accepted branch does not clear [rejection_reason]: a match that was
    resolved to Rejected and is then answered again (nothing checks the
    state) becomes Accepted with the reason of the earlier resolution still
    in place.  This is why the two orders of arrival agree on the reason
    of an Accepted match only on proposals nobody has answered yet. *)
Example reanswered_match_keeps_old_reason :
  let rejected :=
    final_state (set_user_response (seconds 20) (seconds 20) 1%N "accepted"
                   half_answered_match) in
  let accepted :=
    final_state (set_user_response (seconds 30) (seconds 30) 2%N "accepted" rejected) in
  (state rejected, rejection_reason rejected)
    = (MatchState.REJECTED, Some "user2_rejected")
  /\ (state accepted, rejection_reason accepted, accepted_at accepted)
     = (MatchState.ACCEPTED, Some "user2_rejected", Some (seconds 30)).
Proof. split; reflexivity. Qed.

(** C2, as the code has it.  [set_user_response] raises
    [ValueError("User ID not found in this match")] and assigns nothing when
    the user is neither user1 nor user2; for a participant it returns, in
    whatever state the match is (there is no check of the state), with the
    response and the response timestamp recorded on that user's side. *)
Theorem set_user_response_records :
  forall (m : Match.t) (uid : UUID) (resp : string) (now now2 : datetime),
    (uid <> user1_id m -> uid <> user2_id m ->
     set_user_response now now2 uid resp m
     = Raised (ValueError "User ID not found in this match") m)
    /\ (uid = user1_id m ->
        exists m' : Match.t,
          set_user_response now now2 uid resp m = Returned m'
          /\ user1_response m' = Some resp /\ user1_responded_at m' = Some now)
    /\ (uid <> user1_id m -> uid = user2_id m ->
        exists m' : Match.t,
          set_user_response now now2 uid resp m = Returned m'
          /\ user2_response m' = Some resp /\ user2_responded_at m' = Some now).
Proof.
  intros m uid resp now now2. split; [| split].
  - apply set_user_response_as_stranger.
  - intros E. eexists. split; [apply set_user_response_as_user1; exact E |].
    destruct (update_state_keeps_responses now2
                (set_user1_responded_at (Some now) (set_user1_response (Some resp) m)))
      as (K1 & _ & K3 & _).
    rewrite K1, K3. split; reflexivity.
  - intros N E. eexists. split; [apply set_user_response_as_user2; assumption |].
    destruct (update_state_keeps_responses now2
                (set_user2_responded_at (Some now) (set_user2_response (Some resp) m)))
      as (_ & K2 & _ & K4).
    rewrite K2, K4. split; reflexivity.
Qed.

Lemma set_user_response_records_witness :
  set_user_response 5 6 3%N "accepted" sample_match
  = Raised (ValueError "User ID not found in this match") sample_match
  /\ exists m' : Match.t,
      set_user_response 5 6 2%N "accepted" sample_match = Returned m'
      /\ user2_response m' = Some "accepted" /\ user2_responded_at m' = Some 5.
Proof.
  split.
  - apply (proj1 (set_user_response_records sample_match 3%N "accepted" 5 6));
      cbn; discriminate.
  - apply (proj2 (proj2 (set_user_response_records sample_match 2%N "accepted" 5 6)));
      [cbn; discriminate | reflexivity].
Defined.

(** C2, the terminal-state conflict of the specification, does not hold:
    a match that is already Expired, with both responses filled by the
    expiry, accepts a late answer of user1.  The
    call returns, overwrites the response and re-resolves the match to
    Rejected. *)
Lemma set_user_response_on_terminal_match :
  terminal (state expired_match) = true
  /\ user1_response expired_match = Some "timeout"
  /\ match set_user_response (seconds 100) (seconds 100) 1%N "accepted" expired_match with
     | Returned m' =>
         m' <> expired_match
         /\ user1_response m' = Some "accepted"
         /\ state m' = MatchState.REJECTED
         /\ rejection_reason m' = Some "user2_rejected"
     | Raised _ _ => False
     end.
Proof.
  split; [reflexivity |]. split; [reflexivity |].
  cbn. split; [| repeat split; reflexivity].
  intros H. apply (f_equal state) in H. discriminate H.
Qed.

(** *** Expiry *)

(** What [expire_match] assigns and what it leaves alone, field by field. *)
Lemma expire_match_fields (now : datetime) (m : Match.t) :
  expire_match now m
  = {| id := id m; user1_id := user1_id m; user2_id := user2_id m;
       languages := languages m; match_score := match_score m;
       matching_factors := matching_factors m;
       state := MatchState.EXPIRED;
       proposed_at := proposed_at m; expires_at := expires_at m;
       user1_response := Some (default "timeout" (user1_response m));
       user2_response := Some (default "timeout" (user2_response m));
       user1_responded_at := user1_responded_at m;
       user2_responded_at := user2_responded_at m;
       session_id := session_id m; rejection_reason := rejection_reason m;
       failure_reason := failure_reason m; accepted_at := accepted_at m;
       completed_at := Some now |}.
Proof.
  destruct m as [? ? ? ? ? ? ? ? ? r1 r2 ? ? ? ? ? ? ?].
  destruct r1, r2; reflexivity.
Qed.

(** C3, as the code has it.  [expire_match] checks nothing: in every state,
    and whether or not [expires_at] has passed, it sets the state to
    Expired and [completed_at] to the current time, and fills each response
    that is still unset with "timeout", keeping a response that is set. *)
Theorem expire_match_unconditional :
  forall (m : Match.t) (now : datetime),
    state (expire_match now m) = MatchState.EXPIRED
    /\ completed_at (expire_match now m) = Some now
    /\ user1_response (expire_match now m)
       = match user1_response m with Some r => Some r | None => Some "timeout" end
    /\ user2_response (expire_match now m)
       = match user2_response m with Some r => Some r | None => Some "timeout" end.
Proof.
  intros m now. rewrite expire_match_fields. cbn.
  destruct (user1_response m), (user2_response m); repeat split; reflexivity.
Qed.

(** C3, the precondition of the specification, does not hold: the
    operation is carried out, not refused, on a
    proposal whose [expires_at] has not passed, and on a match that is no
    longer Proposed. *)
Lemma expire_match_without_precondition :
  (state sample_match = MatchState.PROPOSED
   /\ is_expired (seconds 10) sample_match = false
   /\ expire_match (seconds 10) sample_match <> sample_match
   /\ state (expire_match (seconds 10) sample_match) = MatchState.EXPIRED)
  /\ (state half_answered_match = MatchState.PROPOSED
      /\ state (create_session 9%N half_answered_match) = MatchState.SESSION_CREATED
      /\ expire_match (seconds 91) (create_session 9%N half_answered_match)
         <> create_session 9%N half_answered_match
      /\ state (expire_match (seconds 91) (create_session 9%N half_answered_match))
         = MatchState.EXPIRED).
Proof.
  split.
  - repeat split; try reflexivity.
    intros H. apply (f_equal state) in H. discriminate H.
  - repeat split; try reflexivity.
    intros H. apply (f_equal state) in H. discriminate H.
Qed.

(** C8. [expire_match] never overwrites a recorded response: a response
    that is set before the call has the same value after it, and only a
    response that is unset at the call becomes "timeout". *)
Theorem expire_match_keeps_responses :
  forall (m : Match.t) (now : datetime),
    (forall r : string,
        user1_response m = Some r -> user1_response (expire_match now m) = Some r)
    /\ (forall r : string,
        user2_response m = Some r -> user2_response (expire_match now m) = Some r)
    /\ (user1_response m = None -> user1_response (expire_match now m) = Some "timeout")
    /\ (user2_response m = None -> user2_response (expire_match now m) = Some "timeout")
    /\ user1_responded_at (expire_match now m) = user1_responded_at m
    /\ user2_responded_at (expire_match now m) = user2_responded_at m.
Proof.
  intros m now. rewrite expire_match_fields. cbn.
  repeat split; try (intros r E; now rewrite E); intros E; now rewrite E.
Qed.

Lemma expire_match_keeps_responses_witness :
  user2_response half_answered_match = Some "rejected"
  /\ user2_response (expire_match (seconds 91) half_answered_match) = Some "rejected"
  /\ user1_response half_answered_match = None
  /\ user1_response (expire_match (seconds 91) half_answered_match) = Some "timeout".
Proof.
  pose proof (expire_match_keeps_responses half_answered_match (seconds 91))
    as (_ & K2 & K1 & _).
  split; [reflexivity |]. split; [apply K2; reflexivity |].
  split; [reflexivity |]. apply K1. reflexivity.
Defined.

End MatchFacts.

Module MatchCandidateFacts.
Import MatchCandidate.

Example two_strike_candidate_fields :
  status two_strike_candidate = MatchCandidateStatus.IDLE
  /\ strike_count two_strike_candidate = 2
  /\ cooldown_until two_strike_candidate = None
  /\ is_available (seconds 30) two_strike_candidate = true.
Proof. repeat split; reflexivity. Qed.

(** [add_cooldown], field by field. *)
Lemma add_cooldown_fields (now : datetime) (minutes : Z) (reason : string) (c : t) :
  status (add_cooldown now minutes reason c) = MatchCandidateStatus.COOLDOWN
  /\ cooldown_until (add_cooldown now minutes reason c)
     = Some (now + timedelta_minutes minutes)
  /\ cooldown_reason (add_cooldown now minutes reason c) = Some reason
  /\ strike_count (add_cooldown now minutes reason c) = strike_count c.
Proof. repeat split; reflexivity. Qed.

(** C6. [add_strike] increments [strike_count] by exactly 1, and when the
    count it reaches is at least 3 the candidate is at once in Cooldown,
    with [cooldown_until] 24 hours after the current time and the reason
    "excessive_strikes"; below 3 the status and the cooldown are untouched.
    In particular, the third strike of an Idle candidate puts it in
    Cooldown. *)
Theorem add_strike_cooldown :
  forall (c : t) (now : datetime),
    strike_count (add_strike now c) = strike_count c + 1
    /\ (3 <= strike_count c + 1 ->
        status (add_strike now c) = MatchCandidateStatus.COOLDOWN
        /\ cooldown_until (add_strike now c) = Some (now + seconds (24 * 3600))
        /\ cooldown_reason (add_strike now c) = Some "excessive_strikes")
    /\ (strike_count c + 1 < 3 ->
        status (add_strike now c) = status c
        /\ cooldown_until (add_strike now c) = cooldown_until c
        /\ cooldown_reason (add_strike now c) = cooldown_reason c)
    /\ (status c = MatchCandidateStatus.IDLE -> strike_count c = 2 ->
        status (add_strike now c) = MatchCandidateStatus.COOLDOWN
        /\ cooldown_until (add_strike now c) = Some (now + seconds (24 * 3600))
        /\ cooldown_reason (add_strike now c) = Some "excessive_strikes").
Proof.
  intros c now.
  assert (Hhigh : 3 <= strike_count c + 1 ->
                  add_strike now c
                  = add_cooldown now (60 * 24) "excessive_strikes"
                      (set_strike_count (strike_count c + 1) c)).
  { intros Hge. unfold add_strike. cbn [strike_count set_strike_count].
    destruct (3 <=? strike_count c + 1) eqn:E; [reflexivity |].
    apply Z.leb_gt in E. lia. }
  assert (Hlow : strike_count c + 1 < 3 ->
                 add_strike now c = set_strike_count (strike_count c + 1) c).
  { intros Hlt. unfold add_strike. cbn [strike_count set_strike_count].
    destruct (3 <=? strike_count c + 1) eqn:E; [| reflexivity].
    apply Z.leb_le in E. lia. }
  split; [| split; [| split]].
  - destruct (Z_lt_le_dec (strike_count c + 1) 3) as [Hlt | Hge].
    + now rewrite Hlow.
    + now rewrite Hhigh.
  - intros Hge. rewrite Hhigh by exact Hge. repeat split; reflexivity.
  - intros Hlt. rewrite Hlow by exact Hlt. repeat split; reflexivity.
  - intros _ H2. rewrite Hhigh by lia. repeat split; reflexivity.
Qed.

Lemma add_strike_cooldown_witness :
  strike_count (add_strike (seconds 30) two_strike_candidate) = 3
  /\ status (add_strike (seconds 30) two_strike_candidate) = MatchCandidateStatus.COOLDOWN
  /\ cooldown_until (add_strike (seconds 30) two_strike_candidate)
     = Some (seconds 30 + seconds (24 * 3600))
  /\ cooldown_reason (add_strike (seconds 30) two_strike_candidate)
     = Some "excessive_strikes".
Proof.
  pose proof (add_strike_cooldown two_strike_candidate (seconds 30)) as (Hn & _ & _ & Hthird).
  split; [exact Hn |]. apply Hthird; reflexivity.
Defined.

(** *** Ratings *)

Lemma inject_Z_nonzero (n : Z) : n <> 0 -> ~ (inject_Z n == 0)%Q.
Proof. intros Hn E. unfold Qeq in E. cbn in E. lia. Qed.

(** The branch of [add_rating] that returns. *)
Lemma add_rating_returned (r : Q) (c : t) :
  total_ratings c <> -1 ->
  add_rating r c
  = Returned
      (set_average_rating
         ((average_rating c * inject_Z (total_ratings c) + r)
          / inject_Z (total_ratings c + 1))%Q
         (set_total_ratings (total_ratings c + 1) c)).
Proof.
  intros Hn. unfold add_rating. cbn [total_ratings set_total_ratings average_rating].
  rewrite decide_False by lia. reflexivity.
Qed.

(** The branch that raises: the count was already incremented. *)
Lemma add_rating_raised (r : Q) (c : t) :
  total_ratings c = -1 ->
  add_rating r c = Raised ZeroDivisionError (set_total_ratings 0 c).
Proof.
  intros Hn. unfold add_rating. cbn [total_ratings set_total_ratings average_rating].
  rewrite Hn. reflexivity.
Qed.

(** C9. [add_rating] is the running-mean update: it increments
    [total_ratings] by 1 and the new [average_rating] is, in exact
    arithmetic, (old average * old count + rating) / (old count + 1); with
    no rating on record the new average is the rating itself, whatever the
    average was before.  (The quotient exists unless the count on record is
    -1, where the method raises [ZeroDivisionError].) *)
Theorem add_rating_running_mean :
  forall (c : t) (r : Q),
    total_ratings c <> -1 ->
    exists c' : t,
      add_rating r c = Returned c'
      /\ total_ratings c' = total_ratings c + 1
      /\ (average_rating c'
          == (average_rating c * inject_Z (total_ratings c) + r)
             / inject_Z (total_ratings c + 1))%Q
      /\ (total_ratings c = 0 -> (average_rating c' == r)%Q).
Proof.
  intros c r Hn. eexists. split; [apply add_rating_returned; exact Hn |].
  cbn [total_ratings average_rating set_average_rating set_total_ratings].
  split; [reflexivity |]. split; [reflexivity |].
  intros H0. rewrite H0.
  change (inject_Z 0) with 0%Q. change (inject_Z (0 + 1)) with 1%Q. field.
Qed.

Lemma add_rating_running_mean_witness :
  exists c' : t,
    add_rating 3%Q sample_candidate = Returned c'
    /\ total_ratings c' = total_ratings sample_candidate + 1
    /\ (average_rating c'
        == (average_rating sample_candidate * inject_Z (total_ratings sample_candidate) + 3)
           / inject_Z (total_ratings sample_candidate + 1))%Q
    /\ (total_ratings sample_candidate = 0 -> (average_rating c' == 3)%Q).
Proof. apply (add_rating_running_mean sample_candidate 3%Q). cbn. discriminate. Defined.

(** The invariant behind the running mean: average * count is the sum of
    the ratings taken so far. *)
Lemma add_ratings_sum (ratings : list Q) :
  forall (c : t) (total : Q),
    0 <= total_ratings c ->
    (average_rating c * inject_Z (total_ratings c) == total)%Q ->
    exists c' : t,
      add_ratings ratings c = Returned c'
      /\ total_ratings c' = total_ratings c + Z.of_nat (length ratings)
      /\ (average_rating c' * inject_Z (total_ratings c') == total + Qsum ratings)%Q.
Proof.
  induction ratings as [| r ratings IH]; intros c total Hpos Hsum.
  - exists c. cbn. split; [reflexivity |]. split; [lia |].
    rewrite Hsum. ring.
  - unfold add_ratings. cbn [fold_left and_then].
    rewrite add_rating_returned by lia.
    match goal with
    | |- context [Returned ?x] => set (c1 := x)
    end.
    destruct (IH c1 (total + r)%Q) as (c' & Hrun & Hcount & Hmean).
    + subst c1. cbn. lia.
    + subst c1. cbn [average_rating total_ratings set_average_rating set_total_ratings].
      rewrite Hsum.
      field. apply inject_Z_nonzero. lia.
    + exists c'. split; [exact Hrun |]. split.
      * rewrite Hcount. subst c1. cbn [total_ratings set_average_rating set_total_ratings].
        cbn [length]. lia.
      * rewrite Hmean. change (Qsum (r :: ratings)) with (r + Qsum ratings)%Q. ring.
Qed.

(** X8. Starting from a candidate without ratings, the average after a
    non-empty sequence of ratings is their arithmetic mean. *)
Lemma add_ratings_mean (ratings : list Q) (c : t) :
  total_ratings c = 0 -> ratings <> [] ->
  exists c' : t,
    add_ratings ratings c = Returned c'
    /\ total_ratings c' = Z.of_nat (length ratings)
    /\ (average_rating c' == Qsum ratings / inject_Z (Z.of_nat (length ratings)))%Q.
Proof.
  intros H0 Hne.
  destruct (add_ratings_sum ratings c 0%Q) as (c' & Hrun & Hcount & Hmean).
  - lia.
  - rewrite H0. cbn. ring.
  - exists c'. split; [exact Hrun |]. rewrite H0, Z.add_0_l in Hcount.
    split; [exact Hcount |].
    rewrite Hcount in Hmean.
    assert (Hlen : ~ (inject_Z (Z.of_nat (length ratings)) == 0)%Q).
    { apply inject_Z_nonzero. destruct ratings; [congruence | cbn; lia]. }
    rewrite <- (Qplus_0_l (Qsum ratings)), <- Hmean.
    field. exact Hlen.
Qed.

Example ratings_of_sample_candidate :
  match add_ratings [4%Q; 5%Q; 3%Q] sample_candidate with
  | Returned c' => total_ratings c' = 3 /\ (average_rating c' == 4)%Q
  | Raised _ _ => False
  end.
Proof. cbn. split; reflexivity. Qed.

End MatchCandidateFacts.

Module ScorerFacts.
Import Match.

(** *** Exact arithmetic *)

(** The loop adds the weighted factors that are present, in the order of
    the weights. *)
Lemma score_loop_is_weighted_sum (factors : gmap string Q) :
  (fold_left (add_factor factors) weights (of_decimal 0%Q) == weighted_sum factors)%Q.
Proof.
  unfold weights, weighted_sum, factor_or_zero, add_factor.
  cbn [fold_left fst snd of_decimal fadd fmul Q_ops].
  destruct (factors !! "level_affinity"), (factors !! "native_target_match"),
    (factors !! "interest_overlap"), (factors !! "timezone_overlap"),
    (factors !! "quality_score"); cbv [default from_option Datatypes.id]; ring.
Qed.

(** [min(1.0, max(0.0, score))] is the clamp to [0, 1]. *)
Lemma py_min_max_is_clamp (x y : Q) :
  (x == y)%Q ->
  (py_min (of_decimal 1%Q) (py_max (of_decimal 0%Q) x) == clamp y 0 1)%Q.
Proof.
  intros Exy. unfold py_min, py_max, clamp. cbn [of_decimal flt Q_ops].
  destruct (Qle_bool x 0) eqn:L0; cbn [negb].
  - apply Qle_bool_iff in L0.
    destruct (Qle_bool 1 0) eqn:L1; [apply Qle_bool_iff in L1; lra |]. cbn [negb].
    destruct (Qlt_le_dec y 0); [reflexivity |].
    destruct (Qlt_le_dec 1 y); lra.
  - assert (H0 : (0 < x)%Q).
    { apply Qnot_le_lt. intros H. apply Qle_bool_iff in H. congruence. }
    destruct (Qle_bool 1 x) eqn:L1; cbn [negb].
    + apply Qle_bool_iff in L1.
      destruct (Qlt_le_dec y 0); [lra |].
      destruct (Qlt_le_dec 1 y); lra.
    + assert (H1 : (x < 1)%Q).
      { apply Qnot_le_lt. intros H. apply Qle_bool_iff in H. congruence. }
      destruct (Qlt_le_dec y 0); [lra |].
      destruct (Qlt_le_dec 1 y); lra.
Qed.

Lemma clamp_in_range (x : Q) : (0 <= clamp x 0 1 <= 1)%Q.
Proof.
  unfold clamp. destruct (Qlt_le_dec x 0); [lra |].
  destruct (Qlt_le_dec 1 x); lra.
Qed.

(** The loop of the method evaluated over exact rationals, where sums and
    products do not round: it is clamp(sum of weight(f) * factors[f], 0, 1),
    a missing factor counting as 0, and lies in [0, 1].  The method itself
    computes in binary64; see [calculate_match_quality_score_binary64]. *)
Lemma calculate_match_quality_score_clamped_sum :
  forall factors : gmap string Q,
    (calculate_match_quality_score factors == clamp (weighted_sum factors) 0 1)%Q
    /\ (0 <= calculate_match_quality_score factors <= 1)%Q.
Proof.
  intros factors.
  assert (E : (calculate_match_quality_score factors == clamp (weighted_sum factors) 0 1)%Q).
  { unfold calculate_match_quality_score.
    apply py_min_max_is_clamp, score_loop_is_weighted_sum. }
  split; [exact E |].
  pose proof (clamp_in_range (weighted_sum factors)) as R.
  split; rewrite E; apply R.
Qed.

(** Out-of-range factors are weighted as they are: 0.25 * 3 + 0.30 * (-1)
    is 0.45, where clamping each factor first would give 0.25; the unknown
    factor is ignored. *)
Example score_of_wild_factors :
  (calculate_match_quality_score wild_factors == 0.45)%Q
  /\ (calculate_match_quality_score (∅ : gmap string Q) == 0)%Q
  /\ (calculate_match_quality_score (<[ "level_affinity" := 9%Q ]> wild_factors) == 1)%Q.
Proof. repeat split; reflexivity. Qed.

(** *** IEEE binary64 *)

(** The literals of the method as binary64 values. *)
Example binary64_literals :
  of_decimal (F := float) 0%Q = 0%float
  /\ of_decimal (F := float) 1%Q = 1%float
  /\ of_decimal (F := float) 0.25%Q = 0.25%float
  /\ of_decimal (F := float) 0.30%Q = 0x1.3333333333333p-2%float
  /\ of_decimal (F := float) 0.10%Q = 0x1.999999999999ap-4%float.
Proof. repeat split; reflexivity. Qed.

Lemma binary64_ltb_leb (x y : float) :
  PrimFloat.ltb x y = true -> PrimFloat.leb x y = true.
Proof.
  rewrite FloatAxioms.ltb_spec, FloatAxioms.leb_spec. unfold SFltb, SFleb.
  destruct (SFcompare (Prim2SF x) (Prim2SF y)) as [[| |] |]; congruence.
Qed.

(** X10. On binary64 the result lies in [0, 1] for every factors map, the ones
    holding infinities and NaNs included: a comparison with a NaN is false,
    so [max(0.0, nan)] is 0.0. *)
Lemma binary64_score_in_range (factors : gmap string float) :
  PrimFloat.leb 0 (calculate_match_quality_score factors) = true
  /\ PrimFloat.leb (calculate_match_quality_score factors) 1 = true.
Proof.
  unfold calculate_match_quality_score.
  generalize (fold_left (add_factor factors) weights (of_decimal 0%Q)). intros score.
  unfold py_min, py_max. cbn [flt binary64_ops].
  change (of_decimal (F := float) 0%Q) with 0%float.
  change (of_decimal (F := float) 1%Q) with 1%float.
  destruct (PrimFloat.ltb 0 score) eqn:L0.
  - destruct (PrimFloat.ltb score 1) eqn:L1.
    + split; apply binary64_ltb_leb; assumption.
    + split; reflexivity.
  - change (PrimFloat.ltb 0 1) with true. cbn iota. split; reflexivity.
Qed.

Example binary64_scores :
  calculate_match_quality_score (F := float) {[ "quality_score" := nan ]} = 0%float
  /\ calculate_match_quality_score (F := float) {[ "quality_score" := infinity ]} = 1%float
  /\ calculate_match_quality_score (F := float)
       {[ "quality_score" := infinity; "level_affinity" := neg_infinity ]} = 0%float
  /\ calculate_match_quality_score (F := float)
       {[ "level_affinity" := 1%float; "native_target_match" := 1%float;
          "interest_overlap" := 1%float; "timezone_overlap" := 1%float;
          "quality_score" := 1%float ]} = 1%float.
Proof. repeat split; vm_compute; reflexivity. Qed.

(** *** The method in binary64 against the formula of the specification *)

Lemma same_up_to_zero_sign_sym (a b : float) :
  same_up_to_zero_sign a b -> same_up_to_zero_sign b a.
Proof. intros [-> | (sa & sb & Ha & Hb)]; [left; reflexivity | right; eauto]. Qed.

Lemma same_up_to_zero_sign_trans (a b c : float) :
  same_up_to_zero_sign a b -> same_up_to_zero_sign b c -> same_up_to_zero_sign a c.
Proof.
  intros [-> | (sa & sb & Ha & Hb)]; [auto |].
  intros [<- | (sb' & sc & Hb' & Hc)]; right; eauto.
Qed.

(** Adding 0.0 changes at most the sign of a zero. *)
Lemma add_zero_r (x : float) : same_up_to_zero_sign (x + 0)%float x.
Proof.
  destruct (Prim2SF x) as [sx | sx | | sx mx ex] eqn:Ex.
  - right. exists false, sx. split; [| exact Ex].
    rewrite FloatAxioms.add_spec, Ex. change (Prim2SF 0) with (S754_zero false).
    destruct sx; reflexivity.
  - left. apply Prim2SF_inj. rewrite FloatAxioms.add_spec, Ex. reflexivity.
  - left. apply Prim2SF_inj. rewrite FloatAxioms.add_spec, Ex. reflexivity.
  - left. apply Prim2SF_inj. rewrite FloatAxioms.add_spec, Ex. reflexivity.
Qed.

Lemma add_zero_l (x : float) : same_up_to_zero_sign (0 + x)%float x.
Proof.
  destruct (Prim2SF x) as [sx | sx | | sx mx ex] eqn:Ex.
  - right. exists false, sx. split; [| exact Ex].
    rewrite FloatAxioms.add_spec, Ex. change (Prim2SF 0) with (S754_zero false).
    destruct sx; reflexivity.
  - left. apply Prim2SF_inj. rewrite FloatAxioms.add_spec, Ex. reflexivity.
  - left. apply Prim2SF_inj. rewrite FloatAxioms.add_spec, Ex. reflexivity.
  - left. apply Prim2SF_inj. rewrite FloatAxioms.add_spec, Ex. reflexivity.
Qed.

(** The sign of a zero is forgotten, or stays the sign of a zero, when a
    further term is added. *)
Lemma add_same_up_to_zero_sign (a b y : float) :
  same_up_to_zero_sign a b -> same_up_to_zero_sign (a + y)%float (b + y)%float.
Proof.
  intros [-> | (sa & sb & Ha & Hb)]; [left; reflexivity |].
  destruct (Prim2SF y) as [sy | sy | | sy my ey] eqn:Ey.
  - right.
    exists (if Bool.eqb sa sy then sa else false), (if Bool.eqb sb sy then sb else false).
    rewrite !FloatAxioms.add_spec, Ha, Hb, Ey.
    split; [destruct sa, sy; reflexivity | destruct sb, sy; reflexivity].
  - left. apply Prim2SF_inj. rewrite !FloatAxioms.add_spec, Ha, Hb, Ey. reflexivity.
  - left. apply Prim2SF_inj. rewrite !FloatAxioms.add_spec, Ha, Hb, Ey. reflexivity.
  - left. apply Prim2SF_inj. rewrite !FloatAxioms.add_spec, Ha, Hb, Ey. reflexivity.
Qed.

Lemma SFcompare_antisym (x y : spec_float) :
  SFcompare y x = option_map CompOpp (SFcompare x y).
Proof.
  destruct x as [sx | sx | | sx mx ex], y as [sy | sy | | sy my ey]; cbn;
    try reflexivity;
    try (destruct sx; reflexivity); try (destruct sy; reflexivity);
    try (destruct sx, sy; reflexivity).
  destruct sx, sy; try reflexivity.
  - rewrite (Z.compare_antisym ex ey).
    destruct (ex ?= ey)%Z; cbn; try reflexivity.
    do 2 f_equal. symmetry. exact (Pos.compare_cont_antisym mx my Eq).
  - rewrite (Z.compare_antisym ex ey).
    destruct (ex ?= ey)%Z; cbn; try reflexivity.
    f_equal. symmetry. exact (Pos.compare_cont_antisym mx my Eq).
Qed.

Lemma SFcompare_refl (x : spec_float) :
  x <> S754_nan -> SFcompare x x = Some Eq.
Proof.
  destruct x as [sx | sx | | sx mx ex]; cbn; intros Hx; try congruence.
  - destruct sx; reflexivity.
  - rewrite Z.compare_refl, Pos.compare_cont_refl. destruct sx; reflexivity.
Qed.

Lemma is_nan_spec (x : float) :
  PrimFloat.is_nan x = true <-> Prim2SF x = S754_nan.
Proof.
  unfold PrimFloat.is_nan. rewrite FloatAxioms.eqb_spec. unfold SFeqb. split.
  - intros Hx. destruct (Prim2SF x) eqn:Ex; try reflexivity;
      rewrite SFcompare_refl in Hx by congruence; discriminate.
  - intros ->. reflexivity.
Qed.

(** Away from NaN, [<] is the negation of the converse [<=]. *)
Lemma ltb_negb_leb (x y : float) :
  Prim2SF x <> S754_nan -> Prim2SF y <> S754_nan ->
  PrimFloat.ltb x y = negb (PrimFloat.leb y x).
Proof.
  intros Hx Hy. rewrite FloatAxioms.ltb_spec, FloatAxioms.leb_spec.
  unfold SFltb, SFleb. rewrite (SFcompare_antisym (Prim2SF x) (Prim2SF y)).
  destruct (SFcompare (Prim2SF x) (Prim2SF y)) as [[| |] |] eqn:E; cbn; try reflexivity.
  exfalso. destruct (Prim2SF x), (Prim2SF y); cbn in E; congruence.
Qed.

Lemma ltb_zero_of_zero (x : float) (sx : bool) :
  Prim2SF x = S754_zero sx -> PrimFloat.ltb 0 x = false.
Proof. intros Ex. rewrite FloatAxioms.ltb_spec, Ex. reflexivity. Qed.

(** [min(1.0, max(0.0, score))] gives 0.0 on either zero. *)
Lemma py_clamp_same_up_to_zero_sign (a b : float) :
  same_up_to_zero_sign a b ->
  py_min (of_decimal 1%Q) (py_max (of_decimal 0%Q) a)
  = py_min (of_decimal 1%Q) (py_max (of_decimal 0%Q) b).
Proof.
  intros [-> | (sa & sb & Ha & Hb)]; [reflexivity |].
  unfold py_max. cbn [flt binary64_ops].
  change (of_decimal (F := float) 0%Q) with 0%float.
  rewrite (ltb_zero_of_zero a sa Ha), (ltb_zero_of_zero b sb Hb). reflexivity.
Qed.

(** [min(1.0, max(0.0, score))] is the clamp to [0, 1] of a score that is
    a number, and 0.0 of a NaN: [nan > 0.0] is false. *)
Lemma py_clamp_is_binary64_clamp (x : float) :
  py_min (of_decimal 1%Q) (py_max (of_decimal 0%Q) x)
  = if PrimFloat.is_nan x then 0%float else binary64_clamp x 0 1.
Proof.
  unfold py_min, py_max, binary64_clamp. cbn [flt binary64_ops].
  change (of_decimal (F := float) 0%Q) with 0%float.
  change (of_decimal (F := float) 1%Q) with 1%float.
  destruct (PrimFloat.is_nan x) eqn:N.
  - apply is_nan_spec in N.
    assert (L : PrimFloat.ltb 0 x = false).
    { rewrite FloatAxioms.ltb_spec, N. reflexivity. }
    rewrite L. reflexivity.
  - assert (Hx : Prim2SF x <> S754_nan).
    { intros Hx. apply is_nan_spec in Hx. congruence. }
    rewrite (ltb_negb_leb 0 x) by (trivial; discriminate).
    destruct (PrimFloat.leb x 0); cbn [negb]; [reflexivity |].
    rewrite (ltb_negb_leb x 1) by (trivial; discriminate).
    destruct (PrimFloat.leb 1 x); reflexivity.
Qed.

Lemma py_clamp_in_range (x : float) :
  PrimFloat.leb 0 (py_min (of_decimal 1%Q) (py_max (of_decimal 0%Q) x)) = true
  /\ PrimFloat.leb (py_min (of_decimal 1%Q) (py_max (of_decimal 0%Q) x)) 1 = true.
Proof.
  unfold py_min, py_max. cbn [flt binary64_ops].
  change (of_decimal (F := float) 0%Q) with 0%float.
  change (of_decimal (F := float) 1%Q) with 1%float.
  destruct (PrimFloat.ltb 0 x) eqn:L0.
  - destruct (PrimFloat.ltb x 1) eqn:L1.
    + split; apply binary64_ltb_leb; assumption.
    + split; reflexivity.
  - change (PrimFloat.ltb 0 1) with true. cbn iota. split; reflexivity.
Qed.

(** One turn of the loop against one term of the sum: skipping a missing
    factor and adding 0.0 * weight differ at most in the sign of a zero. *)
Lemma add_factor_step (factors : gmap string float) (name : string) (w s s' : float) :
  (0 * w)%float = 0%float ->
  same_up_to_zero_sign s s' ->
  same_up_to_zero_sign (add_factor factors s (name, w))
    (s' + binary64_factor_or_zero factors name * w)%float.
Proof.
  intros Hw Hs. unfold add_factor, binary64_factor_or_zero.
  cbn [fst snd fadd fmul binary64_ops].
  destruct (factors !! name) as [v |]; cbv [default from_option Datatypes.id].
  - apply add_same_up_to_zero_sign, Hs.
  - rewrite Hw. eapply same_up_to_zero_sign_trans; [exact Hs |].
    apply same_up_to_zero_sign_sym, add_zero_r.
Qed.

Lemma add_factor_first (factors : gmap string float) (name : string) (w : float) :
  (0 * w)%float = 0%float ->
  same_up_to_zero_sign (add_factor factors 0%float (name, w))
    (binary64_factor_or_zero factors name * w)%float.
Proof.
  intros Hw. unfold add_factor, binary64_factor_or_zero.
  cbn [fst snd fadd fmul binary64_ops].
  destruct (factors !! name) as [v |]; cbv [default from_option Datatypes.id].
  - apply add_zero_l.
  - rewrite Hw. left; reflexivity.
Qed.

(** The loop, from [score = 0.0], against the sum of the five terms. *)
Lemma score_loop_is_binary64_weighted_sum (factors : gmap string float) :
  same_up_to_zero_sign (fold_left (add_factor factors) weights (of_decimal 0%Q))
    (binary64_weighted_sum factors).
Proof.
  unfold weights, binary64_weighted_sum. cbn [fold_left].
  change (of_decimal (F := float) 0%Q) with 0%float.
  repeat (apply add_factor_step; [reflexivity |]).
  apply add_factor_first. reflexivity.
Qed.

(** C5, as the code has it.  [calculate_match_quality_score] is a function
    of the factors map alone.  Its result is the clamp to [0, 1] of the sum
    of factors[f] * weight(f) over level_affinity 0.25, native_target_match
    0.30, interest_overlap 0.20, timezone_overlap 0.15 and quality_score
    0.10, where the weights are the binary64 values of these literals, the
    terms are added from left to right in this order, every product and
    every partial sum is rounded to binary64, and a missing factor counts
    as 0.0; a factor enters its product as it is, whatever its range, and
    only the sum is clamped.  When the sum is a NaN the result is 0.0.  The
    result lies in [0, 1] for every factors map. *)
Theorem calculate_match_quality_score_binary64 :
  forall factors : gmap string float,
    calculate_match_quality_score factors
    = (if PrimFloat.is_nan (binary64_weighted_sum factors) then 0%float
       else binary64_clamp (binary64_weighted_sum factors) 0 1)
    /\ PrimFloat.leb 0 (calculate_match_quality_score factors) = true
    /\ PrimFloat.leb (calculate_match_quality_score factors) 1 = true.
Proof.
  intros factors. split.
  - unfold calculate_match_quality_score.
    rewrite (py_clamp_same_up_to_zero_sign _ _ (score_loop_is_binary64_weighted_sum factors)).
    apply py_clamp_is_binary64_clamp.
  - apply py_clamp_in_range.
Qed.

(** The result is not the clamp of the exact sum.  On [cancelling_factors],
    whose values binary64 holds exactly, the exact sum is 2^52 + 0.3 - 2^52
    = 0.3, and the method returns 0.0: 2^52 + 0.3 rounds to 2^52.  On
    [rounding_factors], inside [0, 1], the exact sum is 0.1 + 0.2 = 0.3 and
    the method returns 0.30000000000000004, which is not the binary64 value
    of 0.3. *)
Lemma binary64_score_is_not_exact_clamp :
  (of_decimal (F := float) <$> cancelling_factors
   = {[ "level_affinity" := 18014398509481984%float; "native_target_match" := 1%float;
        "interest_overlap" := (-22517998136852480)%float ]})
  /\ calculate_match_quality_score (of_decimal (F := float) <$> cancelling_factors) = 0%float
  /\ (clamp (weighted_sum cancelling_factors) 0 1 == 0.3)%Q
  /\ calculate_match_quality_score (of_decimal (F := float) <$> rounding_factors)
     = 0x1.3333333333334p-2%float
  /\ (clamp (weighted_sum rounding_factors) 0 1 == 0.3)%Q
  /\ of_decimal (F := float) 0.3%Q = 0x1.3333333333333p-2%float
  /\ PrimFloat.eqb 0x1.3333333333334p-2 0x1.3333333333333p-2 = false
  /\ PrimFloat.eqb 0 0x1.3333333333333p-2 = false.
Proof. repeat split; vm_compute; reflexivity. Qed.

End ScorerFacts.

Module SessionFacts.
Import Session.

(** *** Turn language *)

Lemma switch_turn_language_fields (now : datetime) (s : t) :
  let next :=
    match current_turn_language s with
    | TurnLanguage.USER1_NATIVE => TurnLanguage.USER2_NATIVE
    | TurnLanguage.USER2_NATIVE => TurnLanguage.USER1_NATIVE
    | TurnLanguage.MIXED => TurnLanguage.USER1_NATIVE
    end in
  switch_turn_language now s
  = (next,
     set_turn_switch_count (turn_switch_count s + 1)
       (set_turn_switched_at (Some now) (set_current_turn_language next s))).
Proof.
  unfold switch_turn_language.
  destruct (current_turn_language s) eqn:E; cbn; reflexivity.
Qed.

Lemma switch_turns_app (nows1 nows2 : list datetime) (s : t) :
  switch_turns (nows1 ++ nows2) s = switch_turns nows2 (switch_turns nows1 s).
Proof. unfold switch_turns. apply fold_left_app. Qed.

Lemma switch_turns_count (nows : list datetime) :
  forall s : t,
    turn_switch_count (switch_turns nows s)
    = turn_switch_count s + Z.of_nat (length nows).
Proof.
  induction nows as [| now nows IH]; intros s.
  - cbn. lia.
  - change (switch_turns (now :: nows) s)
      with (switch_turns nows (snd (switch_turn_language now s))).
    rewrite IH, switch_turn_language_fields. cbn [snd turn_switch_count
      set_turn_switch_count length]. lia.
Qed.

(** Once the turn language is one of the two native ones, it alternates:
    an even number of switches gives it back, an odd number the other one. *)
Lemma switch_turns_native (nows : list datetime) :
  forall s : t,
    current_turn_language s <> TurnLanguage.MIXED ->
    current_turn_language (switch_turns nows s)
    = if Nat.even (length nows) then current_turn_language s
      else match current_turn_language s with
           | TurnLanguage.USER1_NATIVE => TurnLanguage.USER2_NATIVE
           | _ => TurnLanguage.USER1_NATIVE
           end.
Proof.
  induction nows as [| now nows IH] using rev_ind; intros s Hs.
  - reflexivity.
  - rewrite switch_turns_app, length_app. cbn [length].
    replace (length nows + 1)%nat with (S (length nows)) by lia.
    rewrite Nat.even_succ, <- Nat.negb_even.
    change (switch_turns [now] (switch_turns nows s))
      with (snd (switch_turn_language now (switch_turns nows s))).
    rewrite switch_turn_language_fields. cbn [snd current_turn_language
      set_turn_switch_count set_turn_switched_at set_current_turn_language].
    rewrite (IH s Hs).
    destruct (Nat.even (length nows)), (current_turn_language s);
      cbn; congruence.
Qed.

(** C7. [switch_turn_language] maps USER1_NATIVE to USER2_NATIVE,
    USER2_NATIVE to USER1_NATIVE and MIXED to USER1_NATIVE, returns the new
    turn language, sets [turn_switched_at] to the current time and
    increments [turn_switch_count] by exactly 1.  So after one switch the
    turn language is never MIXED again: further switches alternate between
    the two native languages, and every switch is counted. *)
Theorem switch_turn_language_cycle :
  forall (s : t) (now : datetime),
    let s' := snd (switch_turn_language now s) in
    current_turn_language s'
    = match current_turn_language s with
      | TurnLanguage.USER1_NATIVE => TurnLanguage.USER2_NATIVE
      | TurnLanguage.USER2_NATIVE => TurnLanguage.USER1_NATIVE
      | TurnLanguage.MIXED => TurnLanguage.USER1_NATIVE
      end
    /\ fst (switch_turn_language now s) = current_turn_language s'
    /\ turn_switched_at s' = Some now
    /\ turn_switch_count s' = turn_switch_count s + 1
    /\ (forall nows : list datetime,
          current_turn_language (switch_turns nows s') <> TurnLanguage.MIXED
          /\ current_turn_language (switch_turns nows s')
             = (if Nat.even (length nows) then current_turn_language s'
                else match current_turn_language s' with
                     | TurnLanguage.USER1_NATIVE => TurnLanguage.USER2_NATIVE
                     | _ => TurnLanguage.USER1_NATIVE
                     end)
          /\ turn_switch_count (switch_turns nows s')
             = turn_switch_count s + 1 + Z.of_nat (length nows)).
Proof.
  intros s now s'. subst s'. rewrite switch_turn_language_fields.
  cbn [fst snd current_turn_language turn_switched_at turn_switch_count
       set_turn_switch_count set_turn_switched_at set_current_turn_language].
  repeat (split; [reflexivity |]).
  intros nows.
  match goal with
  | |- context [switch_turns nows ?x] => set (s1 := x)
  end.
  assert (Hnative : current_turn_language s1 <> TurnLanguage.MIXED).
  { subst s1. cbn. destruct (current_turn_language s); discriminate. }
  pose proof (switch_turns_native nows s1 Hnative) as Hcycle.
  split; [| split].
  - rewrite Hcycle.
    destruct (Nat.even (length nows)), (current_turn_language s1);
      congruence.
  - exact Hcycle.
  - rewrite switch_turns_count. subst s1. reflexivity.
Qed.

Example switch_turns_of_mixed_session :
  map (fun nows => current_turn_language (switch_turns nows mixed_session))
      [[]; [1]; [1; 2]; [1; 2; 3]; [1; 2; 3; 4]]
  = [TurnLanguage.MIXED; TurnLanguage.USER1_NATIVE; TurnLanguage.USER2_NATIVE;
     TurnLanguage.USER1_NATIVE; TurnLanguage.USER2_NATIVE].
Proof. reflexivity. Qed.

(** *** Pause, resume, end *)

(** C10. [pause_session] on a session that is not Active, and
    [resume_session] on a session that is not Paused or has no [paused_at],
    raise nothing and leave every field of the session as it was. *)
Theorem pause_resume_noop :
  forall (s : t) (now now2 : datetime) (reason : string),
    (state s <> SessionState.ACTIVE -> pause_session now reason s = s)
    /\ (state s <> SessionState.PAUSED \/ paused_at s = None ->
        resume_session now now2 s = s).
Proof.
  intros s now now2 reason. split.
  - intros Hs. unfold pause_session. now rewrite decide_False by exact Hs.
  - intros [Hs | Hp]; unfold resume_session.
    + now rewrite decide_False by exact Hs.
    + rewrite Hp. now destruct (decide (state s = SessionState.PAUSED)).
Qed.

Lemma pause_resume_noop_witness :
  pause_session (seconds 90) "disconnection" paused_session = paused_session
  /\ pause_session (seconds 200) "disconnection" ended_session = ended_session
  /\ resume_session (seconds 90) (seconds 90) sample_session = sample_session
  /\ resume_session (seconds 200) (seconds 200) ended_session = ended_session.
Proof.
  split; [| split; [| split]].
  - apply (proj1 (pause_resume_noop paused_session (seconds 90) 0 "disconnection")).
    cbn. discriminate.
  - apply (proj1 (pause_resume_noop ended_session (seconds 200) 0 "disconnection")).
    cbn. discriminate.
  - apply (proj2 (pause_resume_noop sample_session (seconds 90) (seconds 90) "")).
    right. reflexivity.
  - apply (proj2 (pause_resume_noop ended_session (seconds 200) (seconds 200) "")).
    left. cbn. discriminate.
Defined.

(** The first pause of an Active session adds the time since the start. *)
Lemma pause_session_first (now : datetime) (reason : string) (s : t) :
  state s = SessionState.ACTIVE -> paused_at s = None ->
  let s' := pause_session now reason s in
  state s' = SessionState.PAUSED /\ paused_at s' = Some now
  /\ active_duration_seconds s'
     = active_duration_seconds s + int_total_seconds (now - started_at s)
  /\ paused_duration_seconds s' = paused_duration_seconds s
  /\ started_at s' = started_at s.
Proof.
  intros Hs Hp s'. subst s'. unfold pause_session.
  rewrite decide_True by exact Hs. rewrite Hp. cbn. repeat split; reflexivity.
Qed.

(** Resuming adds the time since the pause, and forgets when the pause was:
    [paused_at] is cleared and no column holds the time of the resume. *)
Lemma resume_session_paused (now now2 paused : datetime) (s : t) :
  state s = SessionState.PAUSED -> paused_at s = Some paused ->
  let s' := resume_session now now2 s in
  state s' = SessionState.ACTIVE /\ paused_at s' = None
  /\ paused_duration_seconds s'
     = paused_duration_seconds s + int_total_seconds (now - paused)
  /\ active_duration_seconds s' = active_duration_seconds s
  /\ started_at s' = started_at s
  /\ last_activity_at s' = now2.
Proof.
  intros Hs Hp s'. subst s'. unfold resume_session.
  rewrite decide_True by exact Hs. rewrite Hp. cbn. repeat split; reflexivity.
Qed.

(** Ending an Active session adds the time since [paused_at], or since
    [started_at] when [paused_at] is unset. *)
Lemma end_session_active (now : datetime) (reason : SessionEndReason.t)
    (by_user : option UUID) (s : t) :
  state s = SessionState.ACTIVE ->
  let s' := end_session now reason by_user s in
  active_duration_seconds s'
  = active_duration_seconds s
    + int_total_seconds (now - default (started_at s) (paused_at s))
  /\ paused_duration_seconds s' = paused_duration_seconds s
  /\ state s' = match reason with
                | SessionEndReason.COMPLETED => SessionState.ENDED
                | SessionEndReason.MAXIMUM_DURATION => SessionState.EXPIRED
                | _ => SessionState.DROPPED
                end
  /\ ended_at s' = Some now /\ end_reason s' = Some reason.
Proof.
  intros Hs s'. subst s'. unfold end_session, is_ended. rewrite Hs.
  rewrite bool_decide_eq_false_2
    by (rewrite !elem_of_cons, elem_of_nil; intros [|[|[|[]]]]; discriminate).
  destruct reason; cbn; repeat split; reflexivity.
Qed.

(** Ending a Paused session adds the time since the pause to the paused
    time and leaves the active time alone. *)
Lemma end_session_paused (now paused : datetime) (reason : SessionEndReason.t)
    (by_user : option UUID) (s : t) :
  state s = SessionState.PAUSED -> paused_at s = Some paused ->
  let s' := end_session now reason by_user s in
  paused_duration_seconds s'
  = paused_duration_seconds s + int_total_seconds (now - paused)
  /\ active_duration_seconds s' = active_duration_seconds s
  /\ state s' = match reason with
                | SessionEndReason.COMPLETED => SessionState.ENDED
                | SessionEndReason.MAXIMUM_DURATION => SessionState.EXPIRED
                | _ => SessionState.DROPPED
                end.
Proof.
  intros Hs Hp s'. subst s'. unfold end_session, is_ended. rewrite Hs.
  rewrite bool_decide_eq_false_2
    by (rewrite !elem_of_cons, elem_of_nil; intros [|[|[|[]]]]; discriminate).
  cbn [decide decide_rel SessionState.eq_dec]. cbn. rewrite Hp.
  destruct reason; cbn; repeat split; reflexivity.
Qed.

(** Pause, resume, end, in general: the final active time counts the whole
    span from the start to the end once more, on top of the span before the
    pause.  The time since the resume, [t_end - t_resume], does not occur. *)
Lemma pause_resume_end_durations (t_pause t_resume t_resume2 t_end : datetime)
    (reason : string) (why : SessionEndReason.t) (by_user : option UUID) (s : t) :
  state s = SessionState.ACTIVE -> paused_at s = None ->
  let s' :=
    end_session t_end why by_user
      (resume_session t_resume t_resume2 (pause_session t_pause reason s)) in
  active_duration_seconds s'
  = active_duration_seconds s
    + int_total_seconds (t_pause - started_at s)
    + int_total_seconds (t_end - started_at s)
  /\ paused_duration_seconds s'
     = paused_duration_seconds s + int_total_seconds (t_resume - t_pause).
Proof.
  intros Hs Hp s'. subst s'.
  destruct (pause_session_first t_pause reason s Hs Hp) as (P1 & P2 & P3 & P4 & P5).
  destruct (resume_session_paused t_resume t_resume2 t_pause _ P1 P2)
    as (R1 & R2 & R3 & R4 & R5 & _).
  destruct (end_session_active t_end why by_user _ R1) as (E1 & E2 & _).
  rewrite E1, E2, R2, R3, R4, R5, P3, P4, P5. cbn [default from_option]. split; lia.
Qed.

(** C1, at the scenario of the specification (start 0 s, pause 60 s, resume
    120 s, end Completed 180 s): the session ends with 240 active seconds,
    not 120, and 60 paused seconds; active and paused time add up to 300 s
    for a session that lasted 180 s. *)
Theorem scenario_active_duration :
  state ended_session = SessionState.ENDED
  /\ active_duration_seconds paused_session = 60
  /\ paused_duration_seconds resumed_session = 60
  /\ active_duration_seconds ended_session = 240
  /\ paused_duration_seconds ended_session = 60.
Proof. repeat split; reflexivity. Qed.

(** A second pause after a resume counts from [started_at] again as well. *)
Example second_pause_counts_from_start :
  active_duration_seconds
    (pause_session (seconds 180) "disconnection" resumed_session) = 240.
Proof. reflexivity. Qed.

(** The scenario of the specification for a session that is never resumed:
    paused at 60 s, ended (UserLeft) ten minutes later. *)
Example paused_then_user_left :
  let s := end_session (seconds 660) SessionEndReason.USER_LEFT (Some 1%N) paused_session in
  state s = SessionState.DROPPED
  /\ paused_duration_seconds s = 600
  /\ active_duration_seconds s = active_duration_seconds paused_session.
Proof. repeat split; reflexivity. Qed.

End SessionFacts.

(** ** The candidate registry beyond strikes and ratings *)

Module RegistryFacts.
Import MatchCandidate.

(** *** Availability *)

(** [is_available] is: Idle, not in cooldown, fewer than three strikes. *)
Lemma is_available_iff :
  forall (c : t) (now : datetime),
    is_available now c = true <->
    status c = MatchCandidateStatus.IDLE
    /\ is_in_cooldown now c = false
    /\ strike_count c < 3.
Proof.
  intros c now. unfold is_available, is_in_cooldown.
  rewrite !andb_true_iff, bool_decide_eq_true, Z.ltb_lt.
  destruct (cooldown_until c) as [u |].
  - rewrite Z.leb_le, Z.ltb_ge. tauto.
  - tauto.
Qed.

(** X1. A cooldown lasts until [now + duration] and not longer; the candidate
    is unavailable at every time, before and after, because nothing but
    [remove_from_queue] puts the status back to Idle; once that is done the
    candidate is available from the end of the cooldown on. *)
Theorem add_cooldown_window :
  forall (c : t) (now t : datetime) (minutes : Z) (reason : string),
    (is_in_cooldown t (add_cooldown now minutes reason c) = true <->
       t < now + timedelta_minutes minutes)
    /\ is_available t (add_cooldown now minutes reason c) = false
    /\ (is_available t (remove_from_queue (add_cooldown now minutes reason c)) = true <->
          now + timedelta_minutes minutes <= t /\ strike_count c < 3).
Proof.
  intros c now t minutes reason. split; [| split].
  - unfold is_in_cooldown. cbn. apply Z.ltb_lt.
  - reflexivity.
  - rewrite is_available_iff. unfold is_in_cooldown. cbn.
    rewrite Z.ltb_ge. tauto.
Qed.

(** X2. Three strikes make a candidate unavailable for good: at every later
    time, cooldown over or not, and also after [remove_from_queue] has set
    the status back to Idle. *)
Theorem third_strike_unavailable :
  forall (c : t) (now t : datetime),
    3 <= strike_count c + 1 ->
    is_available t (add_strike now c) = false
    /\ is_available t (remove_from_queue (add_strike now c)) = false.
Proof.
  intros c now t Hge.
  assert (Hn : strike_count (add_strike now c) = strike_count c + 1).
  { unfold add_strike. cbn [strike_count set_strike_count].
    destruct (3 <=? strike_count c + 1); reflexivity. }
  split.
  - destruct (is_available t (add_strike now c)) eqn:E; [| reflexivity].
    apply is_available_iff in E. lia.
  - destruct (is_available t (remove_from_queue (add_strike now c))) eqn:E; [| reflexivity].
    apply is_available_iff in E. cbn [remove_from_queue strike_count set_queue_priority
      set_queued_at set_status] in E. lia.
Qed.

Lemma third_strike_unavailable_witness :
  is_available (seconds 30 + 2 * day) (add_strike (seconds 30) two_strike_candidate) = false
  /\ is_available (seconds 30 + 2 * day)
       (remove_from_queue (add_strike (seconds 30) two_strike_candidate)) = false.
Proof. apply (third_strike_unavailable two_strike_candidate). apply Z.leb_le. reflexivity. Defined.

(** *** The queue *)

(** X3. Leaving the queue undoes joining it: the result is the one of leaving
    without having joined, and a candidate that was Idle, not queued and
    without priority is back as it was.  A queued candidate is not
    available. *)
Theorem queue_round_trip :
  forall (c : t) (now t : datetime) (priority : Q),
    remove_from_queue (add_to_queue now priority c) = remove_from_queue c
    /\ is_available t (add_to_queue now priority c) = false
    /\ (status c = MatchCandidateStatus.IDLE -> queued_at c = None ->
        queue_priority c = 0%Q ->
        remove_from_queue (add_to_queue now priority c) = c).
Proof.
  intros c now t priority. split; [reflexivity |]. split; [reflexivity |].
  intros Hs Hq Hp. destruct c. cbn in *. subst. reflexivity.
Qed.

Lemma queue_round_trip_witness :
  remove_from_queue (add_to_queue (seconds 5) 1.5%Q sample_candidate) = sample_candidate.
Proof.
  apply (proj2 (proj2 (queue_round_trip sample_candidate (seconds 5) 0 1.5%Q)));
    reflexivity.
Defined.

(** *** The blocklist *)

Lemma is_blocked_user_true (u : UUID) (c : t) :
  is_blocked_user u c = true <-> u ∈ blocked_user_ids c.
Proof. unfold is_blocked_user. apply bool_decide_eq_true. Qed.

Lemma is_blocked_user_false (u : UUID) (c : t) :
  is_blocked_user u c = false <-> u ∉ blocked_user_ids c.
Proof. unfold is_blocked_user. apply bool_decide_eq_false. Qed.

Lemma blocked_after_block (u : UUID) (c : t) :
  blocked_user_ids (block_user u c)
  = if bool_decide (u ∈ blocked_user_ids c) then blocked_user_ids c
    else (blocked_user_ids c ++ [u])%list.
Proof. unfold block_user. destruct (bool_decide (u ∈ blocked_user_ids c)); reflexivity. Qed.

Lemma blocked_after_unblock (u : UUID) (c : t) :
  blocked_user_ids (unblock_user u c) = list_remove u (blocked_user_ids c).
Proof.
  unfold unblock_user. destruct (bool_decide (u ∈ blocked_user_ids c)) eqn:E; [reflexivity |].
  apply bool_decide_eq_false in E. cbn.
  induction (blocked_user_ids c) as [| y l IH]; [reflexivity |].
  cbn. rewrite not_elem_of_cons in E. destruct E as [Hne Hl].
  rewrite decide_False by exact Hne. now rewrite <- IH.
Qed.

Lemma elem_of_list_remove_ne (u v : UUID) (l : list UUID) :
  v <> u -> v ∈ list_remove u l <-> v ∈ l.
Proof.
  intros Hne. induction l as [| y l IH]; [reflexivity |].
  cbn. destruct (decide (u = y)) as [<- | Hy].
  - rewrite elem_of_cons. split; [tauto | intros [? | ?]; [congruence | assumption]].
  - rewrite !elem_of_cons, IH. reflexivity.
Qed.

Lemma list_remove_NoDup (u : UUID) (l : list UUID) :
  NoDup l -> (u ∉ list_remove u l) /\ NoDup (list_remove u l).
Proof.
  induction 1 as [| y l Hy Hl IH]; cbn.
  - split; [apply not_elem_of_nil | constructor].
  - destruct (decide (u = y)) as [<- | Hne]; [split; assumption |].
    destruct IH as [IH1 IH2]. split.
    + rewrite not_elem_of_cons. split; assumption.
    + constructor; [| exact IH2].
      rewrite elem_of_list_remove_ne by congruence. exact Hy.
Qed.

Lemma list_remove_last (u : UUID) (l : list UUID) :
  u ∉ l -> list_remove u (l ++ [u])%list = l.
Proof.
  induction l as [| y l IH]; intros Hu; cbn.
  - now rewrite decide_True by reflexivity.
  - rewrite not_elem_of_cons in Hu. destruct Hu as [Hne Hl].
    rewrite decide_False by exact Hne. now rewrite IH.
Qed.

(** X4. [block_user] blocks the user and nobody else, is idempotent, and never
    puts a user on the list twice. *)
Theorem block_user_blocks :
  forall (c : t) (u v : UUID),
    is_blocked_user u (block_user u c) = true
    /\ (v <> u -> is_blocked_user v (block_user u c) = is_blocked_user v c)
    /\ block_user u (block_user u c) = block_user u c
    /\ (NoDup (blocked_user_ids c) -> NoDup (blocked_user_ids (block_user u c))).
Proof.
  intros c u v.
  assert (Hin : u ∈ blocked_user_ids (block_user u c)).
  { rewrite blocked_after_block.
    destruct (bool_decide (u ∈ blocked_user_ids c)) eqn:E.
    - now apply bool_decide_eq_true in E.
    - rewrite elem_of_app, list_elem_of_singleton. now right. }
  split; [now apply is_blocked_user_true |]. split; [| split].
  - intros Hne. unfold is_blocked_user. apply bool_decide_ext.
    rewrite blocked_after_block.
    destruct (bool_decide (u ∈ blocked_user_ids c)); [reflexivity |].
    rewrite elem_of_app, list_elem_of_singleton. tauto.
  - unfold block_user at 1. now rewrite bool_decide_eq_true_2 by exact Hin.
  - intros Hnd. rewrite blocked_after_block.
    destruct (bool_decide (u ∈ blocked_user_ids c)) eqn:E; [exact Hnd |].
    apply bool_decide_eq_false in E.
    apply NoDup_app. split; [exact Hnd |]. split; [| apply NoDup_singleton].
    intros x Hx Hx'. apply list_elem_of_singleton in Hx'. congruence.
Qed.

Lemma block_user_blocks_witness :
  NoDup (blocked_user_ids (block_user 6%N blocking_candidate))
  /\ is_blocked_user 4%N (block_user 6%N blocking_candidate)
     = is_blocked_user 4%N blocking_candidate.
Proof.
  pose proof (block_user_blocks blocking_candidate 6%N 4%N) as (_ & Hother & _ & Hnd).
  split.
  - apply Hnd. apply (bool_decide_unpack _). vm_compute. exact I.
  - apply Hother. discriminate.
Defined.

(** X5. On a blocklist without duplicates, [unblock_user] unblocks the user,
    nobody else, and keeps the list without duplicates. *)
Theorem unblock_user_unblocks :
  forall (c : t) (u v : UUID),
    NoDup (blocked_user_ids c) ->
    is_blocked_user u (unblock_user u c) = false
    /\ (v <> u -> is_blocked_user v (unblock_user u c) = is_blocked_user v c)
    /\ NoDup (blocked_user_ids (unblock_user u c)).
Proof.
  intros c u v Hnd.
  destruct (list_remove_NoDup u _ Hnd) as [Hout Hnd'].
  split; [| split].
  - apply is_blocked_user_false. now rewrite blocked_after_unblock.
  - intros Hne. unfold is_blocked_user. apply bool_decide_ext.
    rewrite blocked_after_unblock. now apply elem_of_list_remove_ne.
  - now rewrite blocked_after_unblock.
Qed.

Lemma unblock_user_unblocks_witness :
  is_blocked_user 4%N (unblock_user 4%N blocking_candidate) = false
  /\ (5%N <> 4%N ->
      is_blocked_user 5%N (unblock_user 4%N blocking_candidate)
      = is_blocked_user 5%N blocking_candidate)
  /\ NoDup (blocked_user_ids (unblock_user 4%N blocking_candidate)).
Proof.
  apply (unblock_user_unblocks blocking_candidate 4%N 5%N).
  apply (bool_decide_unpack _). vm_compute. exact I.
Defined.

(** X6. Unblocking a user right after blocking them gives the candidate back as
    it was, when the user was not blocked before. *)
Theorem block_unblock_round_trip :
  forall (c : t) (u : UUID),
    is_blocked_user u c = false ->
    unblock_user u (block_user u c) = c.
Proof.
  intros c u Hu. apply is_blocked_user_false in Hu.
  unfold block_user. rewrite bool_decide_eq_false_2 by exact Hu.
  unfold unblock_user. cbn [blocked_user_ids set_blocked_user_ids].
  rewrite bool_decide_eq_true_2
    by (rewrite elem_of_app, list_elem_of_singleton; now right).
  rewrite list_remove_last by exact Hu.
  destruct c. reflexivity.
Qed.

Lemma block_unblock_round_trip_witness :
  unblock_user 6%N (block_user 6%N blocking_candidate) = blocking_candidate.
Proof. apply (block_unblock_round_trip blocking_candidate 6%N). reflexivity. Defined.

(** [list.remove] takes out one occurrence only: on a list that holds a
    user twice, the user is still blocked after [unblock_user]. *)
Example unblock_user_with_duplicate :
  let c := set_blocked_user_ids [4%N; 5%N; 4%N] sample_candidate in
  blocked_user_ids (unblock_user 4%N c) = [5%N; 4%N]
  /\ is_blocked_user 4%N (unblock_user 4%N c) = true.
Proof. split; reflexivity. Qed.

(** *** The daily rejection counter *)

(** X7. The first call of [can_reject_more_today] on a day later than the last
    reset (or with no reset on record) forgets the count: the answer is
    [0 < max_rejections] whatever was counted, and the reset is stamped with
    the second clock reading.  On the day of the last reset the candidate
    is left as it is and the answer compares the count on record; so two
    calls on one day reset at most once. *)
Theorem can_reject_more_today_resets_daily :
  forall (c : t) (now now2 : datetime) (max_rejections : Z),
    ((last_rejection_reset c = None
      \/ exists last, last_rejection_reset c = Some last /\ date_of last < date_of now) ->
     fst (can_reject_more_today now now2 max_rejections c) = (0 <? max_rejections)
     /\ rejection_count_today (snd (can_reject_more_today now now2 max_rejections c)) = 0
     /\ last_rejection_reset (snd (can_reject_more_today now now2 max_rejections c))
        = Some now2)
    /\ (forall last,
          last_rejection_reset c = Some last -> date_of now <= date_of last ->
          can_reject_more_today now now2 max_rejections c
          = (rejection_count_today c <? max_rejections, c))
    /\ (forall now3 now4 : datetime,
          date_of now2 = date_of now -> date_of now3 = date_of now ->
          reset_daily_rejections now3 now4 (reset_daily_rejections now now2 c)
          = reset_daily_rejections now now2 c).
Proof.
  intros c now now2 max_rejections. split; [| split].
  - intros Hstale. unfold can_reject_more_today, reset_daily_rejections.
    destruct Hstale as [-> | (last & -> & Hlt)].
    + repeat split; reflexivity.
    + rewrite (proj2 (Z.ltb_lt _ _) Hlt). repeat split; reflexivity.
  - intros last Hlast Hle. unfold can_reject_more_today, reset_daily_rejections.
    rewrite Hlast, (proj2 (Z.ltb_ge _ _) Hle). reflexivity.
  - intros now3 now4 H2 H3. unfold reset_daily_rejections.
    destruct (last_rejection_reset c) as [last |] eqn:Hlast.
    + destruct (date_of last <? date_of now) eqn:E.
      * cbn [last_rejection_reset set_last_rejection_reset set_rejection_count_today].
        now rewrite (proj2 (Z.ltb_ge (date_of now2) (date_of now3))) by lia.
      * apply Z.ltb_ge in E.
        now rewrite Hlast, (proj2 (Z.ltb_ge (date_of last) (date_of now3))) by lia.
    + cbn [last_rejection_reset set_last_rejection_reset set_rejection_count_today].
      now rewrite (proj2 (Z.ltb_ge (date_of now2) (date_of now3))) by lia.
Qed.

Lemma can_reject_more_today_resets_daily_witness :
  (* the next morning: the four rejections are forgotten *)
  fst (can_reject_more_today (4 * day + seconds 60) (4 * day + seconds 61) 3
         rejecting_candidate) = true
  (* the same afternoon: they count *)
  /\ can_reject_more_today (3 * day + seconds 50000) (3 * day + seconds 50001) 3
       rejecting_candidate = (false, rejecting_candidate).
Proof.
  split.
  - apply (proj1 (can_reject_more_today_resets_daily rejecting_candidate
                    (4 * day + seconds 60) (4 * day + seconds 61) 3)).
    right. exists (3 * day + seconds 43200). split; [reflexivity |].
    apply Z.ltb_lt. reflexivity.
  - apply (proj1 (proj2 (can_reject_more_today_resets_daily rejecting_candidate
                    (3 * day + seconds 50000) (3 * day + seconds 50001) 3))
             (3 * day + seconds 43200)); [reflexivity |].
    apply Z.leb_le. reflexivity.
Defined.

(** *** Ratings *)

Lemma add_ratings_mean_witness :
  exists c' : t,
    add_ratings [4%Q; 5%Q; 3%Q] sample_candidate = Returned c'
    /\ total_ratings c' = Z.of_nat (length [4%Q; 5%Q; 3%Q])
    /\ (average_rating c'
        == Qsum [4%Q; 5%Q; 3%Q] / inject_Z (Z.of_nat (length [4%Q; 5%Q; 3%Q])))%Q.
Proof.
  apply (MatchCandidateFacts.add_ratings_mean [4%Q; 5%Q; 3%Q] sample_candidate);
    [reflexivity | discriminate].
Defined.

(** X9. Ratings on the 1-5 scale keep the average on the 1-5 scale. *)
Theorem add_rating_keeps_scale :
  forall (c : t) (r : Q),
    0 <= total_ratings c ->
    (1 <= average_rating c <= 5)%Q ->
    (1 <= r <= 5)%Q ->
    exists c' : t,
      add_rating r c = Returned c' /\ (1 <= average_rating c' <= 5)%Q.
Proof.
  intros c r Hn [Ha1 Ha5] [Hr1 Hr5].
  eexists. split; [apply MatchCandidateFacts.add_rating_returned; lia |].
  cbn [average_rating set_average_rating set_total_ratings].
  rewrite inject_Z_plus. change (inject_Z 1) with 1%Q.
  assert (H0 : (0 <= inject_Z (total_ratings c))%Q).
  { change 0%Q with (inject_Z 0). now rewrite <- Zle_Qle. }
  set (n := inject_Z (total_ratings c)) in *.
  set (a := average_rating c) in *.
  split.
  - apply Qle_shift_div_l; [lra |]. nra.
  - apply Qle_shift_div_r; [lra |]. nra.
Qed.

Lemma add_rating_keeps_scale_witness :
  exists c' : t,
    add_rating 2%Q sample_candidate = Returned c' /\ (1 <= average_rating c' <= 5)%Q.
Proof.
  apply (add_rating_keeps_scale sample_candidate 2%Q).
  - apply Z.leb_le. reflexivity.
  - split; apply Qle_bool_iff; reflexivity.
  - split; apply Qle_bool_iff; reflexivity.
Defined.

End RegistryFacts.

(** ** The proposal protocol beyond recording and expiry *)

Module ProposalFacts.
Import Match.

Lemma update_state_keeps_ids (t : datetime) (m : Match.t) :
  user1_id (_update_state_after_response t m) = user1_id m
  /\ user2_id (_update_state_after_response t m) = user2_id m
  /\ expires_at (_update_state_after_response t m) = expires_at m
  /\ session_id (_update_state_after_response t m) = session_id m.
Proof.
  unfold _update_state_after_response.
  destruct (is_fully_responded m); cbn [negb]; [| repeat split; reflexivity].
  destruct (is_accepted_by_both m); [repeat split; reflexivity |].
  cbn -[str_eq].
  destruct (str_eq (user1_response m) "rejected");
    destruct (str_eq (user2_response m) "rejected"); repeat split; reflexivity.
Qed.

(** *** Partners *)

(** X11. [get_partner_id] answers a participant with a participant, asking
    again gives the first user back, and a stranger gets the [ValueError]. *)
Theorem get_partner_id_involution :
  forall (m : Match.t) (uid : UUID),
    (uid = user1_id m \/ uid = user2_id m ->
     exists p : UUID,
       get_partner_id uid m = inr p
       /\ (p = user1_id m \/ p = user2_id m)
       /\ get_partner_id p m = inr uid)
    /\ (uid <> user1_id m -> uid <> user2_id m ->
        get_partner_id uid m = inl (ValueError "User ID not found in this match")).
Proof.
  intros m uid. unfold get_partner_id. split.
  - intros Hin. destruct (decide (uid = user1_id m)) as [E1 | N1].
    + exists (user2_id m). split; [reflexivity |]. split; [now right |].
      destruct (decide (user2_id m = user1_id m)) as [E | N]; [congruence |].
      rewrite decide_True by reflexivity. congruence.
    + destruct Hin as [E | E]; [contradiction |].
      rewrite decide_True by exact E.
      exists (user1_id m). split; [reflexivity |]. split; [now left |].
      rewrite decide_True by reflexivity. congruence.
  - intros N1 N2. rewrite decide_False by exact N1. now rewrite decide_False by exact N2.
Qed.

Lemma get_partner_id_involution_witness :
  (exists p : UUID,
      get_partner_id 2%N sample_match = inr p
      /\ (p = user1_id sample_match \/ p = user2_id sample_match)
      /\ get_partner_id p sample_match = inr 2%N)
  /\ get_partner_id 3%N sample_match = inl (ValueError "User ID not found in this match").
Proof.
  split.
  - apply (proj1 (get_partner_id_involution sample_match 2%N)). now right.
  - apply (proj2 (get_partner_id_involution sample_match 3%N)); cbn; discriminate.
Defined.

(** *** Reading a response back *)

(** X12. After [set_user_response] has returned, [get_user_response] of the same
    user is the response just given, and the answer for every other user is
    what it was before the call. *)
Theorem get_user_response_after_set :
  forall (m m' : Match.t) (uid : UUID) (resp : string) (now now2 : datetime),
    set_user_response now now2 uid resp m = Returned m' ->
    get_user_response uid m' = Some resp
    /\ (forall other : UUID,
          other <> uid -> get_user_response other m' = get_user_response other m).
Proof.
  intros m m' uid resp now now2 Hret.
  apply MatchFacts.set_user_response_returned in Hret.
  unfold get_user_response.
  destruct Hret as [(E1 & ->) | (N1 & E2 & ->)];
    match goal with
    | |- context [_update_state_after_response ?t ?x] =>
        destruct (update_state_keeps_ids t x) as (I1 & I2 & _);
        destruct (MatchFacts.update_state_keeps_responses t x) as (R1 & R2 & _)
    end;
    rewrite I1, I2, R1, R2; cbn.
  - split; [now rewrite decide_True by exact E1 |].
    intros other Ho.
    destruct (decide (other = user1_id m)); [congruence | reflexivity].
  - split.
    + rewrite decide_False by exact N1. now rewrite decide_True by exact E2.
    + intros other Ho. destruct (decide (other = user1_id m)); [reflexivity |].
      destruct (decide (other = user2_id m)); [congruence | reflexivity].
Qed.

Lemma get_user_response_after_set_witness :
  get_user_response 2%N half_answered_match = Some "rejected"
  /\ (forall other : UUID,
        other <> 2%N ->
        get_user_response other half_answered_match
        = get_user_response other sample_match).
Proof.
  apply (get_user_response_after_set sample_match half_answered_match 2%N "rejected"
           (seconds 10) (seconds 10)).
  reflexivity.
Defined.

(** *** Pending, resolved, expired *)

(** X13. A match is no longer pending, at any time, once it has been resolved by
    the second response, expired, or turned into a session. *)
Theorem resolved_match_not_pending :
  forall (m : Match.t) (t now : datetime) (sid : UUID),
    (forall (m' : Match.t) (uid : UUID) (resp : string) (now2 : datetime),
        set_user_response now now2 uid resp m = Returned m' ->
        is_fully_responded m' = true ->
        is_pending t m' = false)
    /\ is_pending t (expire_match now m) = false
    /\ is_pending t (create_session sid m) = false.
Proof.
  intros m t now sid. split; [| split; [| reflexivity]].
  - intros m' uid resp now2 Hret Hfull.
    apply MatchFacts.set_user_response_returned in Hret.
    assert (Hstate : state m' = MatchState.ACCEPTED \/ state m' = MatchState.REJECTED).
    { destruct Hret as [(_ & ->) | (_ & _ & ->)];
        rewrite MatchFacts.fully_responded_after_update in Hfull;
        match goal with
        | |- context [_update_state_after_response ?t ?x] =>
            destruct (is_accepted_by_both x) eqn:Ha;
            [ left; apply (MatchFacts.update_state_accepted t x Hfull Ha)
            | right; apply (MatchFacts.update_state_rejected t x Hfull Ha) ]
        end. }
    unfold is_pending. destruct Hstate as [-> | ->]; reflexivity.
  - rewrite MatchFacts.expire_match_fields. reflexivity.
Qed.

Lemma resolved_match_not_pending_witness :
  is_pending (seconds 30) half_answered_match = true
  /\ is_pending (seconds 30)
       (final_state (set_user_response (seconds 20) (seconds 21) 1%N "accepted"
                       half_answered_match)) = false.
Proof.
  split; [reflexivity |].
  apply (proj1 (resolved_match_not_pending half_answered_match (seconds 30) (seconds 20) 0%N)
           _ 1%N "accepted" (seconds 21)); reflexivity.
Defined.

(** X14. A response that arrives after the expiry takes the match out of
    Expired: both responses are set by then, so the match is resolved again,
    to Accepted when both responses are "accepted" and to Rejected
    otherwise. *)
Theorem response_after_expiry_resolves_again :
  forall (m m' : Match.t) (uid : UUID) (resp : string) (t now now2 : datetime),
    set_user_response now now2 uid resp (expire_match t m) = Returned m' ->
    (state m' = MatchState.ACCEPTED <->
       user1_response m' = Some "accepted" /\ user2_response m' = Some "accepted")
    /\ (state m' = MatchState.ACCEPTED \/ state m' = MatchState.REJECTED).
Proof.
  intros m m' uid resp t now now2 Hret.
  apply MatchFacts.set_user_response_returned in Hret.
  assert (H1 : exists r, user1_response (expire_match t m) = Some r).
  { rewrite MatchFacts.expire_match_fields. cbn. eauto. }
  assert (H2 : exists r, user2_response (expire_match t m) = Some r).
  { rewrite MatchFacts.expire_match_fields. cbn. eauto. }
  destruct H1 as [r1 H1], H2 as [r2 H2].
  destruct Hret as [(_ & ->) | (_ & _ & ->)];
    match goal with
    | |- context [_update_state_after_response ?t ?x] =>
        assert (Hfull : is_fully_responded x = true)
          by (unfold is_fully_responded; cbn; rewrite ?H1, ?H2; reflexivity);
        destruct (MatchFacts.update_state_keeps_responses t x) as (K1 & K2 & _);
        pose proof (MatchFacts.update_state_resolves t x Hfull) as Hres;
        cbv zeta in Hres; destruct Hres as (Hiff & _ & Hrej);
        rewrite K1, K2; split; [exact Hiff |];
        destruct (is_accepted_by_both x) eqn:Ha;
        [ left; apply Hiff; now apply MatchFacts.accepted_by_both_iff
        | right; apply (MatchFacts.update_state_rejected t x Hfull Ha) ]
    end.
Qed.

Lemma response_after_expiry_resolves_again_witness :
  state expired_match = MatchState.EXPIRED
  /\ state (final_state (set_user_response (seconds 100) (seconds 100) 1%N "accepted"
                           expired_match)) = MatchState.REJECTED.
Proof.
  split; [reflexivity |].
  destruct (response_after_expiry_resolves_again sample_match
              (final_state (set_user_response (seconds 100) (seconds 100) 1%N "accepted"
                              expired_match))
              1%N "accepted" (seconds 91) (seconds 100) (seconds 100) eq_refl)
    as (_ & [Hacc | Hrej]).
  - discriminate Hacc.
  - exact Hrej.
Defined.

(** *** From a proposal to a session *)

(** X15. When both users of a fresh proposal answer "accepted", the match is
    Accepted with [accepted_at] the time of the second answer, and
    [create_session] then makes it SessionCreated with the session stored;
    the first answer alone leaves the match as proposed. *)
Theorem mutual_acceptance_creates_session :
  forall (m : Match.t) (sid : UUID) (ta ta2 tb tb2 : datetime),
    user1_id m <> user2_id m ->
    user1_response m = None -> user2_response m = None ->
    exists m1 m2 : Match.t,
      set_user_response ta ta2 (user1_id m) "accepted" m = Returned m1
      /\ state m1 = state m
      /\ set_user_response tb tb2 (user2_id m) "accepted" m1 = Returned m2
      /\ state m2 = MatchState.ACCEPTED
      /\ accepted_at m2 = Some tb2
      /\ state (create_session sid m2) = MatchState.SESSION_CREATED
      /\ session_id (create_session sid m2) = Some sid
      /\ accepted_at (create_session sid m2) = Some tb2
      /\ rejection_reason (create_session sid m2) = rejection_reason m.
Proof.
  intros m sid ta ta2 tb tb2 Hne H1 H2.
  rewrite (MatchFacts.set_user_response_as_user1 ta ta2 (user1_id m) "accepted" m)
    by reflexivity.
  rewrite MatchFacts.update_state_pending
    by (unfold is_fully_responded; cbn; rewrite H2; reflexivity).
  eexists _, _. split; [reflexivity |]. split; [reflexivity |].
  rewrite MatchFacts.set_user_response_as_user2 by (cbn; congruence).
  split; [reflexivity |].
  match goal with
  | |- context [_update_state_after_response ?t ?x] =>
      assert (Hfull : is_fully_responded x = true) by reflexivity;
      assert (Ha : is_accepted_by_both x = true) by reflexivity;
      destruct (MatchFacts.update_state_accepted t x Hfull Ha) as (Hs & Hat & Hr & _)
  end.
  cbn [create_session state session_id accepted_at rejection_reason set_state
       set_session_id].
  rewrite Hs, Hat, Hr. repeat split; reflexivity.
Qed.

Lemma mutual_acceptance_creates_session_witness :
  exists m1 m2 : Match.t,
    set_user_response 1 2 (user1_id sample_match) "accepted" sample_match = Returned m1
    /\ state m1 = state sample_match
    /\ set_user_response 3 4 (user2_id sample_match) "accepted" m1 = Returned m2
    /\ state m2 = MatchState.ACCEPTED
    /\ accepted_at m2 = Some 4
    /\ state (create_session 21%N m2) = MatchState.SESSION_CREATED
    /\ session_id (create_session 21%N m2) = Some 21%N
    /\ accepted_at (create_session 21%N m2) = Some 4
    /\ rejection_reason (create_session 21%N m2) = rejection_reason sample_match.
Proof.
  apply (mutual_acceptance_creates_session sample_match 21%N 1 2 3 4);
    [cbn; discriminate | reflexivity | reflexivity].
Defined.

End ProposalFacts.

(** ** The session lifecycle beyond pause, resume and turns *)

Module LifecycleFacts.
Import Session.

Lemma is_ended_by_state (s : t) :
  is_ended s
  = match state s with
    | SessionState.ENDED | SessionState.DROPPED | SessionState.EXPIRED => true
    | SessionState.ACTIVE | SessionState.PAUSED => false
    end.
Proof. unfold is_ended. destruct (state s); reflexivity. Qed.

Lemma end_session_state (now : datetime) (reason : SessionEndReason.t)
    (by_user : option UUID) (s : t) :
  is_ended s = false ->
  state (end_session now reason by_user s)
  = match reason with
    | SessionEndReason.COMPLETED => SessionState.ENDED
    | SessionEndReason.MAXIMUM_DURATION => SessionState.EXPIRED
    | _ => SessionState.DROPPED
    end
  /\ ended_at (end_session now reason by_user s) = Some now
  /\ end_reason (end_session now reason by_user s) = Some reason
  /\ ended_by_user_id (end_session now reason by_user s) = by_user
  /\ user1_typing (end_session now reason by_user s) = false
  /\ user2_typing (end_session now reason by_user s) = false.
Proof.
  intros Hne. unfold end_session. rewrite Hne.
  destruct reason; cbn; repeat split; reflexivity.
Qed.

(** *** Ending *)

(** Over the naive timestamps of [Session]: a session that is paused once
    and ended without having been resumed counts the whole seconds before
    the pause as active and the whole seconds after it as paused; together
    they are the whole seconds of the session or one second less. *)
Lemma pause_then_end_durations_naive :
  forall (s : t) (t_pause t_end : datetime) (why : string)
         (reason : SessionEndReason.t) (by_user : option UUID),
    state s = SessionState.ACTIVE -> paused_at s = None ->
    started_at s <= t_pause -> t_pause <= t_end ->
    let s' := end_session t_end reason by_user (pause_session t_pause why s) in
    active_duration_seconds s'
    = active_duration_seconds s + int_total_seconds (t_pause - started_at s)
    /\ paused_duration_seconds s'
       = paused_duration_seconds s + int_total_seconds (t_end - t_pause)
    /\ int_total_seconds (t_end - started_at s) - 1
       <= (active_duration_seconds s' - active_duration_seconds s)
          + (paused_duration_seconds s' - paused_duration_seconds s)
       <= int_total_seconds (t_end - started_at s).
Proof.
  intros s t_pause t_end why reason by_user Hs Hp H1 H2 s'. subst s'.
  destruct (SessionFacts.pause_session_first t_pause why s Hs Hp)
    as (P1 & P2 & P3 & P4 & P5).
  destruct (SessionFacts.end_session_paused t_end t_pause reason by_user _ P1 P2)
    as (E1 & E2 & _).
  rewrite E1, E2, P3, P4. split; [reflexivity |]. split; [reflexivity |].
  unfold int_total_seconds, microseconds_per_second.
  rewrite !Z.quot_div_nonneg by lia.
  pose proof (Z.div_mod (t_pause - started_at s) 1000000 ltac:(lia)) as D1.
  pose proof (Z.div_mod (t_end - t_pause) 1000000 ltac:(lia)) as D2.
  pose proof (Z.div_mod (t_end - started_at s) 1000000 ltac:(lia)) as D3.
  pose proof (Z.mod_pos_bound (t_pause - started_at s) 1000000 ltac:(lia)) as B1.
  pose proof (Z.mod_pos_bound (t_end - t_pause) 1000000 ltac:(lia)) as B2.
  pose proof (Z.mod_pos_bound (t_end - started_at s) 1000000 ltac:(lia)) as B3.
  lia.
Qed.

(** The truncation is felt: 59.6 s active and 600.6 s paused are counted as
    59 + 600 = 659 seconds of a session that lasted 660.2 s. *)
Example truncated_seconds :
  let s' := end_session (seconds 660 + 200000) SessionEndReason.USER_LEFT (Some 1%N)
              (pause_session (seconds 59 + 600000) "disconnection" sample_session) in
  (active_duration_seconds s', paused_duration_seconds s', state s')
  = (59, 600, SessionState.DROPPED).
Proof. reflexivity. Qed.

(** *** Message counters *)

Lemma increment_message_count_fields (uid : UUID) (s : t) :
  let s' := increment_message_count uid s in
  user1_id s' = user1_id s /\ user2_id s' = user2_id s
  /\ total_messages s' = total_messages s + 1
  /\ user1_message_count s' + user2_message_count s'
     = user1_message_count s + user2_message_count s
       + (if is_participant uid s then 1 else 0).
Proof.
  cbv zeta. unfold increment_message_count, is_participant.
  cbn [user1_id user2_id set_total_messages].
  destruct (decide (uid = user1_id s)) as [E1 | N1].
  - rewrite bool_decide_eq_true_2 by (rewrite elem_of_cons; now left).
    cbn. repeat split; try reflexivity. lia.
  - destruct (decide (uid = user2_id s)) as [E2 | N2].
    + rewrite bool_decide_eq_true_2
        by (rewrite !elem_of_cons; right; now left).
      cbn. repeat split; try reflexivity. lia.
    + rewrite bool_decide_eq_false_2
        by (rewrite !elem_of_cons, elem_of_nil; tauto).
      cbn. repeat split; try reflexivity. lia.
Qed.

Lemma is_participant_ids (uid : UUID) (a b : t) :
  user1_id a = user1_id b -> user2_id a = user2_id b ->
  is_participant uid a = is_participant uid b.
Proof. intros H1 H2. unfold is_participant. now rewrite H1, H2. Qed.

(** X18. Every message is counted in [total_messages]; the two per-user counters
    together count the messages of participants only.  So the total equals
    the sum of the per-user counts as long as every sender is a participant,
    and exceeds it by one for each message of a stranger. *)
Theorem message_counters :
  forall (senders : list UUID) (s : t),
    total_messages (send_messages senders s)
    = total_messages s + Z.of_nat (length senders)
    /\ user1_message_count (send_messages senders s)
       + user2_message_count (send_messages senders s)
       = user1_message_count s + user2_message_count s
         + Z.of_nat (length senders) - strangers senders s.
Proof.
  induction senders as [| uid senders IH]; intros s.
  - unfold strangers. cbn. lia.
  - change (send_messages (uid :: senders) s)
      with (send_messages senders (increment_message_count uid s)).
    destruct (IH (increment_message_count uid s)) as [IH1 IH2].
    destruct (increment_message_count_fields uid s) as (I1 & I2 & I3 & I4).
    rewrite IH1, IH2, I3, I4.
    assert (Hs : strangers senders (increment_message_count uid s) = strangers senders s).
    { unfold strangers. f_equal. f_equal. apply filter_ext.
      intros u. f_equal. now apply is_participant_ids. }
    rewrite Hs. unfold strangers. cbn [List.filter length].
    destruct (is_participant uid s); cbn [negb length]; lia.
Qed.

Example message_counters_with_stranger :
  let s := send_messages [1%N; 2%N; 9%N; 1%N] sample_session in
  (total_messages s, user1_message_count s, user2_message_count s) = (4, 2, 1).
Proof. reflexivity. Qed.

(** *** Activity and idleness *)

Lemma ltb_shift (a b c : Z) : (a <? b - c) = (c + a <? b).
Proof. destruct (Z.ltb_spec a (b - c)), (Z.ltb_spec (c + a) b); try reflexivity; lia. Qed.

Lemma update_activity_fields (now : datetime) (u : option UUID) (s : t) :
  state (update_activity now u s) = state s
  /\ last_activity_at (update_activity now u s) = now
  /\ user1_typing (update_activity now u s) = user1_typing s
  /\ user2_typing (update_activity now u s) = user2_typing s.
Proof.
  unfold update_activity. destruct u as [uid |]; [| repeat split; reflexivity].
  cbn [user1_id user2_id set_last_activity_at].
  destruct (decide (uid = user1_id s)); [repeat split; reflexivity |].
  destruct (decide (uid = user2_id s)); repeat split; reflexivity.
Qed.

Lemma is_idle_by_fields (t : datetime) (a b : Session.t) :
  state a = state b -> last_activity_at a = last_activity_at b ->
  is_idle t a = is_idle t b.
Proof.
  intros Hs Ha. unfold is_idle. rewrite !is_ended_by_state, Hs, Ha. reflexivity.
Qed.

(** X19. Any recorded activity keeps a session that has not ended from being
    idle until 15 minutes later, and idle from then on; starting to type
    counts as activity, also for a user who is no participant, while
    stopping to type does not. *)
Theorem activity_and_idleness :
  forall (s : t) (now t : datetime) (u : option UUID) (uid : UUID),
    is_idle t (update_activity now u s)
    = negb (is_ended s) && (now + timedelta_minutes 15 <? t)
    /\ is_idle t (set_typing_status now uid true s)
       = negb (is_ended s) && (now + timedelta_minutes 15 <? t)
    /\ is_idle t (set_typing_status now uid false s) = is_idle t s.
Proof.
  intros s now t u uid.
  assert (Hact : forall (v : option UUID) (x : Session.t),
             state x = state s ->
             is_idle t (update_activity now v x)
             = negb (is_ended s) && (now + timedelta_minutes 15 <? t)).
  { intros v x Hx. destruct (update_activity_fields now v x) as (Hs & Ha & _).
    unfold is_idle. rewrite !is_ended_by_state, Hs, Hx, Ha, ltb_shift.
    destruct (state s); reflexivity. }
  split; [apply Hact; reflexivity |]. split.
  - unfold set_typing_status. apply Hact.
    destruct (decide (uid = user1_id s)); [reflexivity |].
    destruct (decide (uid = user2_id s)); reflexivity.
  - unfold set_typing_status. apply is_idle_by_fields;
      destruct (decide (uid = user1_id s)); try reflexivity;
      destruct (decide (uid = user2_id s)); reflexivity.
Qed.

Example stranger_typing_is_activity :
  is_idle (seconds 1000) sample_session = true
  /\ is_idle (seconds 1000) (set_typing_status (seconds 500) 9%N true sample_session) = false
  /\ user1_typing (set_typing_status (seconds 500) 9%N true sample_session) = false
  /\ user2_typing (set_typing_status (seconds 500) 9%N true sample_session) = false.
Proof. repeat split; reflexivity. Qed.

(** *** Suggesting a turn switch *)

(** X20. No switch is suggested before the first switch, however long the
    session has run; after a switch at [now] one is suggested exactly from
    later than 10 minutes after [now], when automatic switching is on. *)
Theorem turn_switch_suggestion :
  forall (s : t) (now t : datetime),
    (turn_switched_at s = None -> should_suggest_turn_switch t s = false)
    /\ should_suggest_turn_switch t (snd (switch_turn_language now s))
       = auto_turn_switch_enabled s && (now + timedelta_minutes 10 <? t).
Proof.
  intros s now t. split.
  - intros Hnone. unfold should_suggest_turn_switch. rewrite Hnone.
    destruct (auto_turn_switch_enabled s); reflexivity.
  - rewrite SessionFacts.switch_turn_language_fields.
    unfold should_suggest_turn_switch. cbn. rewrite ltb_shift.
    destruct (auto_turn_switch_enabled s); reflexivity.
Qed.

Lemma turn_switch_suggestion_witness :
  should_suggest_turn_switch (seconds 100000) sample_session = false
  /\ should_suggest_turn_switch (seconds 700)
       (snd (switch_turn_language (seconds 60) sample_session)) = true.
Proof.
  pose proof (turn_switch_suggestion sample_session (seconds 60) (seconds 100000)) as [H1 _].
  pose proof (turn_switch_suggestion sample_session (seconds 60) (seconds 700)) as [_ H2].
  split; [apply H1; reflexivity | rewrite H2; reflexivity].
Defined.

(** *** Planned duration *)

Lemma remaining_not_positive (planned elapsed : Z) :
  (inject_Z planned - inject_Z elapsed / inject_Z microseconds_per_second / 60 <= 0)%Q
  <-> planned * 60 * microseconds_per_second <= elapsed.
Proof.
  unfold microseconds_per_second.
  rewrite (Zle_Qle (planned * 60 * 1000000) elapsed), !inject_Z_mult.
  change (inject_Z 60) with 60%Q. change (inject_Z 1000000) with 1000000%Q.
  set (p := inject_Z planned). set (x := inject_Z elapsed).
  assert (E : (p * 60 * 1000000 - x == (p - x / 1000000 / 60) * 60000000)%Q) by field.
  set (q := (p - x / 1000000 / 60)%Q) in *.
  split; intros H; lra.
Qed.

(** Over the naive timestamps of [Session], in exact arithmetic: the time
    remaining is never negative, it is positive exactly while the session
    has not ended and has run for less than its planned duration, and it is
    zero whenever the session is overdue. *)
Lemma time_remaining_and_overdue_naive :
  forall (s : t) (now : datetime),
    (0 <= time_remaining_minutes now s)%Q
    /\ ((0 < time_remaining_minutes now s)%Q <->
          is_ended s = false
          /\ now - started_at s < planned_duration_minutes s * 60 * microseconds_per_second)
    /\ (is_overdue now s = true -> (time_remaining_minutes now s == 0)%Q)
    /\ (is_ended s = true ->
        is_overdue now s = false /\ is_idle now s = false
        /\ time_remaining_minutes now s = 0%Q).
Proof.
  intros s now. unfold time_remaining_minutes, is_overdue, is_idle.
  destruct (is_ended s) eqn:E.
  - split; [lra |]. split; [split; [lra | intros [? _]; discriminate] |].
    split; [discriminate | auto].
  - pose proof (remaining_not_positive (planned_duration_minutes s) (now - started_at s))
      as Hsign.
    unfold py_max. cbn [flt Q_ops].
    destruct (Qle_bool _ 0) eqn:L; cbn [negb].
    + apply Qle_bool_iff in L. pose proof (proj1 Hsign L) as Hz.
      split; [lra |]. split; [split; [lra | intros [_ ?]; lia] |].
      split; [reflexivity | discriminate].
    + assert (Hpos : ~ (inject_Z (planned_duration_minutes s)
                        - inject_Z (now - started_at s)
                          / inject_Z microseconds_per_second / 60 <= 0)%Q).
      { intros H. apply Qle_bool_iff in H. congruence. }
      assert (Hz : now - started_at s
                   < planned_duration_minutes s * 60 * microseconds_per_second).
      { apply Z.nle_gt. intros H. apply Hpos, Hsign, H. }
      apply Qnot_le_lt in Hpos.
      split; [lra |]. split; [split; [auto | intros _; exact Hpos] |].
      split; [| discriminate].
      intros Hover. apply Z.ltb_lt in Hover. lia.
Qed.

Example time_remaining_of_sample_session :
  (time_remaining_minutes (seconds 600) sample_session == 15)%Q
  /\ is_overdue (seconds 1500) sample_session = false
  /\ (time_remaining_minutes (seconds 1500) sample_session == 0)%Q
  /\ is_overdue (seconds 1500 + 1) sample_session = true.
Proof. repeat split; reflexivity. Qed.

(** *** Moderation flags *)

Lemma toxic_count_app (l1 l2 : list ModerationFlag) :
  toxic_count (l1 ++ l2) = toxic_count l1 + toxic_count l2.
Proof. unfold toxic_count. rewrite List.filter_app, length_app. lia. Qed.

Lemma add_moderation_flag_fields (now : datetime) (type : string)
    (details : gmap string string) (s : t) :
  let flag := flag_of_event (now, type, details) in
  let s' := add_moderation_flag now type details s in
  moderation_flags s' = (moderation_flags s ++ [flag])%list
  /\ toxicity_warnings s' = toxicity_warnings s + toxic_count [flag]
  /\ state s' = state s.
Proof.
  cbv zeta. unfold add_moderation_flag, toxic_count, flag_of_event.
  cbn [List.filter flag_type fst snd].
  destruct (bool_decide (type ∈ ["toxicity"; "inappropriate_content"]));
    cbn; repeat split; try reflexivity; lia.
Qed.

(** X22. The moderation log only grows, by one flag per call and in call order,
    and [toxicity_warnings] grows by the number of added flags whose type is
    "toxicity" or "inappropriate_content"; the state of the session is never
    touched, whatever the number of warnings. *)
Theorem moderation_log_grows :
  forall (events : list flag_event) (s : t),
    moderation_flags (add_moderation_flags events s)
    = (moderation_flags s ++ map flag_of_event events)%list
    /\ toxicity_warnings (add_moderation_flags events s)
       = toxicity_warnings s + toxic_count (map flag_of_event events)
    /\ state (add_moderation_flags events s) = state s.
Proof.
  induction events as [| [[now type] details] events IH]; intros s.
  - cbn. rewrite app_nil_r. unfold toxic_count. cbn. repeat split; try reflexivity; lia.
  - change (add_moderation_flags ((now, type, details) :: events) s)
      with (add_moderation_flags events (add_moderation_flag now type details s)).
    destruct (IH (add_moderation_flag now type details s)) as (IH1 & IH2 & IH3).
    destruct (add_moderation_flag_fields now type details s) as (F1 & F2 & F3).
    rewrite IH1, IH2, IH3, F1, F2, F3. cbn [map].
    change (flag_of_event (now, type, details) :: map flag_of_event events)
      with ([flag_of_event (now, type, details)] ++ map flag_of_event events)%list.
    rewrite toxic_count_app, <- app_assoc. repeat split; try reflexivity; lia.
Qed.

Example moderation_of_sample_session :
  let s := add_moderation_flags
             [(seconds 10, "toxicity", ∅); (seconds 20, "spam", ∅);
              (seconds 30, "inappropriate_content", ∅); (seconds 40, "toxicity", ∅)]
             sample_session in
  (length (moderation_flags s), toxicity_warnings s, state s)
  = (4%nat, 3, SessionState.ACTIVE).
Proof. reflexivity. Qed.

(** *** Prompts *)

Lemma advance_prompt_fields (s : t) :
  0 <= current_prompt_index s ->
  prompts_used (advance_prompt s) = prompts_used s
  /\ current_prompt_index (advance_prompt s)
     = if current_prompt_index s <? Z.of_nat (length (prompts_used s)) - 1
       then current_prompt_index s + 1
       else current_prompt_index s.
Proof.
  intros Hpos. unfold advance_prompt.
  destruct (prompts_used s) as [| p ps] eqn:E.
  - cbn. rewrite E. split; [reflexivity |].
    now rewrite (proj2 (Z.ltb_ge (current_prompt_index s) (Z.of_nat 0 - 1))) by lia.
  - rewrite bool_decide_eq_false_2 by discriminate. cbn [negb andb].
    destruct (current_prompt_index s <? Z.of_nat (length (p :: ps)) - 1);
      cbn; rewrite ?E; split; reflexivity.
Qed.

Lemma advance_prompts_index (n : nat) (s : t) :
  0 <= current_prompt_index s < Z.of_nat (length (prompts_used s)) ->
  prompts_used (advance_prompts n s) = prompts_used s
  /\ current_prompt_index (advance_prompts n s)
     = Z.min (current_prompt_index s + Z.of_nat n)
             (Z.of_nat (length (prompts_used s)) - 1).
Proof.
  intros Hin. induction n as [| n [IHp IHi]].
  - cbn. split; [reflexivity | lia].
  - change (advance_prompts (S n) s) with (advance_prompt (advance_prompts n s)).
    destruct (advance_prompt_fields (advance_prompts n s)) as [Fp Fi]; [lia |].
    rewrite Fp, Fi, IHp, IHi. split; [reflexivity |].
    destruct (Z.ltb_spec
                (Z.min (current_prompt_index s + Z.of_nat n)
                       (Z.of_nat (length (prompts_used s)) - 1))
                (Z.of_nat (length (prompts_used s)) - 1)); lia.
Qed.

Lemma get_current_prompt_in_range (s : t) :
  0 <= current_prompt_index s < Z.of_nat (length (prompts_used s)) ->
  exists prompt : string,
    get_current_prompt s = inr (Some prompt)
    /\ nth_error (prompts_used s) (Z.to_nat (current_prompt_index s)) = Some prompt.
Proof.
  intros Hin. unfold get_current_prompt, py_index.
  rewrite bool_decide_eq_false_2
    by (intros E; rewrite E in Hin; cbn in Hin; lia).
  rewrite (proj2 (Z.leb_gt _ _)) by lia. cbn [orb].
  rewrite (proj2 (Z.leb_le 0 _)) by lia.
  destruct (nth_error (prompts_used s) (Z.to_nat (current_prompt_index s))) as [p |] eqn:E.
  - exists p. split; reflexivity.
  - apply nth_error_None in E. lia.
Qed.

(** X23. From an index inside the list, [advance_prompt] moves one prompt
    forward and stops at the last one: after [n] calls the index is
    [min (index + n) (len - 1)], and [get_current_prompt] returns the prompt
    at that index, never [None]. *)
Theorem advance_prompt_stops_at_last :
  forall (s : t) (n : nat),
    0 <= current_prompt_index s < Z.of_nat (length (prompts_used s)) ->
    current_prompt_index (advance_prompts n s)
    = Z.min (current_prompt_index s + Z.of_nat n)
            (Z.of_nat (length (prompts_used s)) - 1)
    /\ exists prompt : string,
        get_current_prompt (advance_prompts n s) = inr (Some prompt)
        /\ nth_error (prompts_used s)
             (Z.to_nat (Z.min (current_prompt_index s + Z.of_nat n)
                              (Z.of_nat (length (prompts_used s)) - 1)))
           = Some prompt.
Proof.
  intros s n Hin. destruct (advance_prompts_index n s Hin) as [Hp Hi].
  split; [exact Hi |].
  destruct (get_current_prompt_in_range (advance_prompts n s)) as (p & G1 & G2).
  - rewrite Hp, Hi. lia.
  - exists p. split; [exact G1 |]. rewrite <- Hi, <- Hp. exact G2.
Qed.

Lemma advance_prompt_stops_at_last_witness :
  current_prompt_index (advance_prompts 5 prompted_session)
  = Z.min (current_prompt_index prompted_session + Z.of_nat 5)
          (Z.of_nat (length (prompts_used prompted_session)) - 1)
  /\ exists prompt : string,
      get_current_prompt (advance_prompts 5 prompted_session) = inr (Some prompt)
      /\ nth_error (prompts_used prompted_session)
           (Z.to_nat (Z.min (current_prompt_index prompted_session + Z.of_nat 5)
                            (Z.of_nat (length (prompts_used prompted_session)) - 1)))
         = Some prompt.
Proof.
  apply (advance_prompt_stops_at_last prompted_session 5).
  split; [apply Z.leb_le | apply Z.ltb_lt]; reflexivity.
Defined.

Example prompts_of_prompted_session :
  map (fun n => get_current_prompt (advance_prompts n prompted_session)) [0; 1; 2; 3]%nat
  = [inr (Some "hobbies"); inr (Some "travel"); inr (Some "food"); inr (Some "food")].
Proof. reflexivity. Qed.

(** X24. Outside the list: no prompts or an index at or past the end give
    [None]; an index below zero counts from the end, as Python's list
    indexing does, and one below [-len] raises [IndexError]. *)
Theorem get_current_prompt_out_of_range :
  forall s : t,
    let n := Z.of_nat (length (prompts_used s)) in
    (prompts_used s = [] \/ n <= current_prompt_index s -> get_current_prompt s = inr None)
    /\ (- n <= current_prompt_index s < 0 ->
        exists prompt : string,
          get_current_prompt s = inr (Some prompt)
          /\ nth_error (prompts_used s) (Z.to_nat (n + current_prompt_index s))
             = Some prompt)
    /\ (prompts_used s <> [] -> current_prompt_index s < - n ->
        get_current_prompt s = inl IndexError).
Proof.
  intros s n. subst n. unfold get_current_prompt, py_index. split; [| split].
  - intros [E | Hge].
    + now rewrite bool_decide_eq_true_2 by exact E.
    + rewrite (proj2 (Z.leb_le _ _) Hge). now rewrite orb_true_r.
  - intros Hin.
    rewrite bool_decide_eq_false_2
      by (intros E; rewrite E in Hin; cbn in Hin; lia).
    rewrite (proj2 (Z.leb_gt _ _)) by lia. cbn [orb].
    rewrite (proj2 (Z.leb_gt 0 _)) by lia.
    rewrite (proj2 (Z.leb_le _ _)) by lia.
    destruct (nth_error (prompts_used s)
                (Z.to_nat (Z.of_nat (length (prompts_used s)) + current_prompt_index s)))
      as [p |] eqn:E.
    + exists p. split; reflexivity.
    + apply nth_error_None in E. lia.
  - intros Hne Hlt.
    rewrite bool_decide_eq_false_2 by exact Hne.
    rewrite (proj2 (Z.leb_gt _ _)) by lia. cbn [orb].
    rewrite (proj2 (Z.leb_gt 0 _)) by lia.
    now rewrite (proj2 (Z.leb_gt _ _)) by lia.
Qed.

Lemma get_current_prompt_out_of_range_witness :
  get_current_prompt sample_session = inr None
  /\ get_current_prompt (with_prompts ["hobbies"; "travel"; "food"] 3 sample_session)
     = inr None
  /\ (exists prompt : string,
         get_current_prompt (with_prompts ["hobbies"; "travel"; "food"] (-1) sample_session)
         = inr (Some prompt)
         /\ nth_error ["hobbies"; "travel"; "food"] (Z.to_nat (3 + -1)) = Some prompt)
  /\ get_current_prompt (with_prompts ["hobbies"; "travel"; "food"] (-4) sample_session)
     = inl IndexError.
Proof.
  split; [| split; [| split]].
  - apply (proj1 (get_current_prompt_out_of_range sample_session)). now left.
  - apply (proj1 (get_current_prompt_out_of_range
                    (with_prompts ["hobbies"; "travel"; "food"] 3 sample_session))).
    right. apply Z.leb_le. reflexivity.
  - apply (proj1 (proj2 (get_current_prompt_out_of_range
                    (with_prompts ["hobbies"; "travel"; "food"] (-1) sample_session)))).
    split; [apply Z.leb_le | apply Z.ltb_lt]; reflexivity.
  - apply (proj2 (proj2 (get_current_prompt_out_of_range
                    (with_prompts ["hobbies"; "travel"; "food"] (-4) sample_session)))).
    + discriminate.
    + apply Z.ltb_lt. reflexivity.
Defined.

(** *** Participants *)

(** X25. [is_participant] tells exactly when [get_partner_id] answers: a
    participant gets a participant, whose partner is the first user again;
    anybody else gets the [ValueError]. *)
Theorem session_partner :
  forall (s : t) (uid : UUID),
    (is_participant uid s = true ->
     exists p : UUID,
       get_partner_id uid s = inr p
       /\ is_participant p s = true
       /\ get_partner_id p s = inr uid)
    /\ (is_participant uid s = false ->
        get_partner_id uid s = inl (ValueError "User ID not found in this session")).
Proof.
  intros s uid. unfold is_participant, get_partner_id. split.
  - intros Hin. apply bool_decide_eq_true in Hin.
    rewrite !elem_of_cons, elem_of_nil in Hin.
    destruct (decide (uid = user1_id s)) as [E1 | N1].
    + exists (user2_id s). split; [reflexivity |]. split.
      * apply bool_decide_eq_true. rewrite !elem_of_cons. right. now left.
      * destruct (decide (user2_id s = user1_id s)); [congruence |].
        rewrite decide_True by reflexivity. congruence.
    + destruct Hin as [E | [E | []]]; [contradiction |].
      rewrite decide_True by exact E.
      exists (user1_id s). split; [reflexivity |]. split.
      * apply bool_decide_eq_true. rewrite !elem_of_cons. now left.
      * rewrite decide_True by reflexivity. congruence.
  - intros Hout. apply bool_decide_eq_false in Hout.
    rewrite !elem_of_cons, elem_of_nil in Hout.
    rewrite decide_False by tauto. now rewrite decide_False by tauto.
Qed.

Lemma session_partner_witness :
  (exists p : UUID,
      get_partner_id 1%N sample_session = inr p
      /\ is_participant p sample_session = true
      /\ get_partner_id p sample_session = inr 1%N)
  /\ get_partner_id 9%N sample_session
     = inl (ValueError "User ID not found in this session").
Proof.
  split.
  - apply (proj1 (session_partner sample_session 1%N)). reflexivity.
  - apply (proj2 (session_partner sample_session 9%N)). reflexivity.
Defined.

End LifecycleFacts.

(** ** The session lifecycle on rows with aware timestamps *)

Module TimezoneFacts.
Import TzSession.

(** On naive timestamps the methods are the ones of [Session]. *)
Lemma pause_session_naive (now : datetime) (why : string) (s : t) :
  started_at_tz s = NAIVE -> paused_at_tz s = NAIVE ->
  pause_session now why s
  = Returned {| columns := Session.pause_session now why (columns s);
                started_at_tz := NAIVE; paused_at_tz := NAIVE;
                last_activity_at_tz := last_activity_at_tz s |}.
Proof.
  destruct s as [c st pt lt]. cbn. intros -> ->.
  unfold pause_session, Session.pause_session.
  cbn [columns started_at_tz paused_at_tz last_activity_at_tz].
  destruct (decide (Session.state c = SessionState.ACTIVE)); [| reflexivity].
  destruct (Session.paused_at c); reflexivity.
Qed.

Lemma end_session_naive (now : datetime) (reason : SessionEndReason.t)
    (by_user : option UUID) (s : t) :
  started_at_tz s = NAIVE -> paused_at_tz s = NAIVE ->
  end_session now reason by_user s
  = Returned {| columns := Session.end_session now reason by_user (columns s);
                started_at_tz := NAIVE; paused_at_tz := NAIVE;
                last_activity_at_tz := last_activity_at_tz s |}.
Proof.
  destruct s as [c st pt lt]. cbn. intros -> ->.
  unfold end_session, Session.end_session.
  cbn [columns started_at_tz paused_at_tz last_activity_at_tz].
  destruct (Session.is_ended c); [reflexivity |].
  destruct (decide (Session.state c = SessionState.ACTIVE)).
  - destruct (Session.paused_at c); reflexivity.
  - destruct (decide (Session.state c = SessionState.PAUSED)); [| reflexivity].
    destruct (Session.paused_at c); reflexivity.
Qed.


(** *** Ending *)

(** No method subtracts a timestamp on an ended session. *)
Lemma ended_stays_as_it_is (s : t) :
  Session.is_ended (columns s) = true ->
  (forall (now : datetime) (reason : SessionEndReason.t) (by_user : option UUID),
      end_session now reason by_user s = Returned s)
  /\ (forall (now now2 : datetime) (why : string),
        pause_session now why s = Returned s
        /\ resume_session now now2 s = Returned s).
Proof.
  intros Hended. split.
  - intros now reason by_user. unfold end_session. now rewrite Hended.
  - intros now now2 why. rewrite LifecycleFacts.is_ended_by_state in Hended.
    unfold pause_session, resume_session.
    destruct (Session.state (columns s)); try discriminate; split; reflexivity.
Qed.

(** When [end_session] returns, the session has ended. *)
Lemma end_session_returns_ended (now : datetime) (reason : SessionEndReason.t)
    (by_user : option UUID) (s s' : t) :
  end_session now reason by_user s = Returned s' ->
  Session.is_ended (columns s') = true.
Proof.
  unfold end_session.
  destruct (Session.is_ended (columns s)) eqn:E.
  - intros [= <-]. exact E.
  - match goal with |- context [match ?c with inl _ => _ | inr _ => _ end] =>
      destruct c as [e | c'] end; [discriminate |].
    intros [= <-]. cbn [columns]. rewrite LifecycleFacts.is_ended_by_state.
    destruct reason; reflexivity.
Qed.

(** When [end_session] raises, nothing was assigned. *)
Lemma end_session_raises_unchanged (now : datetime) (reason : SessionEndReason.t)
    (by_user : option UUID) (s s' : t) (e : type_error) :
  end_session now reason by_user s = Raised e s' ->
  s' = s /\ Session.is_ended (columns s) = false
  /\ (started_at_tz s = AWARE \/ paused_at_tz s = AWARE).
Proof.
  unfold end_session.
  destruct (Session.is_ended (columns s)) eqn:E; [discriminate |].
  destruct (started_at_tz s) eqn:Hs, (paused_at_tz s) eqn:Hp.
  - (* both naive: the call returns *)
    destruct (decide (Session.state (columns s) = SessionState.ACTIVE)).
    + destruct (Session.paused_at (columns s)); discriminate.
    + destruct (decide (Session.state (columns s) = SessionState.PAUSED)); [| discriminate].
      destruct (Session.paused_at (columns s)); discriminate.
  - match goal with |- context [match ?c with inl _ => _ | inr _ => _ end] =>
      destruct c as [e' | c'] end; [| discriminate].
    intros [= _ <-]. auto.
  - match goal with |- context [match ?c with inl _ => _ | inr _ => _ end] =>
      destruct c as [e' | c'] end; [| discriminate].
    intros [= _ <-]. auto.
  - match goal with |- context [match ?c with inl _ => _ | inr _ => _ end] =>
      destruct c as [e' | c'] end; [| discriminate].
    intros [= _ <-]. auto.
Qed.

(** X16. [end_session] either returns, and then the session has ended and is
    final (ending it again at another time or for another reason, pausing
    it or resuming it returns it unchanged, so the first end wins), or
    raises TypeError, and then the session is as it was, had not ended, and
    holds an aware timestamp.  A session that had ended is returned
    unchanged whatever its timestamps; on naive timestamps the call returns
    what [Session.end_session] computes; an Active session that was never
    paused and whose [started_at] is aware makes the call raise. *)
Theorem end_session_final_or_type_error :
  forall (s : t) (now : datetime) (reason : SessionEndReason.t) (by_user : option UUID),
    match end_session now reason by_user s with
    | Returned s' =>
        Session.is_ended (columns s') = true
        /\ (forall (now' : datetime) (reason' : SessionEndReason.t) (by_user' : option UUID),
              end_session now' reason' by_user' s' = Returned s')
        /\ (forall (now' now2 : datetime) (why : string),
              pause_session now' why s' = Returned s'
              /\ resume_session now' now2 s' = Returned s')
    | Raised e s' =>
        s' = s /\ Session.is_ended (columns s) = false
        /\ (started_at_tz s = AWARE \/ paused_at_tz s = AWARE)
    end
    /\ (Session.is_ended (columns s) = true -> end_session now reason by_user s = Returned s)
    /\ (started_at_tz s = NAIVE -> paused_at_tz s = NAIVE ->
        end_session now reason by_user s
        = Returned {| columns := Session.end_session now reason by_user (columns s);
                      started_at_tz := NAIVE; paused_at_tz := NAIVE;
                      last_activity_at_tz := last_activity_at_tz s |})
    /\ (Session.state (columns s) = SessionState.ACTIVE ->
        Session.paused_at (columns s) = None -> started_at_tz s = AWARE ->
        end_session now reason by_user s = Raised TypeError s).
Proof.
  intros s now reason by_user. split; [| split; [| split]].
  - destruct (end_session now reason by_user s) as [s' | e s'] eqn:E.
    + pose proof (end_session_returns_ended _ _ _ _ _ E) as Hended.
      split; [exact Hended |]. apply ended_stays_as_it_is, Hended.
    + apply (end_session_raises_unchanged _ _ _ _ _ _ E).
  - intros Hended. apply ended_stays_as_it_is, Hended.
  - apply end_session_naive.
  - intros Hs Hp Htz. unfold end_session.
    rewrite LifecycleFacts.is_ended_by_state, Hs.
    destruct (decide (SessionState.ACTIVE = SessionState.ACTIVE)); [| congruence].
    rewrite Hp, Htz. reflexivity.
Qed.

Lemma end_session_final_or_type_error_witness :
  (exists s' : t,
      end_session (seconds 180) SessionEndReason.COMPLETED None (naive_session resumed_session)
      = Returned s'
      /\ Session.state (columns s') = SessionState.ENDED
      /\ end_session (seconds 500) SessionEndReason.USER_LEFT (Some 2%N) s' = Returned s'
      /\ pause_session (seconds 500) "disconnection" s' = Returned s')
  /\ end_session (seconds 180) SessionEndReason.COMPLETED None (loaded_session sample_session)
     = Raised TypeError (loaded_session sample_session)
  /\ end_session (seconds 180) SessionEndReason.COMPLETED None (loaded_session ended_session)
     = Returned (loaded_session ended_session).
Proof.
  split; [| split].
  - pose proof (end_session_final_or_type_error (naive_session resumed_session)
                  (seconds 180) SessionEndReason.COMPLETED None) as H.
    destruct H as (H & _ & Hn & _).
    specialize (Hn eq_refl eq_refl).
    destruct (end_session (seconds 180) SessionEndReason.COMPLETED None
                (naive_session resumed_session)) as [s' | e s'] eqn:E; [| discriminate Hn].
    exists s'. destruct H as (_ & He & Hp).
    split; [reflexivity |].
    split; [injection Hn as ->; vm_compute; reflexivity |].
    split; [apply He | apply (Hp (seconds 500) 0)].
  - exact (proj2 (proj2 (proj2 (end_session_final_or_type_error (loaded_session sample_session)
             (seconds 180) SessionEndReason.COMPLETED None))) eq_refl eq_refl eq_refl).
  - exact (proj1 (proj2 (end_session_final_or_type_error (loaded_session ended_session)
             (seconds 180) SessionEndReason.COMPLETED None)) eq_refl).
Defined.

(** *** Pause, then end *)

Lemma pause_session_first_naive (now : datetime) (why : string) (s : t) :
  Session.state (columns s) = SessionState.ACTIVE ->
  Session.paused_at (columns s) = None ->
  started_at_tz s = NAIVE ->
  pause_session now why s
  = Returned {| columns := Session.pause_session now why (columns s);
                started_at_tz := NAIVE; paused_at_tz := NAIVE;
                last_activity_at_tz := last_activity_at_tz s |}.
Proof.
  intros Hs Hp Htz. unfold pause_session, Session.pause_session.
  rewrite Hs, Hp, Htz.
  destruct (decide (SessionState.ACTIVE = SessionState.ACTIVE)); [| congruence].
  reflexivity.
Qed.

(** X17. A session that is Active and was never paused, paused once and
    ended without having been resumed, all within 2^32 seconds of its
    start.  When [started_at] is naive both calls return, the session has
    ended, the active time is the whole seconds before the pause, the
    paused time the whole seconds after it, and together they are the whole
    seconds of the session or one second less (each span is truncated on
    its own).  When [started_at] is aware, [pause_session] raises TypeError
    and the session is as it was. *)
Theorem pause_then_end_durations_bounded :
  forall (s : t) (t_pause t_end : datetime) (why : string)
         (reason : SessionEndReason.t) (by_user : option UUID),
    Session.state (columns s) = SessionState.ACTIVE ->
    Session.paused_at (columns s) = None ->
    Session.started_at (columns s) <= t_pause -> t_pause <= t_end ->
    t_end - Session.started_at (columns s) < span_limit ->
    match started_at_tz s with
    | AWARE => pause_session t_pause why s = Raised TypeError s
    | NAIVE =>
        exists s1 s2 : t,
          pause_session t_pause why s = Returned s1
          /\ end_session t_end reason by_user s1 = Returned s2
          /\ Session.is_ended (columns s2) = true
          /\ Session.active_duration_seconds (columns s2)
             = Session.active_duration_seconds (columns s)
               + int_total_seconds (t_pause - Session.started_at (columns s))
          /\ Session.paused_duration_seconds (columns s2)
             = Session.paused_duration_seconds (columns s)
               + int_total_seconds (t_end - t_pause)
          /\ int_total_seconds (t_end - Session.started_at (columns s)) - 1
             <= (Session.active_duration_seconds (columns s2)
                 - Session.active_duration_seconds (columns s))
                + (Session.paused_duration_seconds (columns s2)
                   - Session.paused_duration_seconds (columns s))
             <= int_total_seconds (t_end - Session.started_at (columns s))
    end.
Proof.
  intros s t_pause t_end why reason by_user Hs Hp H1 H2 Hspan.
  destruct (started_at_tz s) eqn:Htz.
  - pose proof (pause_session_first_naive t_pause why s Hs Hp Htz) as E1.
    set (s1 := {| columns := Session.pause_session t_pause why (columns s);
                  started_at_tz := NAIVE; paused_at_tz := NAIVE;
                  last_activity_at_tz := last_activity_at_tz s |}) in E1.
    pose proof (end_session_naive t_end reason by_user s1 eq_refl eq_refl) as E2.
    exists s1. eexists. split; [exact E1 |]. split; [exact E2 |].
    split; [exact (end_session_returns_ended _ _ _ _ _ E2) |].
    cbn [columns s1].
    apply (LifecycleFacts.pause_then_end_durations_naive (columns s) t_pause t_end why reason by_user
             Hs Hp H1 H2).
  - unfold pause_session. rewrite Hs, Hp, Htz.
    destruct (decide (SessionState.ACTIVE = SessionState.ACTIVE)); [| congruence].
    reflexivity.
Qed.


Lemma pause_then_end_durations_bounded_witness :
  (exists s1 s2 : t,
      pause_session (seconds 59 + 600000) "disconnection" (naive_session sample_session)
      = Returned s1
      /\ end_session (seconds 660 + 200000) SessionEndReason.USER_LEFT (Some 1%N) s1
         = Returned s2
      /\ Session.is_ended (columns s2) = true
      /\ Session.active_duration_seconds (columns s2) = 0 + 59
      /\ Session.paused_duration_seconds (columns s2) = 0 + 600
      /\ 660 - 1
         <= (Session.active_duration_seconds (columns s2) - 0)
            + (Session.paused_duration_seconds (columns s2) - 0)
         <= 660)
  /\ pause_session (seconds 60) "disconnection" (loaded_session sample_session)
     = Raised TypeError (loaded_session sample_session).
Proof.
  split.
  - apply (pause_then_end_durations_bounded (naive_session sample_session)
             (seconds 59 + 600000) (seconds 660 + 200000) "disconnection"
             SessionEndReason.USER_LEFT (Some 1%N));
      [reflexivity | reflexivity | apply Z.leb_le; reflexivity
       | apply Z.leb_le; reflexivity | apply Z.ltb_lt; reflexivity].
  - apply (pause_then_end_durations_bounded (loaded_session sample_session)
             (seconds 60) (seconds 60) "disconnection" SessionEndReason.USER_LEFT None);
      [reflexivity | reflexivity | apply Z.leb_le; reflexivity
       | apply Z.leb_le; reflexivity | apply Z.ltb_lt; reflexivity].
Defined.

(** *** Planned duration *)

Lemma clock_properties_naive (now : datetime) (s : t) :
  started_at_tz s = NAIVE ->
  is_overdue now s = inr (Session.is_overdue now (columns s))
  /\ time_remaining_minutes now s = inr (Session.time_remaining_minutes now (columns s)).
Proof.
  intros Htz. unfold is_overdue, time_remaining_minutes, Session.is_overdue,
    Session.time_remaining_minutes.
  rewrite Htz. destruct (Session.is_ended (columns s)); split; reflexivity.
Qed.

(** X21. A session that has ended is never overdue, never idle, and has no
    time remaining, whatever its timestamps.  On a session that has not
    ended, [is_overdue] and [time_remaining_minutes] raise TypeError when
    [started_at] is aware.  When it is naive, within 2^32 seconds of the
    start and for a planned duration that fits the Integer column, the
    time remaining (in exact arithmetic) is never negative, is positive
    exactly while the session has run for less than its planned duration,
    and is zero from the planned duration on; the session is overdue
    exactly when it has run for more than its planned duration. *)
Theorem time_remaining_and_overdue_checked :
  forall (s : t) (now : datetime),
    (Session.is_ended (columns s) = true ->
     is_overdue now s = inr false /\ is_idle now s = inr false
     /\ time_remaining_minutes now s = inr 0%Q)
    /\ (Session.is_ended (columns s) = false -> started_at_tz s = AWARE ->
        is_overdue now s = inl TypeError
        /\ time_remaining_minutes now s = inl TypeError)
    /\ (Session.is_ended (columns s) = false -> started_at_tz s = NAIVE ->
        Z.abs (now - Session.started_at (columns s)) < span_limit ->
        - 2 ^ 31 <= Session.planned_duration_minutes (columns s) < 2 ^ 31 ->
        exists r : Q,
          time_remaining_minutes now s = inr r
          /\ (0 <= r)%Q
          /\ ((0 < r)%Q <->
                now - Session.started_at (columns s)
                < Session.planned_duration_minutes (columns s) * 60 * microseconds_per_second)
          /\ is_overdue now s
             = inr (Session.planned_duration_minutes (columns s) * 60 * microseconds_per_second
                    <? now - Session.started_at (columns s))
          /\ (Session.planned_duration_minutes (columns s) * 60 * microseconds_per_second
              <= now - Session.started_at (columns s) -> (r == 0)%Q)).
Proof.
  intros s now. split; [| split].
  - intros Hended. unfold is_overdue, is_idle, time_remaining_minutes.
    rewrite Hended. auto.
  - intros Hne Htz. unfold is_overdue, time_remaining_minutes.
    rewrite Hne, Htz. auto.
  - intros Hne Htz _ _.
    destruct (clock_properties_naive now s Htz) as (Eo & Er).
    destruct (LifecycleFacts.time_remaining_and_overdue_naive (columns s) now)
      as (R0 & Rpos & _ & _).
    exists (Session.time_remaining_minutes now (columns s)).
    split; [exact Er |]. split; [exact R0 |]. split.
    + rewrite Rpos. split; [intros [_ H]; exact H | intros H; split; [exact Hne | exact H]].
    + split.
      * rewrite Eo. unfold Session.is_overdue. now rewrite Hne.
      * intros Hle.
        assert (Hn : ~ (0 < Session.time_remaining_minutes now (columns s))%Q).
        { rewrite Rpos. intros [_ H]. lia. }
        lra.
Qed.

Lemma time_remaining_and_overdue_checked_witness :
  (exists r : Q,
      time_remaining_minutes (seconds 600) (naive_session sample_session) = inr r
      /\ (0 < r)%Q)
  /\ is_overdue (seconds 600) (loaded_session sample_session) = inl TypeError
  /\ is_overdue (seconds 5000) (loaded_session ended_session) = inr false.
Proof.
  split; [| split].
  - destruct (proj2 (proj2 (time_remaining_and_overdue_checked
                              (naive_session sample_session) (seconds 600)))
                eq_refl eq_refl) as (r & Er & _ & Hpos & _).
    + apply Z.ltb_lt. reflexivity.
    + split; [apply Z.leb_le | apply Z.ltb_lt]; reflexivity.
    + exists r. split; [exact Er |]. apply Hpos. apply Z.ltb_lt. reflexivity.
  - exact (proj1 (proj1 (proj2 (time_remaining_and_overdue_checked
                                  (loaded_session sample_session) (seconds 600)))
                    eq_refl eq_refl)).
  - exact (proj1 (proj1 (time_remaining_and_overdue_checked
                           (loaded_session ended_session) (seconds 5000)) eq_refl)).
Defined.

End TimezoneFacts.
